(** * SolSentry: the on-chain heuristics and tokenomics analyses

    A shallow embedding of [performSecurityChecks] (On-Chain Heuristics
    module) and [performTokenomicsAnalysis] (Tokenomics.js), with the
    properties of the risk report that the design document states.

    The network is the only source of input: every provider call is a
    function of the request that either resolves with a payload or rejects.
    A run is a function of those responses; an uncaught JavaScript exception
    is an explicit outcome of the run. *)

From Stdlib Require Import ZArith QArith List String Ascii Bool Lia.
From Stdlib Require Import DecimalString.
Import ListNotations.

Open Scope string_scope.
Open Scope Z_scope.

(** ** JavaScript values and control *)
Module JS.

(** The two exceptions the analyses can raise and do not catch. *)
Inductive exn : Type :=
| TypeError (msg : string)
| RangeError (msg : string).

(** Result of running a function body: it returns, or an exception escapes. *)
Inductive outcome (A : Type) : Type :=
| Returned (a : A)
| Thrown (e : exn).

Arguments Returned {A} a.
Arguments Thrown {A} e.

Definition bind {A B : Type} (m : outcome A) (k : A -> outcome B) : outcome B :=
  match m with
  | Returned a => k a
  | Thrown e => Thrown e
  end.

Notation "x <- m ;; k" := (bind m (fun x => k))
  (at level 61, m at next level, right associativity).

(** A settled promise of a provider call ([axios.get], [getMint]). *)
Inductive fetch (A : Type) : Type :=
| Resolved (a : A)
| Rejected (msg : string).

Arguments Resolved {A} a.
Arguments Rejected {A} msg.

(** [try { return response.data.data || dflt } catch { return dflt }]:
    [None] is a body without the field (or with a falsy one). *)
Definition data_or {A : Type} (dflt : A) (resp : fetch (option A)) : A :=
  match resp with
  | Resolved (Some a) => a
  | Resolved None => dflt
  | Rejected _ => dflt
  end.

(** [hay.includes(needle)] *)
Definition includes (needle hay : string) : bool :=
  match String.index 0 needle hay with
  | Some _ => true
  | None => false
  end.

Definition ascii_lower (c : ascii) : ascii :=
  let n := nat_of_ascii c in
  if andb (Nat.leb 65 n) (Nat.leb n 90) then ascii_of_nat (n + 32) else c.

(** [s.toLowerCase()] on the letters A-Z. *)
Fixpoint toLowerCase (s : string) : string :=
  match s with
  | EmptyString => EmptyString
  | String c s' => String (ascii_lower c) (toLowerCase s')
  end.

(** Template-literal rendering of an integer. *)
Definition string_of_Z (z : Z) : string :=
  NilZero.string_of_int (Z.to_int z).

(** *** BigInt arithmetic

    A BigInt is an unbounded integer: [Z].  [a / b] truncates toward zero and
    raises [RangeError] on a zero divisor. *)
Definition bigint_div (a b : Z) : outcome Z :=
  if b =? 0 then Thrown (RangeError "Division by zero")
  else Returned (Z.quot a b).

(** *** Numbers holding integers

    A Number is a binary64 value.  The ones built by [Number(bigint)] and by
    adding such values are integers or infinities or NaN. *)
Inductive number : Type :=
| Fin (z : Z)
| PInf
| NInf
| NaN.

(** Round to nearest, ties to even, at 53 bits of precision. *)
Definition round53 (z : Z) : Z :=
  let a := Z.abs z in
  if a <? 2 ^ 53 then z
  else
    let e := Z.log2 a - 52 in
    let q := Z.shiftr a e in
    let r := Z.land a (Z.ones e) in
    let half := Z.shiftl 1 (e - 1) in
    let q' := if r <? half then q
              else if half <? r then q + 1
              else if Z.even q then q else q + 1 in
    Z.sgn z * Z.shiftl q' e.

(** The binary64 value nearest to an integer; overflows to an infinity. *)
Definition double_of_Z (z : Z) : number :=
  let r := round53 z in
  if 2 ^ 1024 <=? Z.abs r then (if z <? 0 then NInf else PInf) else Fin r.

(** [Number(b)] for a BigInt [b]. *)
Definition Number_of_BigInt (b : Z) : number := double_of_Z b.

(** [x + y] *)
Definition num_add (x y : number) : number :=
  match x, y with
  | NaN, _ | _, NaN => NaN
  | PInf, NInf | NInf, PInf => NaN
  | PInf, _ | _, PInf => PInf
  | NInf, _ | _, NInf => NInf
  | Fin a, Fin b => double_of_Z (a + b)
  end.

(** [x > k] for an integer literal [k]. *)
Definition num_gt (x : number) (k : Z) : bool :=
  match x with
  | Fin a => k <? a
  | PInf => true
  | NInf => false
  | NaN => false
  end.

(** [a < b] and [a > b] on finite JSON numbers. *)
Definition Qltb (a b : Q) : bool := negb (Qle_bool b a).

(** [a > b] where either side may be [undefined]: then the test is false. *)
Definition opt_gt (a b : option Q) : bool :=
  match a, b with
  | Some x, Some y => Qltb y x
  | _, _ => false
  end.

(** [x || 0] for a JSON number that may be missing. *)
Definition or_zeroQ (x : option Q) : Q :=
  match x with
  | Some q => if Qeq_bool q 0 then 0%Q else q
  | None => 0%Q
  end.

End JS.
Import JS.

(** ** Provider payloads *)

(** [getMint]: the on-chain mint account. *)
Record MintInfo : Type := {
  mint_mintAuthority : option string;
  mint_freezeAuthority : option string;
  mint_decimals : Z;
  mint_supply : Z
}.

Record Creator : Type := {
  creator_address : string;
  creator_share : Z
}.

(** Solscan [token/meta]. *)
Record TokenMeta : Type := {
  meta_creator : option Creator;
  meta_supply : option Z;
  meta_decimals : option Z;
  meta_holder : option Z;
  meta_name : string;
  meta_description : option string
}.

(** Solscan [token/holders] row. *)
Record Holder : Type := {
  holder_owner : string;
  holder_amount : Z
}.

(** DEXScreener pair; [liquidity?.usd] and [volume?.h24] may be missing. *)
Record Pair : Type := {
  pair_dexId : string;
  pair_pairAddress : string;
  pair_liquidity_usd : option Q;
  pair_volume_h24 : option Q
}.

(** Solscan [token/txns] row. *)
Record Tx : Type := {
  tx_type : string;
  tx_amount : Z
}.

(** A section of a report: the initial [{}], a populated record, or an
    object that only carries [error]. *)
Inductive section (A : Type) : Type :=
| Empty
| Populated (a : A)
| ErrorMarker (msg : string).

Arguments Empty {A}.
Arguments Populated {A} a.
Arguments ErrorMarker {A} msg.

Definition has_error {A : Type} (s : section A) : bool :=
  match s with
  | ErrorMarker _ => true
  | _ => false
  end.

Definition is_populated {A : Type} (s : section A) : bool :=
  match s with
  | Populated _ => true
  | _ => false
  end.

(** [pairs.reduce((prev, curr) => curr.liquidity?.usd > prev.liquidity?.usd
    ? curr : prev, pairs[0])] *)
Definition mainPair_of (first : Pair) (pairs : list Pair) : Pair :=
  fold_left
    (fun prev curr =>
       if opt_gt (pair_liquidity_usd curr) (pair_liquidity_usd prev)
       then curr else prev)
    pairs first.

(** The body of the [forEach] that accumulates [top10Percent]. *)
Definition add_share (totalSupply : Z) (acc : outcome number) (holder : Holder)
  : outcome number :=
  top10Percent <- acc ;;
  let balance := holder_amount holder in
  q <- bigint_div (balance * 100) totalSupply ;;
  Returned (num_add top10Percent (Number_of_BigInt q)).

Definition sum_shares (totalSupply : Z) (holders : list Holder) : outcome number :=
  fold_left (add_share totalSupply) holders (Returned (Fin 0)).

(** ** On-chain heuristics: [performSecurityChecks] *)
Module SecurityChecks.

(** The external collaborators, as functions of the request. *)
Record Providers : Type := {
  (* [new PublicKey(tokenAddress)] followed by [getMint(connection, _)] *)
  rpc_getMint : string -> fetch MintInfo;
  (* GET api.solscan.io/v2.0/token/meta?address= *)
  solscan_meta : string -> fetch (option TokenMeta);
  (* GET api.solscan.io/v2.0/token/holders?address=&page=1&page_size= *)
  solscan_holders : string -> Z -> fetch (option (list Holder));
  (* GET api.dexscreener.com/latest/dex/tokens/ *)
  dexscreener_pairs : string -> fetch (option (list Pair));
  (* GET api.solscan.io/v2.0/token/txns?address=&limit= *)
  solscan_txns : string -> Z -> fetch (option (list Tx))
}.

Definition getTokenMeta (env : Providers) (tokenAddress : string)
  : option TokenMeta :=
  match solscan_meta env tokenAddress with
  | Resolved (Some m) => Some m
  | Resolved None => None
  | Rejected _ => None
  end.

Definition getTopHolders (env : Providers) (tokenAddress : string) (limit : Z)
  : list Holder :=
  data_or [] (solscan_holders env tokenAddress limit).

Definition getDexPairs (env : Providers) (tokenAddress : string) : list Pair :=
  data_or [] (dexscreener_pairs env tokenAddress).

Definition getRecentTransactions (env : Providers) (tokenAddress : string)
  (limit : Z) : list Tx :=
  data_or [] (solscan_txns env tokenAddress limit).

Record Authorities : Type := {
  mintAuthority : string;
  freezeAuthority : string
}.

Record AdminKeys : Type := {
  creator : string;
  adminKeys_note : string
}.

Record LpHealth : Type := {
  dex : string;
  liquidityUSD : Q;
  volume24h : Q;
  pairAddress : string;
  lpHealth_note : string
}.

(** [holderCount] is a number or the string ['Unknown'] ([None]). *)
Record TokenDistribution : Type := {
  top10HoldersPercent : number;
  holderCount : option Z
}.

Record TransactionPatterns : Type := {
  recentTxCount : Z;
  potentialDumps : Z;
  transactionPatterns_note : string
}.

Record Report : Type := {
  authorities : section Authorities;
  adminKeys : section AdminKeys;
  lpHealth : section LpHealth;
  tokenDistribution : section TokenDistribution;
  transactionPatterns : section TransactionPatterns;
  riskScore : Z;
  flags : list string
}.

Definition initial_report : Report := {|
  authorities := Empty;
  adminKeys := Empty;
  lpHealth := Empty;
  tokenDistribution := Empty;
  transactionPatterns := Empty;
  riskScore := 0;
  flags := []
|}.

Definition set_authorities (s : section Authorities) (r : Report) : Report :=
  {| authorities := s; adminKeys := adminKeys r; lpHealth := lpHealth r;
     tokenDistribution := tokenDistribution r;
     transactionPatterns := transactionPatterns r;
     riskScore := riskScore r; flags := flags r |}.

Definition set_adminKeys (s : section AdminKeys) (r : Report) : Report :=
  {| authorities := authorities r; adminKeys := s; lpHealth := lpHealth r;
     tokenDistribution := tokenDistribution r;
     transactionPatterns := transactionPatterns r;
     riskScore := riskScore r; flags := flags r |}.

Definition set_lpHealth (s : section LpHealth) (r : Report) : Report :=
  {| authorities := authorities r; adminKeys := adminKeys r; lpHealth := s;
     tokenDistribution := tokenDistribution r;
     transactionPatterns := transactionPatterns r;
     riskScore := riskScore r; flags := flags r |}.

Definition set_tokenDistribution (s : section TokenDistribution) (r : Report)
  : Report :=
  {| authorities := authorities r; adminKeys := adminKeys r;
     lpHealth := lpHealth r; tokenDistribution := s;
     transactionPatterns := transactionPatterns r;
     riskScore := riskScore r; flags := flags r |}.

Definition set_transactionPatterns (s : section TransactionPatterns)
  (r : Report) : Report :=
  {| authorities := authorities r; adminKeys := adminKeys r;
     lpHealth := lpHealth r; tokenDistribution := tokenDistribution r;
     transactionPatterns := s;
     riskScore := riskScore r; flags := flags r |}.

Definition set_riskScore (n : Z) (r : Report) : Report :=
  {| authorities := authorities r; adminKeys := adminKeys r;
     lpHealth := lpHealth r; tokenDistribution := tokenDistribution r;
     transactionPatterns := transactionPatterns r;
     riskScore := n; flags := flags r |}.

(** [report.flags.push(flag); report.riskScore += delta;] *)
Definition raise_flag (flag : string) (delta : Z) (r : Report) : Report :=
  {| authorities := authorities r; adminKeys := adminKeys r;
     lpHealth := lpHealth r; tokenDistribution := tokenDistribution r;
     transactionPatterns := transactionPatterns r;
     riskScore := riskScore r + delta; flags := flags r ++ [flag] |}.

Definition when (c : bool) (f : Report -> Report) (r : Report) : Report :=
  if c then f r else r.

(** Flag texts. *)
Definition MINT_ACTIVE := "Mint authority active".
Definition FREEZE_ACTIVE := "Freeze authority active".
Definition CREATOR_SHARE := "Creator holds >10% share".
Definition TINY_LP := "Tiny LP (<$20k)".
Definition LP_MINT_RISK := "Potential LP risk due to active mint".
Definition NO_LIQUIDITY := "No liquidity pools detected".
Definition HIGH_CONCENTRATION := "High concentration (>50% in top 10)".
Definition MODERATE_CONCENTRATION := "Moderate concentration (>20% in top 10)".
Definition LARGE_DUMPS := "Recent large dumps detected".

(** A present authority is a [PublicKey] object (truthy); an absent one is
    [null]. *)
Definition present (a : option string) : bool :=
  match a with Some _ => true | None => false end.

(** 1. Mint/Freeze authorities (lines 72-90). *)
Definition checkAuthorities (mint : fetch MintInfo) (r : Report) : Report :=
  match mint with
  | Resolved mintInfo =>
      let r := set_authorities (Populated {|
        mintAuthority :=
          if present (mint_mintAuthority mintInfo)
          then "Active (Risk: Can mint more tokens)" else "Renounced (Safe)";
        freezeAuthority :=
          if present (mint_freezeAuthority mintInfo)
          then "Active (Risk: Can freeze tokens)" else "Renounced (Safe)" |}) r in
      let r := when (present (mint_mintAuthority mintInfo))
                 (raise_flag MINT_ACTIVE 30) r in
      when (present (mint_freezeAuthority mintInfo))
        (raise_flag FREEZE_ACTIVE 20) r
  | Rejected _ =>
      set_authorities (ErrorMarker "Failed to fetch on-chain mint info") r
  end.

Definition creator_text (c : option Creator) : string :=
  match c with
  | Some c => creator_address c ++ " (" ++ string_of_Z (creator_share c)
              ++ "% share)"
  | None => "Unknown"
  end.

(** [tokenMeta.creator && tokenMeta.creator.share > 10] *)
Definition creator_over_10 (c : option Creator) : bool :=
  match c with
  | Some c => 10 <? creator_share c
  | None => false
  end.

(** 2. Admin/owner keys (lines 93-107). *)
Definition checkAdminKeys (tokenMeta : option TokenMeta) (r : Report) : Report :=
  match tokenMeta with
  | Some tokenMeta =>
      let r := set_adminKeys (Populated {|
        creator := creator_text (meta_creator tokenMeta);
        adminKeys_note := "Check if creator wallet has multisig or renounced control (manual review recommended)" |}) r in
      when (creator_over_10 (meta_creator tokenMeta))
        (raise_flag CREATOR_SHARE 15) r
  | None => set_adminKeys (ErrorMarker "Failed to fetch token meta") r
  end.

(** [report.authorities.mintAuthority.includes('Active')]: the property is
    [undefined] unless step 1 populated the section. *)
Definition mintAuthority_includes_Active (r : Report) : outcome bool :=
  match authorities r with
  | Populated a => Returned (includes "Active" (mintAuthority a))
  | Empty | ErrorMarker _ =>
      Thrown (TypeError "Cannot read properties of undefined (reading 'includes')")
  end.

(** 3. Liquidity pool health (lines 110-135). *)
Definition checkLpHealth (pairs : list Pair) (r : Report) : outcome Report :=
  match pairs with
  | first :: _ =>
      let mainPair := mainPair_of first pairs in
      let lp := {|
        dex := pair_dexId mainPair;
        liquidityUSD := or_zeroQ (pair_liquidity_usd mainPair);
        volume24h := or_zeroQ (pair_volume_h24 mainPair);
        pairAddress := pair_pairAddress mainPair;
        lpHealth_note := "LP lock status: Use manual check on Solscan for LP mint supply/burns (advanced: integrate SolSniffer API)" |} in
      let r := set_lpHealth (Populated lp) r in
      let r := when (Qltb (liquidityUSD lp) (20000 # 1))
                 (raise_flag TINY_LP 25) r in
      active <- mintAuthority_includes_Active r ;;
      Returned (when active (raise_flag LP_MINT_RISK 10) r)
  | [] =>
      let r := set_lpHealth (ErrorMarker "No DEX pairs found") r in
      Returned (raise_flag NO_LIQUIDITY 30 r)
  end.

(** [holderCount: tokenMeta?.holder || 'Unknown'] *)
Definition holderCount_of (tokenMeta : option TokenMeta) : option Z :=
  match tokenMeta with
  | Some m =>
      match meta_holder m with
      | Some h => if h =? 0 then None else Some h
      | None => None
      end
  | None => None
  end.

(** [BigInt(tokenMeta?.supply || 0)] *)
Definition totalSupply_of (tokenMeta : option TokenMeta) : Z :=
  match tokenMeta with
  | Some m =>
      match meta_supply m with
      | Some s => s
      | None => 0
      end
  | None => 0
  end.

(** The two concentration rules (lines 150-156). *)
Definition concentration_rules (top10Percent : number) (r : Report) : Report :=
  if num_gt top10Percent 50 then raise_flag HIGH_CONCENTRATION 25 r
  else if num_gt top10Percent 20 then raise_flag MODERATE_CONCENTRATION 10 r
  else r.

(** 4. Token distribution (lines 138-159). *)
Definition checkDistribution (tokenMeta : option TokenMeta)
  (topHolders : list Holder) (r : Report) : outcome Report :=
  match topHolders with
  | _ :: _ =>
      let totalSupply := totalSupply_of tokenMeta in
      top10Percent <- sum_shares totalSupply topHolders ;;
      let r := set_tokenDistribution (Populated {|
        top10HoldersPercent := top10Percent;
        holderCount := holderCount_of tokenMeta |}) r in
      Returned (concentration_rules top10Percent r)
  | [] =>
      Returned (set_tokenDistribution (ErrorMarker "Failed to fetch holders") r)
  end.

(** [tx.type === 'transfer' && tx.amount > 1000000], then
    [tx.amount > 10000000]. *)
Definition is_large_dump (tx : Tx) : bool :=
  andb (andb (String.eqb (tx_type tx) "transfer") (1000000 <? tx_amount tx))
       (10000000 <? tx_amount tx).

Definition count_largeDumps (recentTx : list Tx) : Z :=
  fold_left (fun largeDumps tx =>
               if is_large_dump tx then largeDumps + 1 else largeDumps)
            recentTx 0.

(** 5. Transaction patterns (lines 162-184). *)
Definition checkTransactions (recentTx : list Tx) (r : Report) : Report :=
  match recentTx with
  | _ :: _ =>
      let largeDumps := count_largeDumps recentTx in
      let r := set_transactionPatterns (Populated {|
        recentTxCount := Z.of_nat (List.length recentTx);
        potentialDumps := largeDumps;
        transactionPatterns_note := "Advanced: Analyze for bot patterns or unnatural spikes (integrate Birdeye API for volume trends)" |}) r in
      when (2 <? largeDumps) (raise_flag LARGE_DUMPS 20) r
  | [] =>
      set_transactionPatterns (ErrorMarker "Failed to fetch transactions") r
  end.

(** [report.riskScore = Math.min(report.riskScore, 100)] *)
Definition capRiskScore (r : Report) : Report :=
  set_riskScore (Z.min (riskScore r) 100) r.

(** The five checks in source order, before the cap. *)
Definition runChecks (env : Providers) (tokenAddress : string) : outcome Report :=
  let report := initial_report in
  let report := checkAuthorities (rpc_getMint env tokenAddress) report in
  let tokenMeta := getTokenMeta env tokenAddress in
  let report := checkAdminKeys tokenMeta report in
  let pairs := getDexPairs env tokenAddress in
  report <- checkLpHealth pairs report ;;
  let topHolders := getTopHolders env tokenAddress 10 in
  report <- checkDistribution tokenMeta topHolders report ;;
  let recentTx := getRecentTransactions env tokenAddress 20 in
  Returned (checkTransactions recentTx report).

Definition performSecurityChecks (env : Providers) (tokenAddress : string)
  : outcome Report :=
  report <- runChecks env tokenAddress ;;
  Returned (capRiskScore report).

(** The score delta that accompanies each flag in the source. *)
Definition rule_delta (flag : string) : Z :=
  if String.eqb flag MINT_ACTIVE then 30
  else if String.eqb flag FREEZE_ACTIVE then 20
  else if String.eqb flag CREATOR_SHARE then 15
  else if String.eqb flag TINY_LP then 25
  else if String.eqb flag LP_MINT_RISK then 10
  else if String.eqb flag NO_LIQUIDITY then 30
  else if String.eqb flag HIGH_CONCENTRATION then 25
  else if String.eqb flag MODERATE_CONCENTRATION then 10
  else if String.eqb flag LARGE_DUMPS then 20
  else 0.

(** Sum of the deltas of the rules that fired, read off the flag list. *)
Definition delta_sum (fired : list string) : Z :=
  fold_right (fun flag acc => rule_delta flag + acc) 0 fired.

(** *** The flags each check emits

    The same decisions as the checks above, read as the list of flags a
    check appends; the lemmas below show the checks append exactly these. *)

Definition authority_flags (mint : fetch MintInfo) : list string :=
  match mint with
  | Resolved mintInfo =>
      (if present (mint_mintAuthority mintInfo) then [MINT_ACTIVE] else [])
      ++ (if present (mint_freezeAuthority mintInfo) then [FREEZE_ACTIVE] else [])
  | Rejected _ => []
  end.

Definition adminKeys_flags (tokenMeta : option TokenMeta) : list string :=
  match tokenMeta with
  | Some m => if creator_over_10 (meta_creator m) then [CREATOR_SHARE] else []
  | None => []
  end.

(** Liquidity in USD of the main pair, as the report shows it. *)
Definition mainPair_liquidity (pairs : list Pair) : option Q :=
  match pairs with
  | first :: _ => Some (or_zeroQ (pair_liquidity_usd (mainPair_of first pairs)))
  | [] => None
  end.

Definition tiny_liquidity (pairs : list Pair) : bool :=
  match mainPair_liquidity pairs with
  | Some usd => Qltb usd (20000 # 1)
  | None => false
  end.

Definition mint_active (mint : fetch MintInfo) : bool :=
  match mint with
  | Resolved mintInfo => present (mint_mintAuthority mintInfo)
  | Rejected _ => false
  end.

Definition freeze_active (mint : fetch MintInfo) : bool :=
  match mint with
  | Resolved mintInfo => present (mint_freezeAuthority mintInfo)
  | Rejected _ => false
  end.

Definition lp_flags (mintActive : bool) (pairs : list Pair) : list string :=
  match pairs with
  | _ :: _ =>
      (if tiny_liquidity pairs then [TINY_LP] else [])
      ++ (if mintActive then [LP_MINT_RISK] else [])
  | [] => [NO_LIQUIDITY]
  end.

(** Whether [report.authorities.mintAuthority] is a string that includes
    ['Active']. *)
Definition section_active (s : section Authorities) : bool :=
  match s with
  | Populated a => includes "Active" (mintAuthority a)
  | _ => false
  end.

Definition concentration_flags (top10Percent : number) : list string :=
  if num_gt top10Percent 50 then [HIGH_CONCENTRATION]
  else if num_gt top10Percent 20 then [MODERATE_CONCENTRATION]
  else [].

Definition distribution_flags (tokenMeta : option TokenMeta)
  (topHolders : list Holder) : list string :=
  match topHolders with
  | _ :: _ =>
      match sum_shares (totalSupply_of tokenMeta) topHolders with
      | Returned p => concentration_flags p
      | Thrown _ => []
      end
  | [] => []
  end.

Definition transaction_flags (recentTx : list Tx) : list string :=
  if 2 <? count_largeDumps recentTx then [LARGE_DUMPS] else [].

(** What a check does to the flag list and to the running score. *)
Definition appends (emitted : list string) (r r' : Report) : Prop :=
  flags r' = (flags r ++ emitted)%list
  /\ riskScore r' = riskScore r + delta_sum emitted.

(** The flags of a whole run, in the order the checks append them. *)
Definition run_flags (env : Providers) (tokenAddress : string) : list string :=
  authority_flags (rpc_getMint env tokenAddress)
  ++ adminKeys_flags (getTokenMeta env tokenAddress)
  ++ lp_flags (mint_active (rpc_getMint env tokenAddress))
              (getDexPairs env tokenAddress)
  ++ distribution_flags (getTokenMeta env tokenAddress)
                        (getTopHolders env tokenAddress 10)
  ++ transaction_flags (getRecentTransactions env tokenAddress 20).

(** The report after the first two checks, which cannot raise. *)
Definition after_adminKeys (env : Providers) (tokenAddress : string) : Report :=
  checkAdminKeys (getTokenMeta env tokenAddress)
    (checkAuthorities (rpc_getMint env tokenAddress) initial_report).

(** When a run returns: pairs were found only if the chain reader answered,
    and holders were found only if the division went through. *)
Definition run_completes (env : Providers) (tokenAddress : string) : Prop :=
  (getDexPairs env tokenAddress = []
   \/ exists mintInfo, rpc_getMint env tokenAddress = Resolved mintInfo)
  /\ (getTopHolders env tokenAddress 10 = []
      \/ exists p,
           sum_shares (totalSupply_of (getTokenMeta env tokenAddress))
                      (getTopHolders env tokenAddress 10) = Returned p).

(** No rule of the design's rule table other than the two authority rules
    has its condition true: the creator holds no more than 10%, the DEX
    reader answered with at least one pair and the main pair is not below
    $20,000, the top-10 percentage is absent or not above 20, and there are
    no more than two large dumps. *)
Definition other_rules_quiet (env : Providers) (tokenAddress : string) : Prop :=
  adminKeys_flags (getTokenMeta env tokenAddress) = []
  /\ tiny_liquidity (getDexPairs env tokenAddress) = false
  /\ (exists pairs, dexscreener_pairs env tokenAddress = Resolved (Some pairs)
                    /\ pairs <> [])
  /\ (getTopHolders env tokenAddress 10 = []
      \/ exists p,
           sum_shares (totalSupply_of (getTokenMeta env tokenAddress))
                      (getTopHolders env tokenAddress 10) = Returned p
           /\ num_gt p 20 = false)
  /\ (count_largeDumps (getRecentTransactions env tokenAddress 20) <= 2).

(** The report the design expects when both authorities are active and no
    other rule condition holds. *)
Definition two_authority_report (env : Providers) (tokenAddress : string) : Prop :=
  mint_active (rpc_getMint env tokenAddress) = true ->
  freeze_active (rpc_getMint env tokenAddress) = true ->
  other_rules_quiet env tokenAddress ->
  exists r, performSecurityChecks env tokenAddress = Returned r
            /\ riskScore r = 50
            /\ flags r = [MINT_ACTIVE; FREEZE_ACTIVE].

End SecurityChecks.

(** ** Tokenomics analysis: [performTokenomicsAnalysis] *)
Module Tokenomics.

(** Birdeye [token_overview]. *)
Record Overview : Type := {
  liquidity_locked : bool;
  mc : option Q
}.

Record Providers : Type := {
  rpc_getMint : string -> fetch MintInfo;
  solscan_meta : string -> fetch (option TokenMeta);
  solscan_holders : string -> Z -> fetch (option (list Holder));
  dexscreener_pairs : string -> fetch (option (list Pair));
  solscan_txns : string -> Z -> fetch (option (list Tx));
  (* GET public-api.birdeye.so/defi/token_overview?address= with X-API-KEY *)
  birdeye_overview : string -> string -> fetch (option Overview)
}.

(** The binary64 operations this module applies to quantities that need not
    be integers.  The analysis is stated for any implementation of them. *)
Record Float64 : Type := {
  float : Type;
  (* [Number(b)] and the value of an integer JSON payload *)
  of_Z : Z -> float;
  (* the numeric value of [undefined] *)
  fnan : float;
  (* [Math.pow(10, d)], [d] possibly [undefined] *)
  pow10 : option Z -> float;
  fadd : float -> float -> float;
  fmul : float -> float -> float;
  fdiv : float -> float -> float;
  (* [BigInt(x)]: defined on integral values only *)
  to_bigint : float -> option Z;
  (* template-literal rendering *)
  to_string : float -> string
}.

Section WithFloats.

Variable F : Float64.

Definition getTokenMeta (env : Providers) (tokenAddress : string)
  : option TokenMeta :=
  match solscan_meta env tokenAddress with
  | Resolved (Some m) => Some m
  | Resolved None => None
  | Rejected _ => None
  end.

Definition getTopHolders (env : Providers) (tokenAddress : string) (limit : Z)
  : list Holder :=
  data_or [] (solscan_holders env tokenAddress limit).

Definition getDexPairs (env : Providers) (tokenAddress : string) : list Pair :=
  data_or [] (dexscreener_pairs env tokenAddress).

Definition getRecentTransactions (env : Providers) (tokenAddress : string)
  (limit : Z) : list Tx :=
  data_or [] (solscan_txns env tokenAddress limit).

Definition getBirdeyeOverview (env : Providers) (tokenAddress apiKey : string)
  : option Overview :=
  match birdeye_overview env tokenAddress apiKey with
  | Resolved (Some o) => Some o
  | Resolved None => None
  | Rejected _ => None
  end.

Record BasicInfo : Type := {
  decimals : Z;
  basic_totalSupply : float F
}.

Record SupplyMetrics : Type := {
  totalSupply : float F;
  holderCount : option Z
}.

Record Authorities : Type := {
  mintAuthority : string;
  freezeAuthority : string
}.

Record Distribution : Type := {
  top10HoldersPercent : number;
  distribution_holderCount : option Z
}.

Record LpAnalysis : Type := {
  dex : string;
  liquidityUSD : Q;
  lpLocked : string
}.

Record BurnAndMintActivity : Type := {
  recentBurns : Z;
  burnedAmount : float F;
  recentMints : Z
}.

(** [supplyMetrics_marketCap] is the property [supplyMetrics.marketCap], which
    is assigned on whatever object the section holds: [None] when it was
    never assigned, [Some None] when it was assigned [undefined].
    [estimatedCirculatingSupply] is [None] when it holds [undefined]. *)
Record Report : Type := {
  basicInfo : section BasicInfo;
  supplyMetrics : section SupplyMetrics;
  supplyMetrics_marketCap : option (option Q);
  authorities : section Authorities;
  distribution : section Distribution;
  lpAnalysis : section LpAnalysis;
  burnAndMintActivity : section BurnAndMintActivity;
  riskIndicators : list string;
  estimatedCirculatingSupply : option (float F);
  notes : list string;
  riskLevel : option string
}.

Definition initial_report : Report := {|
  basicInfo := Empty;
  supplyMetrics := Empty;
  supplyMetrics_marketCap := None;
  authorities := Empty;
  distribution := Empty;
  lpAnalysis := Empty;
  burnAndMintActivity := Empty;
  riskIndicators := [];
  estimatedCirculatingSupply := Some (of_Z F 0);
  notes := [];
  riskLevel := None
|}.

Definition set_basicInfo (s : section BasicInfo) (r : Report) : Report :=
  {| basicInfo := s; supplyMetrics := supplyMetrics r;
     supplyMetrics_marketCap := supplyMetrics_marketCap r;
     authorities := authorities r; distribution := distribution r;
     lpAnalysis := lpAnalysis r; burnAndMintActivity := burnAndMintActivity r;
     riskIndicators := riskIndicators r;
     estimatedCirculatingSupply := estimatedCirculatingSupply r;
     notes := notes r; riskLevel := riskLevel r |}.

Definition set_supplyMetrics (s : section SupplyMetrics) (r : Report) : Report :=
  {| basicInfo := basicInfo r; supplyMetrics := s;
     supplyMetrics_marketCap := supplyMetrics_marketCap r;
     authorities := authorities r; distribution := distribution r;
     lpAnalysis := lpAnalysis r; burnAndMintActivity := burnAndMintActivity r;
     riskIndicators := riskIndicators r;
     estimatedCirculatingSupply := estimatedCirculatingSupply r;
     notes := notes r; riskLevel := riskLevel r |}.

Definition set_marketCap (v : option Q) (r : Report) : Report :=
  {| basicInfo := basicInfo r; supplyMetrics := supplyMetrics r;
     supplyMetrics_marketCap := Some v;
     authorities := authorities r; distribution := distribution r;
     lpAnalysis := lpAnalysis r; burnAndMintActivity := burnAndMintActivity r;
     riskIndicators := riskIndicators r;
     estimatedCirculatingSupply := estimatedCirculatingSupply r;
     notes := notes r; riskLevel := riskLevel r |}.

Definition set_authorities (s : section Authorities) (r : Report) : Report :=
  {| basicInfo := basicInfo r; supplyMetrics := supplyMetrics r;
     supplyMetrics_marketCap := supplyMetrics_marketCap r;
     authorities := s; distribution := distribution r;
     lpAnalysis := lpAnalysis r; burnAndMintActivity := burnAndMintActivity r;
     riskIndicators := riskIndicators r;
     estimatedCirculatingSupply := estimatedCirculatingSupply r;
     notes := notes r; riskLevel := riskLevel r |}.

Definition set_distribution (s : section Distribution) (r : Report) : Report :=
  {| basicInfo := basicInfo r; supplyMetrics := supplyMetrics r;
     supplyMetrics_marketCap := supplyMetrics_marketCap r;
     authorities := authorities r; distribution := s;
     lpAnalysis := lpAnalysis r; burnAndMintActivity := burnAndMintActivity r;
     riskIndicators := riskIndicators r;
     estimatedCirculatingSupply := estimatedCirculatingSupply r;
     notes := notes r; riskLevel := riskLevel r |}.

Definition set_lpAnalysis (s : section LpAnalysis) (r : Report) : Report :=
  {| basicInfo := basicInfo r; supplyMetrics := supplyMetrics r;
     supplyMetrics_marketCap := supplyMetrics_marketCap r;
     authorities := authorities r; distribution := distribution r;
     lpAnalysis := s; burnAndMintActivity := burnAndMintActivity r;
     riskIndicators := riskIndicators r;
     estimatedCirculatingSupply := estimatedCirculatingSupply r;
     notes := notes r; riskLevel := riskLevel r |}.

Definition set_burnAndMintActivity (s : section BurnAndMintActivity)
  (r : Report) : Report :=
  {| basicInfo := basicInfo r; supplyMetrics := supplyMetrics r;
     supplyMetrics_marketCap := supplyMetrics_marketCap r;
     authorities := authorities r; distribution := distribution r;
     lpAnalysis := lpAnalysis r; burnAndMintActivity := s;
     riskIndicators := riskIndicators r;
     estimatedCirculatingSupply := estimatedCirculatingSupply r;
     notes := notes r; riskLevel := riskLevel r |}.

(** [report.riskIndicators.push(text)] *)
Definition push_indicator (text : string) (r : Report) : Report :=
  {| basicInfo := basicInfo r; supplyMetrics := supplyMetrics r;
     supplyMetrics_marketCap := supplyMetrics_marketCap r;
     authorities := authorities r; distribution := distribution r;
     lpAnalysis := lpAnalysis r; burnAndMintActivity := burnAndMintActivity r;
     riskIndicators := riskIndicators r ++ [text];
     estimatedCirculatingSupply := estimatedCirculatingSupply r;
     notes := notes r; riskLevel := riskLevel r |}.

(** [report.notes.push(text)] *)
Definition push_note (text : string) (r : Report) : Report :=
  {| basicInfo := basicInfo r; supplyMetrics := supplyMetrics r;
     supplyMetrics_marketCap := supplyMetrics_marketCap r;
     authorities := authorities r; distribution := distribution r;
     lpAnalysis := lpAnalysis r; burnAndMintActivity := burnAndMintActivity r;
     riskIndicators := riskIndicators r;
     estimatedCirculatingSupply := estimatedCirculatingSupply r;
     notes := notes r ++ [text]; riskLevel := riskLevel r |}.

Definition set_estimatedCirculatingSupply (v : option (float F)) (r : Report)
  : Report :=
  {| basicInfo := basicInfo r; supplyMetrics := supplyMetrics r;
     supplyMetrics_marketCap := supplyMetrics_marketCap r;
     authorities := authorities r; distribution := distribution r;
     lpAnalysis := lpAnalysis r; burnAndMintActivity := burnAndMintActivity r;
     riskIndicators := riskIndicators r;
     estimatedCirculatingSupply := v;
     notes := notes r; riskLevel := riskLevel r |}.

Definition set_riskLevel (v : string) (r : Report) : Report :=
  {| basicInfo := basicInfo r; supplyMetrics := supplyMetrics r;
     supplyMetrics_marketCap := supplyMetrics_marketCap r;
     authorities := authorities r; distribution := distribution r;
     lpAnalysis := lpAnalysis r; burnAndMintActivity := burnAndMintActivity r;
     riskIndicators := riskIndicators r;
     estimatedCirculatingSupply := estimatedCirculatingSupply r;
     notes := notes r; riskLevel := Some v |}.

Definition when (c : bool) (f : Report -> Report) (r : Report) : Report :=
  if c then f r else r.

Definition HIGH_WHALE := "High whale concentration (>50% in top 10 holders)".
Definition MODERATE_CONCENTRATION := "Moderate concentration (>20% in top 10)".

Definition present (a : option string) : bool :=
  match a with Some _ => true | None => false end.

(** 1. Basic info and authorities (lines 87-106). *)
Definition checkBasicInfo (mint : fetch MintInfo) (r : Report) : Report :=
  match mint with
  | Resolved mintInfo =>
      let r := set_basicInfo (Populated {|
        decimals := mint_decimals mintInfo;
        basic_totalSupply :=
          fdiv F (of_Z F (mint_supply mintInfo))
                 (pow10 F (Some (mint_decimals mintInfo))) |}) r in
      let r := set_authorities (Populated {|
        mintAuthority :=
          if present (mint_mintAuthority mintInfo)
          then "Active (Risk: Unlimited supply possible)"
          else "Renounced (Fixed supply)";
        freezeAuthority :=
          if present (mint_freezeAuthority mintInfo)
          then "Active (Risk: Can freeze accounts)" else "Renounced (Safe)" |}) r in
      let r := when (present (mint_mintAuthority mintInfo))
                 (push_indicator "Mint authority active - potential for inflation") r in
      when (present (mint_freezeAuthority mintInfo))
        (push_indicator "Freeze authority active - potential for account freezes") r
  | Rejected _ =>
      set_basicInfo (ErrorMarker "Failed to fetch on-chain mint info") r
  end.

(** The numeric value of a JSON field that may be missing. *)
Definition num_of_field (x : option Z) : float F :=
  match x with
  | Some z => of_Z F z
  | None => fnan F
  end.

(** 2. Supply metrics (lines 109-118). *)
Definition checkSupplyMetrics (tokenMeta : option TokenMeta) (r : Report)
  : Report :=
  match tokenMeta with
  | Some tokenMeta =>
      set_supplyMetrics (Populated {|
        totalSupply := fdiv F (num_of_field (meta_supply tokenMeta))
                              (pow10 F (meta_decimals tokenMeta));
        holderCount := meta_holder tokenMeta |}) r
  | None => set_supplyMetrics (ErrorMarker "Failed to fetch token meta") r
  end.

(** [report.basicInfo.decimals] *)
Definition basicInfo_decimals (r : Report) : option Z :=
  match basicInfo r with
  | Populated b => Some (decimals b)
  | _ => None
  end.

(** The numeric value of [report.basicInfo.totalSupply]. *)
Definition basicInfo_totalSupply (r : Report) : float F :=
  match basicInfo r with
  | Populated b => basic_totalSupply b
  | _ => fnan F
  end.

(** [BigInt(x)] for a Number [x]. *)
Definition BigInt_of_float (x : float F) : outcome Z :=
  match to_bigint F x with
  | Some z => Returned z
  | None => Thrown (RangeError "The number cannot be converted to a BigInt because it is not an integer")
  end.

(** [BigInt(tokenMeta?.supply || report.basicInfo.totalSupply *
    Math.pow(10, report.basicInfo.decimals))] *)
Definition totalSupply_of (tokenMeta : option TokenMeta) (r : Report)
  : outcome Z :=
  let fallback :=
    BigInt_of_float
      (fmul F (basicInfo_totalSupply r) (pow10 F (basicInfo_decimals r))) in
  match tokenMeta with
  | Some m =>
      match meta_supply m with
      | Some s => if s =? 0 then fallback else Returned s
      | None => fallback
      end
  | None => fallback
  end.

(** The two concentration rules (lines 135-139). *)
Definition concentration_rules (top10Percent : number) (r : Report) : Report :=
  if num_gt top10Percent 50 then push_indicator HIGH_WHALE r
  else if num_gt top10Percent 20 then push_indicator MODERATE_CONCENTRATION r
  else r.

(** [lockedAmount]: the balances of the holders owned by a known wallet. *)
Definition lockedAmount_of (knownVestingWallets : list string)
  (topHolders : list Holder) : Z :=
  fold_left
    (fun lockedAmount holder =>
       if existsb (String.eqb (holder_owner holder)) knownVestingWallets
       then lockedAmount + holder_amount holder else lockedAmount)
    topHolders 0.

(** [report.supplyMetrics.totalSupply] *)
Definition supplyMetrics_totalSupply (r : Report) : option (float F) :=
  match supplyMetrics r with
  | Populated s => Some (totalSupply s)
  | _ => None
  end.

(** [report.supplyMetrics.holderCount] *)
Definition supplyMetrics_holderCount (r : Report) : option Z :=
  match supplyMetrics r with
  | Populated s => holderCount s
  | _ => None
  end.

(** Lines 141-153: the circulating-supply estimate. *)
Definition estimateCirculating (knownVestingWallets : list string)
  (topHolders : list Holder) (totalSupply : Z) (r : Report) : outcome Report :=
  match knownVestingWallets with
  | _ :: _ =>
      let lockedAmount := lockedAmount_of knownVestingWallets topHolders in
      unit_ <- BigInt_of_float (pow10 F (basicInfo_decimals r)) ;;
      q <- bigint_div (totalSupply - lockedAmount) unit_ ;;
      let estimate := of_Z F q in
      let r := set_estimatedCirculatingSupply (Some estimate) r in
      Returned (push_note ("Estimated circulating supply: "
                           ++ to_string F estimate
                           ++ " (excluding provided vesting wallets)") r)
  | [] =>
      let r := push_note "Provide known vesting/treasury wallets for better circulating supply estimate" r in
      Returned (set_estimatedCirculatingSupply (supplyMetrics_totalSupply r) r)
  end.

(** 3. Distribution and concentration (lines 121-156). *)
Definition checkDistribution (tokenMeta : option TokenMeta)
  (topHolders : list Holder) (knownVestingWallets : list string) (r : Report)
  : outcome Report :=
  match topHolders with
  | _ :: _ =>
      totalSupply <- totalSupply_of tokenMeta r ;;
      top10Percent <- sum_shares totalSupply (firstn 10 topHolders) ;;
      let r := set_distribution (Populated {|
        top10HoldersPercent := top10Percent;
        distribution_holderCount := supplyMetrics_holderCount r |}) r in
      let r := concentration_rules top10Percent r in
      estimateCirculating knownVestingWallets topHolders totalSupply r
  | [] =>
      Returned (set_distribution (ErrorMarker "Failed to fetch holders") r)
  end.

(** [report.lpAnalysis.lpLocked = v] *)
Definition set_lpLocked (v : string) (r : Report) : Report :=
  match lpAnalysis r with
  | Populated lp =>
      set_lpAnalysis (Populated {| dex := dex lp;
                                   liquidityUSD := liquidityUSD lp;
                                   lpLocked := v |}) r
  | _ => r
  end.

(** Lines 172-183: the Birdeye enrichment of a populated LP section. *)
Definition enrichWithBirdeye (env : Providers) (tokenAddress birdeyeApiKey : string)
  (r : Report) : Report :=
  if String.eqb birdeyeApiKey "" then
    push_note "Provide Birdeye API key for LP lock and market data" r
  else
    match getBirdeyeOverview env tokenAddress birdeyeApiKey with
    | Some birdeyeData =>
        let r := set_lpLocked (if liquidity_locked birdeyeData
                               then "Locked" else "Unlocked (Risk)") r in
        let r := when (negb (liquidity_locked birdeyeData))
                   (push_indicator "Unlocked LP - rug pull risk") r in
        set_marketCap (mc birdeyeData) r
    | None => r
    end.

(** 4. LP analysis (lines 159-187). *)
Definition checkLpAnalysis (env : Providers) (tokenAddress birdeyeApiKey : string)
  (pairs : list Pair) (r : Report) : Report :=
  match pairs with
  | first :: _ =>
      let mainPair := mainPair_of first pairs in
      let lp := {|
        dex := pair_dexId mainPair;
        liquidityUSD := or_zeroQ (pair_liquidity_usd mainPair);
        lpLocked := "Unknown (Integrate Birdeye/RugCheck for lock status)" |} in
      let r := set_lpAnalysis (Populated lp) r in
      let r := when (Qltb (liquidityUSD lp) (50000 # 1))
                 (push_indicator "Shallow liquidity (<$50k) - high volatility risk") r in
      enrichWithBirdeye env tokenAddress birdeyeApiKey r
  | [] =>
      let r := set_lpAnalysis (ErrorMarker "No DEX pairs found") r in
      push_indicator "No liquidity detected - illiquid token" r
  end.

(** The counters of the [forEach] over recent transactions. *)
Record Activity : Type := {
  burns : Z;
  mints : Z;
  burned : float F
}.

Definition count_tx (a : Activity) (tx : Tx) : Activity :=
  if String.eqb (tx_type tx) "burn" then
    {| burns := burns a + 1; mints := mints a;
       burned := fadd F (burned a) (of_Z F (tx_amount tx)) |}
  else if String.eqb (tx_type tx) "mint" then
    {| burns := burns a; mints := mints a + 1; burned := burned a |}
  else a.

(** [!report.authorities.mintAuthority.includes('Active')] *)
Definition mintAuthority_not_Active (r : Report) : outcome bool :=
  match authorities r with
  | Populated a => Returned (negb (includes "Active" (mintAuthority a)))
  | Empty | ErrorMarker _ =>
      Thrown (TypeError "Cannot read properties of undefined (reading 'includes')")
  end.

(** 5. Burn and mint activity (lines 190-214). *)
Definition checkBurnAndMint (recentTx : list Tx) (r : Report) : outcome Report :=
  match recentTx with
  | _ :: _ =>
      let a := fold_left count_tx recentTx
                 {| burns := 0; mints := 0; burned := of_Z F 0 |} in
      let r := set_burnAndMintActivity (Populated {|
        recentBurns := burns a;
        burnedAmount := fdiv F (burned a) (pow10 F (basicInfo_decimals r));
        recentMints := mints a |}) r in
      unexpected <- (if 0 <? mints a then mintAuthority_not_Active r
                     else Returned false) ;;
      let r := when unexpected
                 (push_indicator "Unexpected mints detected despite renounced authority") r in
      Returned (when (0 <? burns a)
                  (push_note "Deflationary mechanics detected via burns") r)
  | [] =>
      Returned (set_burnAndMintActivity
                  (ErrorMarker "Failed to fetch transactions") r)
  end.

(** [tokenMeta && (tokenMeta.name.toLowerCase().includes('meme') ||
    tokenMeta.description?.includes('fun'))] *)
Definition looks_like_memecoin (tokenMeta : option TokenMeta) : bool :=
  match tokenMeta with
  | Some m =>
      orb (includes "meme" (toLowerCase (meta_name m)))
          (match meta_description m with
           | Some d => includes "fun" d
           | None => false
           end)
  | None => false
  end.

Definition classify (tokenMeta : option TokenMeta) (r : Report) : Report :=
  if looks_like_memecoin tokenMeta
  then push_note "Token appears to be a memecoin (hype-driven, high risk)" r
  else push_note "Token may have utility (verify use cases off-chain)" r.

(** [report.riskLevel = length > 3 ? 'High' : length > 1 ? 'Medium' : 'Low'] *)
Definition summarise (r : Report) : Report :=
  let n := List.length (riskIndicators r) in
  set_riskLevel (if Nat.ltb 3 n then "High"
                 else if Nat.ltb 1 n then "Medium" else "Low") r.

Definition performTokenomicsAnalysis (env : Providers) (tokenAddress : string)
  (knownVestingWallets : list string) (birdeyeApiKey : string)
  : outcome Report :=
  let report := initial_report in
  let report := checkBasicInfo (rpc_getMint env tokenAddress) report in
  let tokenMeta := getTokenMeta env tokenAddress in
  let report := checkSupplyMetrics tokenMeta report in
  let topHolders := getTopHolders env tokenAddress 50 in
  report <- checkDistribution tokenMeta topHolders knownVestingWallets report ;;
  let pairs := getDexPairs env tokenAddress in
  let report := checkLpAnalysis env tokenAddress birdeyeApiKey pairs report in
  let recentTx := getRecentTransactions env tokenAddress 50 in
  report <- checkBurnAndMint recentTx report ;;
  let report := classify tokenMeta report in
  Returned (summarise report).

(** *** The concentration indicators

    The same decision as [concentration_rules], read as the list of
    indicators it appends. *)
Definition concentration_flags (top10Percent : number) : list string :=
  if num_gt top10Percent 50 then [HIGH_WHALE]
  else if num_gt top10Percent 20 then [MODERATE_CONCENTRATION]
  else [].

(** An indicator that is not one of the two concentration indicators. *)
Definition other_indicator (text : string) : Prop :=
  text <> HIGH_WHALE /\ text <> MODERATE_CONCENTRATION.

(** A step that leaves the distribution alone and appends only indicators
    other than the concentration ones. *)
Definition bystander (r r' : Report) : Prop :=
  distribution r' = distribution r
  /\ exists extra, riskIndicators r' = (riskIndicators r ++ extra)%list
                   /\ Forall other_indicator extra.

(** The report after the first two steps, which cannot raise. *)
Definition after_supplyMetrics (env : Providers) (tokenAddress : string)
  : Report :=
  checkSupplyMetrics (getTokenMeta env tokenAddress)
    (checkBasicInfo (rpc_getMint env tokenAddress) initial_report).

End WithFloats.

Arguments basicInfo {F} r.
Arguments supplyMetrics {F} r.
Arguments supplyMetrics_marketCap {F} r.
Arguments authorities {F} r.
Arguments distribution {F} r.
Arguments lpAnalysis {F} r.
Arguments burnAndMintActivity {F} r.
Arguments riskIndicators {F} r.
Arguments estimatedCirculatingSupply {F} r.
Arguments notes {F} r.
Arguments riskLevel {F} r.
Arguments bystander {F} r r'.

End Tokenomics.

(** ** Balances and shares *)

Definition total_amount (holders : list Holder) : Z :=
  fold_right (fun h acc => holder_amount h + acc) 0 holders.

(** The whole-percent contribution of one holder: [floor (amount * 100 /
    totalSupply)]. *)
Definition floor_share (totalSupply : Z) (h : Holder) : Z :=
  (holder_amount h * 100) / totalSupply.

Definition floor_shares (totalSupply : Z) (holders : list Holder) : Z :=
  fold_right (fun h acc => floor_share totalSupply h + acc) 0 holders.

(** The exact share of the supply the holders own, in percent. *)
Definition exact_share_percent (totalSupply : Z) (holders : list Holder) : Q :=
  (inject_Z (100 * total_amount holders) / inject_Z totalSupply)%Q.

(** Balances are not negative, the supply is positive and the exact share is
    below [2^53] percent, the range in which Numbers count exactly. *)
Definition well_formed_balances (totalSupply : Z) (holders : list Holder) : Prop :=
  0 < totalSupply
  /\ Forall (fun h => 0 <= holder_amount h) holders
  /\ 100 * total_amount holders < 2 ^ 53 * totalSupply.

(** ** Sample provider responses *)
Module Samples.

Definition token : string := "Pumpui3xvBFpX4vvVBy42SYLiR8Kwg8tr6V3TaBQM7b".

Definition mint_both_active : MintInfo := {|
  mint_mintAuthority := Some "AuthFg1kP9";
  mint_freezeAuthority := Some "AuthFg1kP9";
  mint_decimals := 0;
  mint_supply := 1000
|}.

Definition mint_renounced : MintInfo := {|
  mint_mintAuthority := None;
  mint_freezeAuthority := None;
  mint_decimals := 0;
  mint_supply := 1000
|}.

Definition meta_plain : TokenMeta := {|
  meta_creator := None;
  meta_supply := Some 1000;
  meta_decimals := Some 0;
  meta_holder := Some 2;
  meta_name := "Sample";
  meta_description := None
|}.

Definition meta_big_creator : TokenMeta := {|
  meta_creator := Some {| creator_address := "Crt9"; creator_share := 100 |};
  meta_supply := Some 1000;
  meta_decimals := Some 0;
  meta_holder := Some 2;
  meta_name := "Sample";
  meta_description := None
|}.

Definition meta_without_supply : TokenMeta := {|
  meta_creator := None;
  meta_supply := None;
  meta_decimals := None;
  meta_holder := Some 2;
  meta_name := "Sample";
  meta_description := None
|}.

Definition deep_pair : Pair := {|
  pair_dexId := "raydium";
  pair_pairAddress := "Pair1";
  pair_liquidity_usd := Some (50000 # 1);
  pair_volume_h24 := Some (1200 # 1)
|}.

Definition shallow_pair : Pair := {|
  pair_dexId := "orca";
  pair_pairAddress := "Pair2";
  pair_liquidity_usd := Some (1500 # 1);
  pair_volume_h24 := None
|}.

Definition holder_600 : Holder := {| holder_owner := "W1"; holder_amount := 600 |}.
Definition holder_400 : Holder := {| holder_owner := "W2"; holder_amount := 400 |}.
Definition holder_100 : Holder := {| holder_owner := "W3"; holder_amount := 100 |}.
Definition holder_59 : Holder := {| holder_owner := "W4"; holder_amount := 59 |}.
Definition holder_9 : Holder := {| holder_owner := "W5"; holder_amount := 9 |}.

Definition small_transfer : Tx := {| tx_type := "transfer"; tx_amount := 5000 |}.
Definition dump : Tx := {| tx_type := "transfer"; tx_amount := 20000000 |}.
Definition burn_tx : Tx := {| tx_type := "burn"; tx_amount := 10 |}.

(** Providers that answer one token and reject every other request. *)
Definition security_env (mint : fetch MintInfo)
  (meta : fetch (option TokenMeta)) (holders : fetch (option (list Holder)))
  (pairs : fetch (option (list Pair))) (txns : fetch (option (list Tx)))
  : SecurityChecks.Providers := {|
  SecurityChecks.rpc_getMint := fun a =>
    if String.eqb a token then mint else Rejected "Invalid public key input";
  SecurityChecks.solscan_meta := fun a =>
    if String.eqb a token then meta else Rejected "404";
  SecurityChecks.solscan_holders := fun a _ =>
    if String.eqb a token then holders else Rejected "404";
  SecurityChecks.dexscreener_pairs := fun a =>
    if String.eqb a token then pairs else Rejected "404";
  SecurityChecks.solscan_txns := fun a _ =>
    if String.eqb a token then txns else Rejected "404"
|}.

(** Every provider answers; the chain reader alone rejects. *)
Definition chain_down : SecurityChecks.Providers :=
  security_env (Rejected "failed to get info about account")
    (Resolved (Some meta_plain)) (Resolved (Some [holder_100]))
    (Resolved (Some [deep_pair])) (Resolved (Some [small_transfer])).

(** Every provider answers; the metadata reader alone rejects. *)
Definition meta_down : SecurityChecks.Providers :=
  security_env (Resolved mint_renounced)
    (Rejected "Request failed with status code 429")
    (Resolved (Some [holder_100]))
    (Resolved (Some [deep_pair])) (Resolved (Some [small_transfer])).

(** Every provider answers; the DEX-pair reader alone rejects. *)
Definition dex_down : SecurityChecks.Providers :=
  security_env (Resolved mint_renounced)
    (Resolved (Some meta_plain)) (Resolved (Some [holder_100]))
    (Rejected "Request failed with status code 503")
    (Resolved (Some [small_transfer])).

(** Every provider answers; the metadata payload has no [supply] and no
    [decimals]. *)
Definition supply_missing : SecurityChecks.Providers :=
  security_env (Resolved mint_renounced)
    (Resolved (Some meta_without_supply)) (Resolved (Some [holder_100]))
    (Resolved (Some [deep_pair])) (Resolved (Some [small_transfer])).

(** Both authorities active, deep liquidity, nothing else to report. *)
Definition two_authorities : SecurityChecks.Providers :=
  security_env (Resolved mint_both_active)
    (Resolved (Some meta_plain)) (Resolved (Some [holder_100]))
    (Resolved (Some [deep_pair])) (Resolved (Some [small_transfer])).

(** Every rule that can fire together fires. *)
Definition everything_fires : SecurityChecks.Providers :=
  security_env (Resolved mint_both_active)
    (Resolved (Some meta_big_creator)) (Resolved (Some [holder_600; holder_400]))
    (Resolved (Some [shallow_pair])) (Resolved (Some [dump; dump; dump])).

(** The two-holder distribution of the design's example. *)
Definition two_holders : SecurityChecks.Providers :=
  security_env (Resolved mint_renounced)
    (Resolved (Some meta_plain)) (Resolved (Some [holder_600; holder_400]))
    (Resolved (Some [deep_pair])) (Resolved None).

(** Exact rational arithmetic, which agrees with binary64 on the small
    integers of the samples; [None] is NaN. *)
Definition exact_pow10 (d : option Z) : option Q :=
  match d with
  | Some d => if d <? 0 then Some (1 # Z.to_pos (10 ^ (- d)))
              else Some (10 ^ d # 1)
  | None => None
  end.

Definition lift2 (f : Q -> Q -> Q) (x y : option Q) : option Q :=
  match x, y with
  | Some a, Some b => Some (f a b)
  | _, _ => None
  end.

Definition exact_div (x y : option Q) : option Q :=
  match x, y with
  | Some a, Some b => if Qeq_bool b 0 then None else Some (Qred (a / b))
  | _, _ => None
  end.

Definition exact_to_bigint (x : option Q) : option Z :=
  match x with
  | Some q => let q := Qred q in
              if Pos.eqb (Qden q) 1 then Some (Qnum q) else None
  | None => None
  end.

Definition exact_to_string (x : option Q) : string :=
  match x with
  | Some q => let q := Qred q in
              if Pos.eqb (Qden q) 1 then string_of_Z (Qnum q)
              else string_of_Z (Qnum q) ++ "/" ++ string_of_Z (Z.pos (Qden q))
  | None => "NaN"
  end.

Definition exact : Tokenomics.Float64 := {|
  Tokenomics.float := option Q;
  Tokenomics.of_Z := fun z => Some (z # 1);
  Tokenomics.fnan := None;
  Tokenomics.pow10 := exact_pow10;
  Tokenomics.fadd := lift2 (fun a b => Qred (a + b));
  Tokenomics.fmul := lift2 (fun a b => Qred (a * b));
  Tokenomics.fdiv := exact_div;
  Tokenomics.to_bigint := exact_to_bigint;
  Tokenomics.to_string := exact_to_string
|}.

Definition tokenomics_env (mint : fetch MintInfo)
  (meta : fetch (option TokenMeta)) (holders : fetch (option (list Holder)))
  (pairs : fetch (option (list Pair))) (txns : fetch (option (list Tx)))
  (overview : fetch (option Tokenomics.Overview))
  : Tokenomics.Providers := {|
  Tokenomics.rpc_getMint := fun a =>
    if String.eqb a token then mint else Rejected "Invalid public key input";
  Tokenomics.solscan_meta := fun a =>
    if String.eqb a token then meta else Rejected "404";
  Tokenomics.solscan_holders := fun a _ =>
    if String.eqb a token then holders else Rejected "404";
  Tokenomics.dexscreener_pairs := fun a =>
    if String.eqb a token then pairs else Rejected "404";
  Tokenomics.solscan_txns := fun a _ =>
    if String.eqb a token then txns else Rejected "404";
  Tokenomics.birdeye_overview := fun a _ =>
    if String.eqb a token then overview else Rejected "401"
|}.

Definition whale_token : Tokenomics.Providers :=
  tokenomics_env (Resolved mint_renounced)
    (Resolved (Some meta_plain)) (Resolved (Some [holder_600; holder_400]))
    (Resolved (Some [deep_pair])) (Resolved (Some [burn_tx]))
    (Rejected "401").

End Samples.

(** ** Rule order and rule conditions of the security checks *)
Module SecurityRules.
Import SecurityChecks.

(** The flags in the order in which the source can push them. *)
Definition rule_order : list string :=
  [MINT_ACTIVE; FREEZE_ACTIVE; CREATOR_SHARE; TINY_LP; LP_MINT_RISK;
   NO_LIQUIDITY; HIGH_CONCENTRATION; MODERATE_CONCENTRATION; LARGE_DUMPS].

(** [l1] is [l2] with some elements left out, order kept. *)
Inductive Subseq {A : Type} : list A -> list A -> Prop :=
| Subseq_nil : Subseq [] []
| Subseq_skip (x : A) (l1 l2 : list A) : Subseq l1 l2 -> Subseq l1 (x :: l2)
| Subseq_take (x : A) (l1 l2 : list A) :
    Subseq l1 l2 -> Subseq (x :: l1) (x :: l2).

(** The high-severity rule read on the share itself: when the holders listed
    own more than 50% of the supply, a returned report carries the
    high-severity flag and not the moderate one. *)
Definition high_share_fires_high_only (env : Providers) (tokenAddress : string)
  : Prop :=
  forall r,
    performSecurityChecks env tokenAddress = Returned r ->
    (50 < exact_share_percent (totalSupply_of (getTokenMeta env tokenAddress))
            (getTopHolders env tokenAddress 10))%Q ->
    In HIGH_CONCENTRATION (flags r) /\ ~ In MODERATE_CONCENTRATION (flags r).

(** The transactions that the loop of step 5 counts as large dumps. *)
Definition large_dumps (recentTx : list Tx) : list Tx :=
  filter is_large_dump recentTx.

(** The callback of the [reduce] that selects the main pair. *)
Definition pick_deeper (prev curr : Pair) : Pair :=
  if opt_gt (pair_liquidity_usd curr) (pair_liquidity_usd prev)
  then curr else prev.

(** A pair whose [liquidity?.usd] is a number. *)
Definition has_liquidity (p : Pair) : Prop :=
  exists usd, pair_liquidity_usd p = Some usd.

(** [liquidity.usd] of a pair, 0 when missing. *)
Definition liquidity_or_zero (p : Pair) : Q := or_zeroQ (pair_liquidity_usd p).

End SecurityRules.

(** ** Indicators of the tokenomics analysis *)
Module TokenomicsRules.
Import Tokenomics.

Definition MINT_INFLATION := "Mint authority active - potential for inflation".
Definition FREEZE_ACCOUNTS :=
  "Freeze authority active - potential for account freezes".
Definition SHALLOW_LIQUIDITY := "Shallow liquidity (<$50k) - high volatility risk".
Definition UNLOCKED_LP := "Unlocked LP - rug pull risk".
Definition NO_LIQUIDITY := "No liquidity detected - illiquid token".
Definition UNEXPECTED_MINTS :=
  "Unexpected mints detected despite renounced authority".

(** The indicators in the order in which the source can push them. *)
Definition indicator_order : list string :=
  [MINT_INFLATION; FREEZE_ACCOUNTS; HIGH_WHALE; MODERATE_CONCENTRATION;
   SHALLOW_LIQUIDITY; UNLOCKED_LP; NO_LIQUIDITY; UNEXPECTED_MINTS].

Definition mint_active (mint : fetch MintInfo) : bool :=
  match mint with
  | Resolved mintInfo => present (mint_mintAuthority mintInfo)
  | Rejected _ => false
  end.

Definition freeze_active (mint : fetch MintInfo) : bool :=
  match mint with
  | Resolved mintInfo => present (mint_freezeAuthority mintInfo)
  | Rejected _ => false
  end.

Definition basic_indicators (mint : fetch MintInfo) : list string :=
  (if mint_active mint then [MINT_INFLATION] else [])
  ++ (if freeze_active mint then [FREEZE_ACCOUNTS] else []).

(** The main pair holds less than $50,000. *)
Definition shallow_liquidity (pairs : list Pair) : bool :=
  match pairs with
  | first :: _ =>
      Qltb (or_zeroQ (pair_liquidity_usd (mainPair_of first pairs))) (50000 # 1)
  | [] => false
  end.

(** A key was given and Birdeye answered that the liquidity is not locked. *)
Definition lp_unlocked (env : Providers) (tokenAddress birdeyeApiKey : string)
  : bool :=
  if String.eqb birdeyeApiKey "" then false
  else match getBirdeyeOverview env tokenAddress birdeyeApiKey with
       | Some o => negb (liquidity_locked o)
       | None => false
       end.

Definition lp_indicators (env : Providers) (tokenAddress birdeyeApiKey : string)
  (pairs : list Pair) : list string :=
  match pairs with
  | _ :: _ =>
      (if shallow_liquidity pairs then [SHALLOW_LIQUIDITY] else [])
      ++ (if lp_unlocked env tokenAddress birdeyeApiKey then [UNLOCKED_LP] else [])
  | [] => [NO_LIQUIDITY]
  end.

(** The recent transactions of type 'mint' and of type 'burn'. *)
Definition mint_txs (recentTx : list Tx) : list Tx :=
  filter (fun tx => String.eqb (tx_type tx) "mint") recentTx.

Definition burn_txs (recentTx : list Tx) : list Tx :=
  filter (fun tx => String.eqb (tx_type tx) "burn") recentTx.

(** Mints were seen although the mint account shows no mint authority. *)
Definition unexpected_mints (mint : fetch MintInfo) (recentTx : list Tx) : bool :=
  match mint_txs recentTx with
  | _ :: _ =>
      match mint with
      | Resolved mintInfo => negb (present (mint_mintAuthority mintInfo))
      | Rejected _ => false
      end
  | [] => false
  end.

Definition mint_indicators (mint : fetch MintInfo) (recentTx : list Tx)
  : list string :=
  if unexpected_mints mint recentTx then [UNEXPECTED_MINTS] else [].

(** The holders owned by one of the known wallets. *)
Definition vested_holders (knownVestingWallets : list string)
  (topHolders : list Holder) : list Holder :=
  filter (fun h => existsb (String.eqb (holder_owner h)) knownVestingWallets)
         topHolders.

Section WithFloats.

Variable F : Float64.

(** The top-10 percentage step 3 computes, when it gets that far. *)
Definition top10_of (env : Providers) (tokenAddress : string) : outcome number :=
  totalSupply <- totalSupply_of F (getTokenMeta env tokenAddress)
                   (after_supplyMetrics F env tokenAddress) ;;
  sum_shares totalSupply (firstn 10 (getTopHolders env tokenAddress 50)).

Definition concentration_indicators (env : Providers) (tokenAddress : string)
  : list string :=
  match getTopHolders env tokenAddress 50 with
  | _ :: _ =>
      match top10_of env tokenAddress with
      | Returned p => concentration_flags p
      | Thrown _ => []
      end
  | [] => []
  end.

(** The indicators of a whole run, in the order the steps append them. *)
Definition run_indicators (env : Providers) (tokenAddress : string)
  (birdeyeApiKey : string) : list string :=
  basic_indicators (rpc_getMint env tokenAddress)
  ++ concentration_indicators env tokenAddress
  ++ lp_indicators env tokenAddress birdeyeApiKey (getDexPairs env tokenAddress)
  ++ mint_indicators (rpc_getMint env tokenAddress)
                     (getRecentTransactions env tokenAddress 50).

(** ['High'] above three indicators, ['Medium'] above one, ['Low'] below. *)
Definition level_of (n : nat) : string :=
  if Nat.ltb 3 n then "High" else if Nat.ltb 1 n then "Medium" else "Low".

End WithFloats.

End TokenomicsRules.

(** ** More sample responses *)
Module MoreSamples.
Import Samples.

Definition band_pair : Pair := {|
  pair_dexId := "meteora";
  pair_pairAddress := "Pair3";
  pair_liquidity_usd := Some (30000 # 1);
  pair_volume_h24 := Some (900 # 1)
|}.

Definition mint_tx : Tx := {| tx_type := "mint"; tx_amount := 500 |}.

Definition unlocked_overview : Tokenomics.Overview := {|
  Tokenomics.liquidity_locked := false;
  Tokenomics.mc := Some (125000 # 1)
|}.

(** Renounced authorities, two whales, a shallow unlocked pool and a recent
    mint. *)
Definition risky_token : Tokenomics.Providers :=
  tokenomics_env (Resolved mint_renounced)
    (Resolved (Some meta_plain)) (Resolved (Some [holder_600; holder_400]))
    (Resolved (Some [shallow_pair])) (Resolved (Some [mint_tx; burn_tx]))
    (Resolved (Some unlocked_overview)).

(** The chain reader rejects and a recent transaction is a mint. *)
Definition chain_down_with_mint : Tokenomics.Providers :=
  tokenomics_env (Rejected "failed to get info about account")
    (Resolved (Some meta_plain)) (Resolved None)
    (Resolved (Some [deep_pair])) (Resolved (Some [mint_tx]))
    (Rejected "401").

(** The chain reader rejects; holders are found. *)
Definition chain_down_with_holders : Tokenomics.Providers :=
  tokenomics_env (Rejected "failed to get info about account")
    (Resolved (Some meta_plain)) (Resolved (Some [holder_600; holder_400]))
    (Resolved (Some [deep_pair])) (Resolved None)
    (Rejected "401").

(** The metadata reader rejects; holders are found. *)
Definition tokenomics_meta_down : Tokenomics.Providers :=
  tokenomics_env (Resolved mint_renounced)
    (Rejected "Request failed with status code 429")
    (Resolved (Some [holder_600; holder_400]))
    (Resolved (Some [deep_pair])) (Resolved (Some [burn_tx]))
    (Rejected "401").

(** Ten holders of 59 units each, of a supply of 1000: 59% of the supply. *)
Definition ten_of_59 : SecurityChecks.Providers :=
  security_env (Resolved mint_renounced)
    (Resolved (Some meta_plain))
    (Resolved (Some [holder_59; holder_59; holder_59; holder_59; holder_59;
                     holder_59; holder_59; holder_59; holder_59; holder_59]))
    (Resolved (Some [deep_pair])) (Resolved (Some [small_transfer])).

(** One pair with $30,000 of liquidity, for either analysis. *)
Definition band_security : SecurityChecks.Providers :=
  security_env (Resolved mint_renounced)
    (Resolved (Some meta_plain)) (Resolved (Some [holder_100]))
    (Resolved (Some [band_pair])) (Resolved (Some [small_transfer])).

Definition band_tokenomics : Tokenomics.Providers :=
  tokenomics_env (Resolved mint_renounced)
    (Resolved (Some meta_plain)) (Resolved (Some [holder_100]))
    (Resolved (Some [band_pair])) (Resolved (Some [burn_tx]))
    (Rejected "401").

End MoreSamples.

(** ** Social sentiment analysis: [performSocialSentimentAnalysis] *)
Module Sentiment.

(** A numeric field of a parsed JSON body: missing ([undefined]), [null], or
    a finite binary64 value. *)
Inductive json_number : Type :=
| Absent
| JNull
| JNum (q : Q).

(** [ToNumber]: [undefined] is NaN ([None]), [null] is [0]. *)
Definition to_number (x : json_number) : option Q :=
  match x with
  | Absent => None
  | JNull => Some 0%Q
  | JNum q => Some q
  end.

(** LunarCrush asset record; [top_influencers] is [None] when the field is
    missing or [null]. *)
Record LcData : Type := {
  galaxy_score : json_number;
  sentiment_relative : json_number;
  social_volume : json_number;
  social_engagement_score : json_number;
  top_influencers : option (list string)
}.

(** One point of the Santiment time series. *)
Record SanPoint : Type := {
  datetime : string;
  value : json_number
}.

Record Tweet : Type := {
  text : string
}.

Record TwitterKeys : Type := {
  appKey : string;
  appSecret : string;
  accessToken : string;
  accessSecret : string
}.

(** [apiKeys]: a missing LunarCrush key is the empty string, missing Twitter
    keys are [None]. *)
Record ApiKeys : Type := {
  lunarCrush : string;
  twitter : option TwitterKeys
}.

(** [new TwitterApi({...})]: the constructor of the client library hands
    over a client, or throws. *)
Inductive construction : Type :=
| Constructed
| Throws (msg : string).

Record Providers : Type := {
  (* GET api.lunarcrush.com/v2?data=meta&symbol=&key= *)
  lunarcrush_meta : string -> string -> fetch (option (list LcData));
  (* POST api.santiment.net/graphql, weighted_sentiment_total of a slug *)
  santiment_series : string -> fetch (option (list SanPoint));
  (* new TwitterApi({appKey, appSecret, accessToken, accessSecret}) *)
  new_TwitterApi : TwitterKeys -> construction;
  (* await client.v2.searchRecentTweets({query, max_results: 50}) and its
     [data]: [Rejected] is any exception of the call, that of a client
     without such a method included; [Resolved None] is data that is no
     array *)
  twitter_search : string -> TwitterKeys -> fetch (option (list Tweet))
}.

(** What the module takes from outside: the score of the sentiment library
    for a text (an integer, and so is the sum of the scores), and the
    binary64 operations on the average score. *)
Record Scoring : Type := {
  num : Type;
  (* [sentimentAnalyzer.analyze(text).score] *)
  analyze : string -> Z;
  (* [totalScore / tweets.length] *)
  quotient : Z -> Z -> num;
  (* the literal [0] *)
  zero : num;
  (* a Number that is [0] or NaN *)
  falsy : num -> bool;
  (* [x > 1] *)
  above_one : num -> bool
}.

(** The binary64 value of the literal [0.4]. *)
Definition double_0_4 : Q := 3602879701896397 # 9007199254740992.

(** [x > k] and [x < k] for a field and a literal: a comparison with NaN is
    false. *)
Definition field_gt (x : json_number) (k : Q) : bool :=
  match to_number x with
  | Some v => Qltb k v
  | None => false
  end.

Definition field_lt (x : json_number) (k : Q) : bool :=
  match to_number x with
  | Some v => Qltb v k
  | None => false
  end.

Definition getLunarCrushData (env : Providers) (symbol apiKey : string)
  : option LcData :=
  match lunarcrush_meta env symbol apiKey with
  | Resolved (Some (d :: _)) => Some d
  | Resolved (Some []) => None
  | Resolved None => None
  | Rejected _ => None
  end.

Definition getSantimentSentiment (env : Providers) (slug : string)
  : list SanPoint :=
  data_or [] (santiment_series env slug).

Section WithScoring.

Variable sc : Scoring.

(** [String.prototype.toLowerCase]. *)
Variable toLowerCase : string -> string.

Record TwitterData : Type := {
  averageScore : num sc;
  tweetCount : Z;
  potentialBots : Z
}.

Definition no_twitter_data : TwitterData :=
  {| averageScore := zero sc; tweetCount := 0; potentialBots := 0 |}.

(** The state of the [forEach] over the tweets. *)
Record Scan : Type := {
  totalScore : Z;
  textSet : list string;
  duplicates : Z
}.

Definition scan_tweet (s : Scan) (tweet : Tweet) : Scan :=
  let totalScore := totalScore s + analyze sc (text tweet) in
  if existsb (String.eqb (text tweet)) (textSet s)
  then {| totalScore := totalScore; textSet := textSet s;
          duplicates := duplicates s + 1 |}
  else {| totalScore := totalScore; textSet := textSet s ++ [text tweet];
          duplicates := duplicates s |}.

Definition scan_tweets (tweets : list Tweet) : Scan :=
  fold_left scan_tweet tweets
    {| totalScore := 0; textSet := []; duplicates := 0 |}.

(** The [try { ... } catch { ... }] of [getTwitterSentiment]: whatever the
    search or the loop throws ends in the zero data. *)
Definition searchTweets (env : Providers) (query : string)
  (keys : TwitterKeys) : TwitterData :=
  match twitter_search env query keys with
  | Resolved (Some tweets) =>
      let s := scan_tweets tweets in
      let q := quotient sc (totalScore s) (Z.of_nat (List.length tweets)) in
      {| averageScore := if falsy sc q then zero sc else q;
         tweetCount := Z.of_nat (List.length tweets);
         potentialBots := if 5 <? duplicates s then duplicates s else 0 |}
  | Resolved None => no_twitter_data
  | Rejected _ => no_twitter_data
  end.

(** The promise of [getTwitterSentiment]: the client is built before the
    [try], so what its constructor throws rejects the promise. *)
Definition getTwitterSentiment (env : Providers) (query : string)
  (twitterKeys : option TwitterKeys) : fetch TwitterData :=
  match twitterKeys with
  | None => Resolved no_twitter_data
  | Some keys =>
      match new_TwitterApi env keys with
      | Throws msg => Rejected msg
      | Constructed => Resolved (searchTweets env query keys)
      end
  end.

(** The objects of the report; a property that was never assigned, or was
    assigned [undefined], is [Absent] or [None]. *)
Record SentimentSection : Type := {
  galaxyScore : json_number;
  relativeSentiment : json_number;
  santimentWeighted : json_number;
  santimentTrend : option (list SanPoint);
  twitterAverage : option (num sc)
}.

Record Community : Type := {
  socialVolume : json_number;
  socialEngagement : json_number;
  community_tweetCount : option Z
}.

Record HypeIndicators : Type := {
  highVolume : option string;
  twitterHype : option string
}.

Record Report : Type := {
  sentiment : SentimentSection;
  community : Community;
  influencers : list string;
  hypeIndicators : HypeIndicators;
  riskFlags : list string;
  notes : list string
}.

Definition initial_report : Report := {|
  sentiment := {| galaxyScore := Absent; relativeSentiment := Absent;
                  santimentWeighted := Absent; santimentTrend := None;
                  twitterAverage := None |};
  community := {| socialVolume := Absent; socialEngagement := Absent;
                  community_tweetCount := None |};
  influencers := [];
  hypeIndicators := {| highVolume := None; twitterHype := None |};
  riskFlags := [];
  notes := []
|}.

Definition push_riskFlag (flag : string) (r : Report) : Report :=
  {| sentiment := sentiment r; community := community r;
     influencers := influencers r; hypeIndicators := hypeIndicators r;
     riskFlags := riskFlags r ++ [flag]; notes := notes r |}.

Definition push_note (note : string) (r : Report) : Report :=
  {| sentiment := sentiment r; community := community r;
     influencers := influencers r; hypeIndicators := hypeIndicators r;
     riskFlags := riskFlags r; notes := notes r ++ [note] |}.

Definition when (c : bool) (f : Report -> Report) (r : Report) : Report :=
  if c then f r else r.

Definition BEARISH := "Bearish sentiment detected".
Definition NEGATIVE_WEIGHTED := "Negative weighted sentiment in recent days".
Definition LUNARCRUSH_NOTE :=
  "Provide LunarCrush API key for comprehensive sentiment analysis".
Definition SANTIMENT_NOTE :=
  "Santiment data unavailable (token may not be listed; use for established coins)".
Definition TWITTER_NOTE :=
  "Provide Twitter API keys for X sentiment and engagement analysis".
Definition TELEGRAM_NOTE :=
  "Telegram/Discord analytics: Integrate custom bots (e.g., Combot for Telegram, Statbot for Discord) for member growth, activity, and bot detection. No free public APIs available without bot access.".
Definition CROSS_CHECK_NOTE :=
  "Multiple risk flags - cross-check with on-chain data for authenticity".

(** [`Potential bot activity detected (${n} duplicate tweets)`] *)
Definition bot_flag (n : Z) : string :=
  "Potential bot activity detected (" ++ string_of_Z n ++ " duplicate tweets)".

(** The assignments of step 1 for a LunarCrush record. *)
Definition record_lunarCrush (lcData : LcData) (r : Report) : Report :=
  let r := {|
    sentiment := {| galaxyScore := galaxy_score lcData;
                    relativeSentiment := sentiment_relative lcData;
                    santimentWeighted := santimentWeighted (sentiment r);
                    santimentTrend := santimentTrend (sentiment r);
                    twitterAverage := twitterAverage (sentiment r) |};
    community := {| socialVolume := social_volume lcData;
                    socialEngagement := social_engagement_score lcData;
                    community_tweetCount := community_tweetCount (community r) |};
    influencers := match top_influencers lcData with
                   | Some l => l
                   | None => []
                   end;
    hypeIndicators := hypeIndicators r;
    riskFlags := riskFlags r;
    notes := notes r |} in
  let r := if field_gt (social_volume lcData) (1000 # 1)
           then {| sentiment := sentiment r; community := community r;
                   influencers := influencers r;
                   hypeIndicators :=
                     {| highVolume :=
                          Some "High social mentions detected - potential hype";
                        twitterHype := twitterHype (hypeIndicators r) |};
                   riskFlags := riskFlags r; notes := notes r |}
           else r in
  when (field_lt (sentiment_relative lcData) double_0_4)
    (push_riskFlag BEARISH) r.

(** 1. LunarCrush (lines 308-326 of the listing). *)
Definition checkLunarCrush (env : Providers) (tokenSymbol : string)
  (apiKeys : ApiKeys) (r : Report) : Report :=
  if String.eqb (lunarCrush apiKeys) "" then push_note LUNARCRUSH_NOTE r
  else
    match getLunarCrushData env tokenSymbol (lunarCrush apiKeys) with
    | Some lcData => record_lunarCrush lcData r
    | None => r
    end.

(** [sanData[sanData.length - 1].value] of a non-empty series. *)
Definition recent_value (first : SanPoint) (rest : list SanPoint)
  : json_number :=
  value (last rest first).

(** 2. Santiment (lines 329-339). *)
Definition checkSantiment (env : Providers) (tokenSymbol : string) (r : Report)
  : Report :=
  let sanData := getSantimentSentiment env (toLowerCase tokenSymbol) in
  match sanData with
  | first :: rest =>
      let recentSentiment := recent_value first rest in
      let r := {|
        sentiment := {| galaxyScore := galaxyScore (sentiment r);
                        relativeSentiment := relativeSentiment (sentiment r);
                        santimentWeighted := recentSentiment;
                        santimentTrend := Some sanData;
                        twitterAverage := twitterAverage (sentiment r) |};
        community := community r; influencers := influencers r;
        hypeIndicators := hypeIndicators r;
        riskFlags := riskFlags r; notes := notes r |} in
      when (field_lt recentSentiment 0) (push_riskFlag NEGATIVE_WEIGHTED) r
  | [] => push_note SANTIMENT_NOTE r
  end.

(** [`${tokenName} OR #${tokenSymbol} lang:en`] *)
Definition twitter_query (tokenSymbol tokenName : string) : string :=
  tokenName ++ " OR #" ++ tokenSymbol ++ " lang:en".

(** The body of step 3 once the Twitter data has arrived. *)
Definition recordTwitter (twitterData : TwitterData) (r : Report) : Report :=
  let r := {|
    sentiment := {| galaxyScore := galaxyScore (sentiment r);
                    relativeSentiment := relativeSentiment (sentiment r);
                    santimentWeighted := santimentWeighted (sentiment r);
                    santimentTrend := santimentTrend (sentiment r);
                    twitterAverage := Some (averageScore twitterData) |};
    community := {| socialVolume := socialVolume (community r);
                    socialEngagement := socialEngagement (community r);
                    community_tweetCount := Some (tweetCount twitterData) |};
    influencers := influencers r; hypeIndicators := hypeIndicators r;
    riskFlags := riskFlags r; notes := notes r |} in
  let r := when (0 <? potentialBots twitterData)
             (push_riskFlag (bot_flag (potentialBots twitterData))) r in
  if andb (20 <? tweetCount twitterData)
          (above_one sc (averageScore twitterData))
  then {| sentiment := sentiment r; community := community r;
          influencers := influencers r;
          hypeIndicators :=
            {| highVolume := highVolume (hypeIndicators r);
               twitterHype :=
                 Some "Positive Twitter sentiment with high engagement" |};
          riskFlags := riskFlags r; notes := notes r |}
  else r.

(** 3. Twitter (lines 342-355): a rejection of [getTwitterSentiment] is not
    caught. *)
Definition checkTwitter (env : Providers) (tokenSymbol tokenName : string)
  (apiKeys : ApiKeys) (r : Report) : fetch Report :=
  match twitter apiKeys with
  | Some keys =>
      match getTwitterSentiment env (twitter_query tokenSymbol tokenName)
              (Some keys) with
      | Resolved twitterData => Resolved (recordTwitter twitterData r)
      | Rejected msg => Rejected msg
      end
  | None => Resolved (push_note TWITTER_NOTE r)
  end.

(** Lines 361-366: the closing notes. *)
Definition closingNotes (r : Report) : Report :=
  let r := push_note TELEGRAM_NOTE r in
  when (Nat.ltb 1 (List.length (riskFlags r))) (push_note CROSS_CHECK_NOTE) r.

(** The promise of the analysis: the report, or the rejection that
    escaped step 3. *)
Definition performSocialSentimentAnalysis (env : Providers)
  (tokenSymbol tokenName : string) (apiKeys : ApiKeys) : fetch Report :=
  let report := initial_report in
  let report := checkLunarCrush env tokenSymbol apiKeys report in
  let report := checkSantiment env tokenSymbol report in
  match checkTwitter env tokenSymbol tokenName apiKeys report with
  | Resolved report => Resolved (closingNotes report)
  | Rejected msg => Rejected msg
  end.

(** The texts of the tweets, each once. *)
Definition distinct_texts (tweets : list Tweet) : list string :=
  nodup string_dec (map text tweets).

(** Two provider sets that answer the Santiment request of a run alike. *)
Definition same_santiment (env1 env2 : Providers) (tokenSymbol : string) : Prop :=
  santiment_series env1 (toLowerCase tokenSymbol)
  = santiment_series env2 (toLowerCase tokenSymbol).

End WithScoring.

Arguments averageScore {sc} t.
Arguments tweetCount {sc} t.
Arguments potentialBots {sc} t.
Arguments galaxyScore {sc} s.
Arguments relativeSentiment {sc} s.
Arguments santimentWeighted {sc} s.
Arguments santimentTrend {sc} s.
Arguments twitterAverage {sc} s.
Arguments sentiment {sc} r.
Arguments community {sc} r.
Arguments influencers {sc} r.
Arguments hypeIndicators {sc} r.
Arguments riskFlags {sc} r.
Arguments notes {sc} r.

End Sentiment.

(** The conditions of the rules of [performSocialSentimentAnalysis], over the
    answers of the helpers. *)
Module SentimentRules.
Import Sentiment.

(** The LunarCrush record that step 1 works on: a key was given and the
    lookup answered with a record. *)
Definition lunarCrush_record (env : Providers) (tokenSymbol : string)
  (apiKeys : ApiKeys) : option LcData :=
  if String.eqb (lunarCrush apiKeys) "" then None
  else getLunarCrushData env tokenSymbol (lunarCrush apiKeys).

Definition bearish (env : Providers) (tokenSymbol : string) (apiKeys : ApiKeys)
  : bool :=
  match lunarCrush_record env tokenSymbol apiKeys with
  | Some lcData => field_lt (sentiment_relative lcData) double_0_4
  | None => false
  end.

Definition high_volume (env : Providers) (tokenSymbol : string)
  (apiKeys : ApiKeys) : bool :=
  match lunarCrush_record env tokenSymbol apiKeys with
  | Some lcData => field_gt (social_volume lcData) (1000 # 1)
  | None => false
  end.

Definition lunarCrush_flags (env : Providers) (tokenSymbol : string)
  (apiKeys : ApiKeys) : list string :=
  if bearish env tokenSymbol apiKeys then [BEARISH] else [].

Definition note_order : list string :=
  [LUNARCRUSH_NOTE; SANTIMENT_NOTE; TWITTER_NOTE; TELEGRAM_NOTE;
   CROSS_CHECK_NOTE].

Definition lunarCrush_notes (apiKeys : ApiKeys) : list string :=
  if String.eqb (lunarCrush apiKeys) "" then [LUNARCRUSH_NOTE] else [].

Definition twitter_notes (apiKeys : ApiKeys) : list string :=
  match twitter apiKeys with
  | Some _ => []
  | None => [TWITTER_NOTE]
  end.

(** The number of tweets with a text that an earlier tweet had. *)
Definition repeated (tweets : list Tweet) : Z :=
  Z.of_nat (List.length tweets) - Z.of_nat (List.length (distinct_texts tweets)).

(** The sum of the scores of the texts. *)
Definition score_sum (analyze : string -> Z) (tweets : list Tweet) : Z :=
  fold_right Z.add 0 (map (fun tweet => analyze (text tweet)) tweets).

Definition HIGH_VOLUME := "High social mentions detected - potential hype".
Definition TWITTER_HYPE := "Positive Twitter sentiment with high engagement".

(** The search of a run does not answer with a list of tweets: it is
    rejected, or its data is no array. *)
Definition search_fails (env : Providers) (tokenSymbol tokenName : string)
  (keys : TwitterKeys) : Prop :=
  forall tweets,
    twitter_search env (twitter_query tokenSymbol tokenName) keys
    <> Resolved (Some tweets).

(** The run gets past the constructor of the Twitter client: no keys were
    given, or the constructor accepts them. *)
Definition client_accepted (env : Providers) (apiKeys : ApiKeys) : Prop :=
  match twitter apiKeys with
  | Some keys => new_TwitterApi env keys = Constructed
  | None => True
  end.

Section WithScoring.

Variable sc : Scoring.
Variable toLowerCase : string -> string.

(** What the loop of [getTwitterSentiment] keeps true of its state after the
    tweets [seen]. *)
Definition scanned (seen : list Tweet) (s : Scan) : Prop :=
  NoDup (textSet s)
  /\ (forall t, In t (textSet s) <-> In t (map text seen))
  /\ duplicates s + Z.of_nat (List.length (textSet s))
     = Z.of_nat (List.length seen)
  /\ totalScore s = score_sum (analyze sc) seen.

(** [totalScore / tweets.length || 0] of a list of tweets. *)
Definition average (tweets : list Tweet) : num sc :=
  let q := quotient sc (score_sum (analyze sc) tweets)
             (Z.of_nat (List.length tweets)) in
  if falsy sc q then zero sc else q.

(** The series that step 2 works on. *)
Definition series (env : Providers) (tokenSymbol : string) : list SanPoint :=
  getSantimentSentiment env (toLowerCase tokenSymbol).

(** The value of the last point of the series, if it has one. *)
Definition recent_sentiment (env : Providers) (tokenSymbol : string)
  : option json_number :=
  match series env tokenSymbol with
  | first :: rest => Some (recent_value first rest)
  | [] => None
  end.

Definition negative_weighted (env : Providers) (tokenSymbol : string) : bool :=
  match recent_sentiment env tokenSymbol with
  | Some v => field_lt v 0
  | None => false
  end.

Definition santiment_flags (env : Providers) (tokenSymbol : string)
  : list string :=
  if negative_weighted env tokenSymbol then [NEGATIVE_WEIGHTED] else [].

Definition santiment_notes (env : Providers) (tokenSymbol : string)
  : list string :=
  match series env tokenSymbol with
  | [] => [SANTIMENT_NOTE]
  | _ :: _ => []
  end.

(** The Twitter data that step 3 records when keys were given and the
    client was built. *)
Definition twitter_data (env : Providers) (tokenSymbol tokenName : string)
  (apiKeys : ApiKeys) : option (TwitterData sc) :=
  match twitter apiKeys with
  | Some keys =>
      Some (searchTweets sc env (twitter_query tokenSymbol tokenName) keys)
  | None => None
  end.

(** [twitterData.potentialBots] of a run, [0] without keys. *)
Definition bots (env : Providers) (tokenSymbol tokenName : string)
  (apiKeys : ApiKeys) : Z :=
  match twitter_data env tokenSymbol tokenName apiKeys with
  | Some twitterData => potentialBots twitterData
  | None => 0
  end.

Definition twitter_hype (env : Providers) (tokenSymbol tokenName : string)
  (apiKeys : ApiKeys) : bool :=
  match twitter_data env tokenSymbol tokenName apiKeys with
  | Some twitterData =>
      andb (20 <? tweetCount twitterData)
           (above_one sc (averageScore twitterData))
  | None => false
  end.

Definition twitter_flags (env : Providers) (tokenSymbol tokenName : string)
  (apiKeys : ApiKeys) : list string :=
  let n := bots env tokenSymbol tokenName apiKeys in
  if 0 <? n then [bot_flag n] else [].

(** The risk flags of a run that returns, step by step. *)
Definition run_riskFlags (env : Providers) (tokenSymbol tokenName : string)
  (apiKeys : ApiKeys) : list string :=
  (lunarCrush_flags env tokenSymbol apiKeys
   ++ santiment_flags env tokenSymbol
   ++ twitter_flags env tokenSymbol tokenName apiKeys)%list.

(** The flags in the order in which a run can push them. *)
Definition flag_order (env : Providers) (tokenSymbol tokenName : string)
  (apiKeys : ApiKeys) : list string :=
  [BEARISH; NEGATIVE_WEIGHTED;
   bot_flag (bots env tokenSymbol tokenName apiKeys)].

End WithScoring.

End SentimentRules.

(** Sample scoring and provider answers for the sentiment analysis. *)
Module SentimentSamples.
Import Sentiment.

Definition exact_scoring : Scoring := {|
  num := option Q;
  analyze := fun t => if String.eqb t "to the moon" then 3 else 0;
  quotient := fun a b => if b =? 0 then None else Some (Qred (a # Z.to_pos b));
  zero := Some 0%Q;
  falsy := fun x => match x with
                    | Some q => Qeq_bool q 0
                    | None => true
                    end;
  above_one := fun x => match x with
                        | Some q => Qltb 1 q
                        | None => false
                        end
|}.

(** Keys the client library accepts. *)
Definition sample_keys : TwitterKeys :=
  {| appKey := "k"; appSecret := "s"; accessToken := "t"; accessSecret := "u" |}.

(** The keys of the example call at the end of the listing. *)
Definition empty_keys : TwitterKeys :=
  {| appKey := ""; appSecret := ""; accessToken := ""; accessSecret := "" |}.

(** A client library that refuses empty consumer tokens. *)
Definition refuse_empty_tokens (keys : TwitterKeys) : construction :=
  if orb (String.eqb (appKey keys) "") (String.eqb (appSecret keys) "")
  then Throws "Invalid consumer tokens"
  else Constructed.

Definition bearish_asset : LcData := {|
  galaxy_score := JNum (41 # 1);
  sentiment_relative := JNum (1 # 4);
  social_volume := JNum (2500 # 1);
  social_engagement_score := Absent;
  top_influencers := None
|}.

(** An asset whose relative sentiment and social volume are [null]. *)
Definition null_asset : LcData := {|
  galaxy_score := JNum (41 # 1);
  sentiment_relative := JNull;
  social_volume := JNull;
  social_engagement_score := Absent;
  top_influencers := Some ["alice"]
|}.

(** Providers with fixed answers, a client library that refuses empty
    consumer tokens and whose client has no [searchRecentTweets]. *)
Definition sample_env (lc : fetch (option (list LcData)))
  (san : fetch (option (list SanPoint))) : Providers := {|
  lunarcrush_meta := fun _ _ => lc;
  santiment_series := fun _ => san;
  new_TwitterApi := refuse_empty_tokens;
  twitter_search := fun _ _ =>
    Rejected "client.v2.searchRecentTweets is not a function"
|}.

(** A bearish asset and a falling Santiment series. *)
Definition bearish_market : Providers :=
  sample_env (Resolved (Some [bearish_asset]))
    (Resolved (Some [{| datetime := "2024-05-01"; value := JNum (1 # 2) |};
                     {| datetime := "2024-05-02"; value := JNum (-1 # 3) |}])).

Definition quiet : Providers :=
  sample_env (Resolved (Some [null_asset]))
    (Resolved (Some [{| datetime := "2024-05-02"; value := JNull |}])).

(** LunarCrush answers, Santiment rejects. *)
Definition santiment_down : Providers :=
  sample_env (Resolved (Some [bearish_asset])) (Rejected "timeout").

(** Every provider rejects. *)
Definition all_down : Providers :=
  sample_env (Rejected "401") (Rejected "timeout").

Definition all_keys : ApiKeys :=
  {| lunarCrush := "key"; twitter := Some sample_keys |}.

Definition no_keys : ApiKeys := {| lunarCrush := ""; twitter := None |}.

(** The [apiKeys] of the example call at the end of the listing. *)
Definition example_keys : ApiKeys :=
  {| lunarCrush := ""; twitter := Some empty_keys |}.

End SentimentSamples.

(** * Properties *)

(** ** Numbers *)
Module NumberFacts.

Lemma round53_exact (z : Z) : Z.abs z < 2 ^ 53 -> round53 z = z.
Proof.
  intros Hz. unfold round53.
  destruct (Z.ltb_spec (Z.abs z) (2 ^ 53)) as [_ | Hge]; [reflexivity | lia].
Qed.

Lemma double_of_Z_exact (z : Z) : Z.abs z < 2 ^ 53 -> double_of_Z z = Fin z.
Proof.
  intros Hz. unfold double_of_Z. rewrite (round53_exact z Hz).
  destruct (Z.leb_spec (2 ^ 1024) (Z.abs z)) as [Hbig | _]; [| reflexivity].
  assert (2 ^ 53 < 2 ^ 1024) by (apply Z.pow_lt_mono_r; lia). lia.
Qed.

Lemma num_add_exact (a b : Z) :
  Z.abs (a + b) < 2 ^ 53 -> num_add (Fin a) (Fin b) = Fin (a + b).
Proof. intros H. simpl. apply double_of_Z_exact, H. Qed.

Lemma Number_of_BigInt_exact (b : Z) :
  Z.abs b < 2 ^ 53 -> Number_of_BigInt b = Fin b.
Proof. apply double_of_Z_exact. Qed.

End NumberFacts.

(** ** The share accumulation *)
Module ShareFacts.
Import NumberFacts.

Lemma fold_add_share_thrown (S : Z) (hs : list Holder) (e : exn) :
  fold_left (add_share S) hs (Thrown e) = Thrown e.
Proof. induction hs as [| h hs IH]; simpl; [reflexivity | apply IH]. Qed.

Lemma sum_shares_zero_supply (h : Holder) (hs : list Holder) :
  sum_shares 0 (h :: hs) = Thrown (RangeError "Division by zero").
Proof. unfold sum_shares. simpl. apply fold_add_share_thrown. Qed.

Lemma fold_add_share_returns (S : Z) (hs : list Holder) :
  S <> 0 ->
  forall acc, exists p, fold_left (add_share S) hs (Returned acc) = Returned p.
Proof.
  intros HS. induction hs as [| h hs IH]; intros acc; [exists acc; reflexivity |].
  cbn [fold_left]. unfold add_share at 2. cbn [bind]. unfold bigint_div.
  destruct (Z.eqb_spec S 0) as [H0 | _]; [contradiction |]. cbn [bind].
  apply IH.
Qed.

(** The accumulation raises exactly on a zero supply. *)
Lemma sum_shares_returns (S : Z) (hs : list Holder) :
  S <> 0 -> exists p, sum_shares S hs = Returned p.
Proof. intros HS. apply fold_add_share_returns, HS. Qed.

Lemma floor_share_nonneg (S : Z) (h : Holder) :
  0 < S -> 0 <= holder_amount h -> 0 <= floor_share S h.
Proof. intros HS Hh. unfold floor_share. apply Z.div_pos; lia. Qed.

Lemma floor_shares_nonneg (S : Z) (hs : list Holder) :
  0 < S -> Forall (fun h => 0 <= holder_amount h) hs -> 0 <= floor_shares S hs.
Proof.
  intros HS Hall. induction Hall as [| h hs Hh _ IH]; [cbn; lia |].
  change (floor_shares S (h :: hs)) with (floor_share S h + floor_shares S hs).
  pose proof (floor_share_nonneg S h HS Hh). lia.
Qed.

(** The floors never add up to more than the exact share. *)
Lemma floor_shares_below (S : Z) (hs : list Holder) :
  0 < S -> floor_shares S hs * S <= 100 * total_amount hs.
Proof.
  intros HS. induction hs as [| h hs IH]; [cbn; lia |].
  cbn [floor_shares total_amount fold_right].
  fold (floor_shares S hs). fold (total_amount hs). unfold floor_share.
  pose proof (Z.mul_div_le (holder_amount h * 100) S HS) as Hq.
  rewrite Z.mul_comm in Hq. rewrite Z.mul_add_distr_r. lia.
Qed.

Lemma floor_shares_safe (S : Z) (hs : list Holder) :
  well_formed_balances S hs -> floor_shares S hs < 2 ^ 53.
Proof.
  intros (HS & _ & Hsafe).
  pose proof (floor_shares_below S hs HS).
  assert (0 < 2 ^ 53) by (apply Z.pow_pos_nonneg; lia). nia.
Qed.

Lemma fold_add_share_exact (S : Z) (hs : list Holder) :
  0 < S ->
  Forall (fun h => 0 <= holder_amount h) hs ->
  forall acc, 0 <= acc -> acc + floor_shares S hs < 2 ^ 53 ->
  fold_left (add_share S) hs (Returned (Fin acc))
  = Returned (Fin (acc + floor_shares S hs)).
Proof.
  intros HS Hall. induction Hall as [| h hs Hh Hall IH]; intros acc Hacc Hb.
  - cbn. f_equal. f_equal. lia.
  - change (floor_shares S (h :: hs))
      with (floor_share S h + floor_shares S hs) in *.
    pose proof (floor_share_nonneg S h HS Hh) as Hq.
    pose proof (floor_shares_nonneg S hs HS Hall) as Hrest.
    assert (Hstep : add_share S (Returned (Fin acc)) h
                    = Returned (Fin (acc + floor_share S h))).
    { unfold add_share, bind, bigint_div.
      destruct (Z.eqb_spec S 0) as [-> | _]; [lia |].
      rewrite Z.quot_div_nonneg by lia. fold (floor_share S h).
      rewrite Number_of_BigInt_exact by lia.
      f_equal. apply num_add_exact. lia. }
    cbn [fold_left]. rewrite Hstep, IH by lia. f_equal. f_equal. lia.
Qed.

(** On well-formed balances the accumulated Number is the sum of the floors. *)
Lemma sum_shares_exact (S : Z) (hs : list Holder) :
  well_formed_balances S hs ->
  sum_shares S hs = Returned (Fin (floor_shares S hs)).
Proof.
  intros Hwf. pose proof (floor_shares_safe S hs Hwf) as Hsafe.
  destruct Hwf as (HS & Hall & _).
  unfold sum_shares. rewrite (fold_add_share_exact S hs HS Hall 0); [reflexivity | lia | lia].
Qed.

Lemma well_formed_firstn (S : Z) (n : nat) (hs : list Holder) :
  well_formed_balances S hs -> well_formed_balances S (firstn n hs).
Proof.
  intros (HS & Hall & Hsafe). split; [exact HS |].
  assert (Hle : forall l, Forall (fun h => 0 <= holder_amount h) l ->
                forall k, total_amount (firstn k l) <= total_amount l
                          /\ Forall (fun h => 0 <= holder_amount h) (firstn k l)).
  { intros l Hl. induction Hl as [| h l Hh Hl IH]; intros [| k]; simpl.
    - split; [lia | constructor].
    - split; [lia | constructor].
    - split; [| constructor].
      clear IH. induction Hl as [| h' l' Hh' _ IH']; simpl in *; lia.
    - destruct (IH k) as [Hk Hf]. split; [lia | constructor; assumption]. }
  destruct (Hle hs Hall n) as [Hk Hf]. split; [exact Hf |].
  assert (0 < 2 ^ 53) by (apply Z.pow_pos_nonneg; lia). lia.
Qed.

End ShareFacts.

(** ** The security checks, step by step *)
Module SecurityFacts.
Import SecurityChecks.
Local Open Scope list_scope.

Lemma delta_sum_app (l1 l2 : list string) :
  delta_sum (l1 ++ l2) = delta_sum l1 + delta_sum l2.
Proof.
  induction l1 as [| f l1 IH]; [reflexivity |].
  cbn [app delta_sum fold_right]. fold (delta_sum (l1 ++ l2)).
  fold (delta_sum l1). rewrite IH. lia.
Qed.

Lemma delta_sum_nonneg (l : list string) : 0 <= delta_sum l.
Proof.
  induction l as [| f l IH]; [cbn; lia |].
  cbn [delta_sum fold_right]. fold (delta_sum l).
  assert (0 <= rule_delta f).
  { unfold rule_delta.
    repeat match goal with |- context [if ?c then _ else _] => destruct c end; lia. }
  lia.
Qed.


Ltac solve_appends :=
  split; cbn; rewrite <- ?app_assoc, ?app_nil_r; try reflexivity; lia.

Lemma appends_nil (r : Report) : appends [] r r.
Proof. solve_appends. Qed.

Lemma appends_trans (e1 e2 : list string) (r1 r2 r3 : Report) :
  appends e1 r1 r2 -> appends e2 r2 r3 -> appends (e1 ++ e2) r1 r3.
Proof.
  intros [Hf1 Hs1] [Hf2 Hs2]. split.
  - rewrite Hf2, Hf1. symmetry. apply app_assoc.
  - rewrite Hs2, Hs1, delta_sum_app. lia.
Qed.

Lemma appends_raise_flag (flag : string) (r : Report) :
  appends [flag] r (raise_flag flag (rule_delta flag) r).
Proof. split; cbn; [reflexivity | lia]. Qed.

Lemma checkAuthorities_appends (mint : fetch MintInfo) (r : Report) :
  appends (authority_flags mint) r (checkAuthorities mint r).
Proof.
  destruct mint as [mi | msg]; cbn.
  - destruct (present (mint_mintAuthority mi)),
             (present (mint_freezeAuthority mi)); split; cbn;
      rewrite <- ?app_assoc, ?app_nil_r; try reflexivity; lia.
  - solve_appends.
Qed.

Lemma checkAuthorities_active (mint : fetch MintInfo) (r : Report) :
  section_active (authorities (checkAuthorities mint r)) = mint_active mint.
Proof.
  destruct mint as [mi | msg]; cbn; [| reflexivity].
  destruct (present (mint_mintAuthority mi)),
           (present (mint_freezeAuthority mi)); reflexivity.
Qed.

Lemma checkAuthorities_populated (mint : fetch MintInfo) (r : Report) :
  is_populated (authorities (checkAuthorities mint r))
  = match mint with Resolved _ => true | Rejected _ => false end.
Proof.
  destruct mint as [mi | msg]; cbn; [| reflexivity].
  destruct (present (mint_mintAuthority mi)),
           (present (mint_freezeAuthority mi)); reflexivity.
Qed.

Lemma checkAdminKeys_appends (tokenMeta : option TokenMeta) (r : Report) :
  appends (adminKeys_flags tokenMeta) r (checkAdminKeys tokenMeta r).
Proof.
  destruct tokenMeta as [m |]; cbn.
  - destruct (creator_over_10 (meta_creator m)); split; cbn;
      rewrite ?app_nil_r; try reflexivity; lia.
  - solve_appends.
Qed.

Lemma checkAdminKeys_authorities (tokenMeta : option TokenMeta) (r : Report) :
  authorities (checkAdminKeys tokenMeta r) = authorities r.
Proof.
  destruct tokenMeta as [m |]; cbn; [| reflexivity].
  destruct (creator_over_10 (meta_creator m)); reflexivity.
Qed.

(** Step 3 raises exactly when pairs were found and step 1 left no
    [mintAuthority] to read. *)
Lemma checkLpHealth_throws (first : Pair) (pairs : list Pair) (r : Report) :
  is_populated (authorities r) = false ->
  checkLpHealth (first :: pairs) r
  = Thrown (TypeError "Cannot read properties of undefined (reading 'includes')").
Proof.
  intros Hno. unfold checkLpHealth, mintAuthority_includes_Active, when.
  match goal with |- context [if ?c then _ else _] => destruct c end; cbn;
    destruct (authorities r); try discriminate; reflexivity.
Qed.

Lemma checkLpHealth_returns (pairs : list Pair) (r : Report) :
  pairs = [] \/ is_populated (authorities r) = true ->
  exists r', checkLpHealth pairs r = Returned r'.
Proof.
  intros H. destruct pairs as [| first pairs]; [eexists; reflexivity |].
  destruct H as [H | H]; [discriminate |].
  unfold checkLpHealth, mintAuthority_includes_Active, when.
  match goal with |- context [if ?c then _ else _] => destruct c end; cbn;
    destruct (authorities r); try discriminate; cbn; eexists; reflexivity.
Qed.

Lemma checkLpHealth_appends (pairs : list Pair) (r r' : Report) :
  checkLpHealth pairs r = Returned r' ->
  appends (lp_flags (section_active (authorities r)) pairs) r r'.
Proof.
  destruct pairs as [| first pairs].
  - cbn. intros [= <-]. solve_appends.
  - unfold checkLpHealth. cbv zeta.
    change (Qltb _ (20000 # 1)) with (tiny_liquidity (first :: pairs)).
    unfold mintAuthority_includes_Active, when, lp_flags, section_active.
    destruct (tiny_liquidity (first :: pairs)); cbn;
      destruct (authorities r) as [| a |]; cbn; try discriminate;
      destruct (includes "Active" (mintAuthority a)); intros [= <-];
      solve_appends.
Qed.

Lemma checkLpHealth_authorities (pairs : list Pair) (r r' : Report) :
  checkLpHealth pairs r = Returned r' -> authorities r' = authorities r.
Proof.
  destruct pairs as [| first pairs].
  - cbn. intros [= <-]. reflexivity.
  - unfold checkLpHealth. cbv zeta.
    change (Qltb _ (20000 # 1)) with (tiny_liquidity (first :: pairs)).
    unfold mintAuthority_includes_Active, when.
    destruct (tiny_liquidity (first :: pairs)); cbn;
      destruct (authorities r) as [| a |] eqn:Ha; cbn; try discriminate;
      destruct (includes "Active" (mintAuthority a)); intros [= <-];
      cbn; exact Ha.
Qed.

Lemma checkLpHealth_section (pairs : list Pair) (r r' : Report) :
  checkLpHealth pairs r = Returned r' ->
  is_populated (lpHealth r') = true ->
  pairs <> [] /\ is_populated (authorities r) = true.
Proof.
  destruct pairs as [| first pairs].
  - cbn. intros [= <-]. cbn. discriminate.
  - intros Hrun _. split; [discriminate |].
    destruct (is_populated (authorities r)) eqn:Hp; [reflexivity |].
    rewrite (checkLpHealth_throws first pairs r Hp) in Hrun. discriminate.
Qed.

Lemma checkDistribution_appends (tokenMeta : option TokenMeta)
  (topHolders : list Holder) (r r' : Report) :
  checkDistribution tokenMeta topHolders r = Returned r' ->
  appends (distribution_flags tokenMeta topHolders) r r'.
Proof.
  destruct topHolders as [| h hs].
  - cbn. intros [= <-]. solve_appends.
  - unfold checkDistribution, distribution_flags, bind.
    destruct (sum_shares (totalSupply_of tokenMeta) (h :: hs)) as [p | e];
      [| discriminate].
    intros [= <-]. unfold concentration_rules, concentration_flags.
    destruct (num_gt p 50); [| destruct (num_gt p 20)]; split; cbn;
      rewrite ?app_nil_r; try reflexivity; lia.
Qed.

(** The distribution section of a report that step 4 returned. *)
Lemma checkDistribution_section (tokenMeta : option TokenMeta)
  (topHolders : list Holder) (r r' : Report) :
  checkDistribution tokenMeta topHolders r = Returned r' ->
  match topHolders with
  | [] => tokenDistribution r' = ErrorMarker "Failed to fetch holders"
  | _ :: _ =>
      exists p, sum_shares (totalSupply_of tokenMeta) topHolders = Returned p
                /\ tokenDistribution r'
                   = Populated {| top10HoldersPercent := p;
                                  holderCount := holderCount_of tokenMeta |}
  end.
Proof.
  destruct topHolders as [| h hs].
  - cbn. intros [= <-]. reflexivity.
  - unfold checkDistribution, bind.
    destruct (sum_shares (totalSupply_of tokenMeta) (h :: hs)) as [p | e];
      [| discriminate].
    intros [= <-]. exists p. split; [reflexivity |].
    unfold concentration_rules.
    destruct (num_gt p 50); [| destruct (num_gt p 20)]; reflexivity.
Qed.

Lemma checkTransactions_appends (recentTx : list Tx) (r : Report) :
  appends (transaction_flags recentTx) r (checkTransactions recentTx r).
Proof.
  destruct recentTx as [| tx txs].
  - solve_appends.
  - unfold checkTransactions, transaction_flags, when.
    destruct (2 <? count_largeDumps (tx :: txs)); split; cbn;
      rewrite ?app_nil_r; try reflexivity; lia.
Qed.

Lemma checkTransactions_frame (recentTx : list Tx) (r : Report) :
  lpHealth (checkTransactions recentTx r) = lpHealth r
  /\ tokenDistribution (checkTransactions recentTx r) = tokenDistribution r
  /\ authorities (checkTransactions recentTx r) = authorities r.
Proof.
  destruct recentTx as [| tx txs]; [repeat split |].
  unfold checkTransactions, when.
  destruct (2 <? count_largeDumps (tx :: txs)); repeat split.
Qed.

Lemma checkDistribution_frame (tokenMeta : option TokenMeta)
  (topHolders : list Holder) (r r' : Report) :
  checkDistribution tokenMeta topHolders r = Returned r' ->
  lpHealth r' = lpHealth r /\ authorities r' = authorities r.
Proof.
  destruct topHolders as [| h hs].
  - cbn. intros [= <-]. split; reflexivity.
  - unfold checkDistribution, bind.
    destruct (sum_shares (totalSupply_of tokenMeta) (h :: hs)) as [p | e];
      [| discriminate].
    intros [= <-]. unfold concentration_rules.
    destruct (num_gt p 50); [| destruct (num_gt p 20)]; split; reflexivity.
Qed.


Lemma runChecks_inv (env : Providers) (tokenAddress : string) (r : Report) :
  runChecks env tokenAddress = Returned r ->
  exists r3 r4,
    checkLpHealth (getDexPairs env tokenAddress) (after_adminKeys env tokenAddress)
    = Returned r3
    /\ checkDistribution (getTokenMeta env tokenAddress)
         (getTopHolders env tokenAddress 10) r3 = Returned r4
    /\ r = checkTransactions (getRecentTransactions env tokenAddress 20) r4.
Proof.
  unfold runChecks. cbv zeta. fold (after_adminKeys env tokenAddress).
  destruct (checkLpHealth _ _) as [r3 | e] eqn:H3; [| discriminate]. cbn [bind].
  destruct (checkDistribution _ _ r3) as [r4 | e] eqn:H4; [| discriminate].
  cbn [bind]. intros [= <-]. exists r3, r4. repeat split. exact H4.
Qed.

Lemma runChecks_compose (env : Providers) (tokenAddress : string) (r3 r4 : Report) :
  checkLpHealth (getDexPairs env tokenAddress) (after_adminKeys env tokenAddress)
  = Returned r3 ->
  checkDistribution (getTokenMeta env tokenAddress)
    (getTopHolders env tokenAddress 10) r3 = Returned r4 ->
  runChecks env tokenAddress
  = Returned (checkTransactions (getRecentTransactions env tokenAddress 20) r4).
Proof.
  intros H3 H4. unfold runChecks. cbv zeta.
  fold (after_adminKeys env tokenAddress). rewrite H3. cbn [bind].
  rewrite H4. reflexivity.
Qed.

Lemma after_adminKeys_active (env : Providers) (tokenAddress : string) :
  section_active (authorities (after_adminKeys env tokenAddress))
  = mint_active (rpc_getMint env tokenAddress).
Proof.
  unfold after_adminKeys.
  rewrite checkAdminKeys_authorities. apply checkAuthorities_active.
Qed.

Lemma after_adminKeys_populated (env : Providers) (tokenAddress : string) :
  is_populated (authorities (after_adminKeys env tokenAddress))
  = match rpc_getMint env tokenAddress with
    | Resolved _ => true
    | Rejected _ => false
    end.
Proof.
  unfold after_adminKeys.
  rewrite checkAdminKeys_authorities. apply checkAuthorities_populated.
Qed.

Lemma after_adminKeys_error (env : Providers) (tokenAddress msg : string) :
  rpc_getMint env tokenAddress = Rejected msg ->
  authorities (after_adminKeys env tokenAddress)
  = ErrorMarker "Failed to fetch on-chain mint info".
Proof.
  intros Hmint. unfold after_adminKeys.
  rewrite checkAdminKeys_authorities, Hmint. reflexivity.
Qed.

Lemma after_adminKeys_appends (env : Providers) (tokenAddress : string) :
  appends (authority_flags (rpc_getMint env tokenAddress)
           ++ adminKeys_flags (getTokenMeta env tokenAddress))
          initial_report (after_adminKeys env tokenAddress).
Proof.
  eapply appends_trans;
    [apply checkAuthorities_appends | apply checkAdminKeys_appends].
Qed.

(** Every returned run appended exactly [run_flags] and added their deltas. *)
Lemma runChecks_appends (env : Providers) (tokenAddress : string) (r : Report) :
  runChecks env tokenAddress = Returned r ->
  flags r = run_flags env tokenAddress
  /\ riskScore r = delta_sum (run_flags env tokenAddress).
Proof.
  intros Hrun. destruct (runChecks_inv env tokenAddress r Hrun)
    as (r3 & r4 & H3 & H4 & ->).
  apply checkLpHealth_appends in H3. rewrite after_adminKeys_active in H3.
  apply checkDistribution_appends in H4.
  pose proof (checkTransactions_appends
                (getRecentTransactions env tokenAddress 20) r4) as H5.
  pose proof (appends_trans _ _ _ _ _
                (appends_trans _ _ _ _ _
                   (appends_trans _ _ _ _ _
                      (after_adminKeys_appends env tokenAddress) H3) H4) H5)
    as [Hf Hs].
  cbn [flags riskScore initial_report app] in Hf, Hs.
  unfold run_flags. rewrite <- !app_assoc in Hf, Hs.
  split; [exact Hf | rewrite Hs; lia].
Qed.


Lemma checkDistribution_returns (tokenMeta : option TokenMeta)
  (topHolders : list Holder) (r : Report) :
  (topHolders = []
   \/ exists p, sum_shares (totalSupply_of tokenMeta) topHolders = Returned p) ->
  exists r', checkDistribution tokenMeta topHolders r = Returned r'.
Proof.
  intros H. destruct topHolders as [| h hs]; [eexists; reflexivity |].
  destruct H as [H | [p Hp]]; [discriminate |].
  unfold checkDistribution, bind. rewrite Hp. eexists; reflexivity.
Qed.

Lemma runChecks_returns (env : Providers) (tokenAddress : string) :
  run_completes env tokenAddress ->
  exists r, runChecks env tokenAddress = Returned r.
Proof.
  intros [Hlp Hdist].
  destruct (checkLpHealth_returns (getDexPairs env tokenAddress)
              (after_adminKeys env tokenAddress)) as [r3 H3].
  { destruct Hlp as [Hnil | [mi Hmi]]; [left; exact Hnil | right].
    rewrite after_adminKeys_populated, Hmi. reflexivity. }
  destruct (checkDistribution_returns _ _ r3 Hdist) as [r4 H4].
  eexists. apply (runChecks_compose env tokenAddress r3 r4 H3 H4).
Qed.

Lemma performSecurityChecks_inv (env : Providers) (tokenAddress : string)
  (r : Report) :
  performSecurityChecks env tokenAddress = Returned r ->
  exists r0, runChecks env tokenAddress = Returned r0 /\ r = capRiskScore r0.
Proof.
  unfold performSecurityChecks, bind.
  destruct (runChecks env tokenAddress) as [r0 | e]; [| discriminate].
  intros [= <-]. exists r0. split; reflexivity.
Qed.

Lemma performSecurityChecks_returns (env : Providers) (tokenAddress : string) :
  run_completes env tokenAddress ->
  exists r, performSecurityChecks env tokenAddress = Returned r.
Proof.
  intros H. destruct (runChecks_returns env tokenAddress H) as [r0 Hr0].
  unfold performSecurityChecks. rewrite Hr0. eexists; reflexivity.
Qed.

(** A run ends in an exception exactly when pairs were found after the chain
    reader rejected, or holders were found while the supply is missing or
    zero. *)
Lemma performSecurityChecks_aborts_iff (env : Providers) (tokenAddress : string) :
  (exists e, performSecurityChecks env tokenAddress = Thrown e)
  <-> (getDexPairs env tokenAddress <> []
       /\ exists msg, rpc_getMint env tokenAddress = Rejected msg)
      \/ (getTopHolders env tokenAddress 10 <> []
          /\ totalSupply_of (getTokenMeta env tokenAddress) = 0).
Proof.
  split.
  - intros [e He].
    destruct (getDexPairs env tokenAddress) as [| first pairs] eqn:Hp;
      destruct (rpc_getMint env tokenAddress) as [mi | msg] eqn:Hm;
      try (left; split; [discriminate | exists msg; reflexivity]);
      (destruct (getTopHolders env tokenAddress 10) as [| h hs] eqn:Hh;
       [| destruct (Z.eq_dec (totalSupply_of (getTokenMeta env tokenAddress)) 0)
            as [Hz | Hnz];
          [right; split; [discriminate | exact Hz] |]]);
      exfalso;
      (destruct (performSecurityChecks_returns env tokenAddress) as [r Hr];
       [| rewrite Hr in He; discriminate]);
      (split; [rewrite ?Hp, ?Hm; first [left; reflexivity | right; eexists; reflexivity]
              | rewrite ?Hh; first [left; reflexivity
                                   | right; apply ShareFacts.sum_shares_returns, Hnz]]).
  - intros [[Hpairs [msg Hmsg]] | [Hholders Hzero]].
    + eexists. unfold performSecurityChecks, runChecks. cbv zeta.
      fold (after_adminKeys env tokenAddress).
      destruct (getDexPairs env tokenAddress) as [| first pairs]; [congruence |].
      rewrite checkLpHealth_throws; [reflexivity |].
      rewrite after_adminKeys_populated, Hmsg. reflexivity.
    + destruct (performSecurityChecks env tokenAddress) as [r | e] eqn:Hrun;
        [| exists e; reflexivity].
      exfalso. unfold performSecurityChecks, bind in Hrun.
      destruct (runChecks env tokenAddress) as [r0 | e] eqn:H0; [| discriminate].
      destruct (runChecks_inv _ _ _ H0) as (r3 & r4 & _ & H4 & _).
      destruct (getTopHolders env tokenAddress 10) as [| h hs]; [congruence |].
      unfold checkDistribution in H4. rewrite Hzero in H4.
      rewrite ShareFacts.sum_shares_zero_supply in H4. discriminate.
Qed.

(** The flags and the capped score of a returned report. *)
Lemma performSecurityChecks_flags (env : Providers) (tokenAddress : string)
  (r : Report) :
  performSecurityChecks env tokenAddress = Returned r ->
  flags r = run_flags env tokenAddress
  /\ riskScore r = Z.min (delta_sum (run_flags env tokenAddress)) 100.
Proof.
  intros Hrun. destruct (performSecurityChecks_inv _ _ _ Hrun) as (r0 & H0 & ->).
  destruct (runChecks_appends _ _ _ H0) as [Hf Hs].
  split; cbn; [exact Hf | rewrite Hs; reflexivity].
Qed.

(** The distribution section of a returned report. *)
Lemma performSecurityChecks_distribution (env : Providers)
  (tokenAddress : string) (r : Report) :
  performSecurityChecks env tokenAddress = Returned r ->
  match getTopHolders env tokenAddress 10 with
  | [] => tokenDistribution r = ErrorMarker "Failed to fetch holders"
  | _ :: _ =>
      exists p,
        sum_shares (totalSupply_of (getTokenMeta env tokenAddress))
                   (getTopHolders env tokenAddress 10) = Returned p
        /\ tokenDistribution r
           = Populated {| top10HoldersPercent := p;
                          holderCount :=
                            holderCount_of (getTokenMeta env tokenAddress) |}
  end.
Proof.
  intros Hrun. destruct (performSecurityChecks_inv _ _ _ Hrun) as (r0 & H0 & ->).
  destruct (runChecks_inv _ _ _ H0) as (r3 & r4 & _ & H4 & ->).
  pose proof (checkDistribution_section _ _ _ _ H4) as Hsec.
  destruct (checkTransactions_frame
              (getRecentTransactions env tokenAddress 20) r4) as (_ & Hd & _).
  cbn [tokenDistribution capRiskScore set_riskScore]. rewrite Hd. exact Hsec.
Qed.

(** The authorities section of a returned report is the one step 1 wrote. *)
Lemma performSecurityChecks_authorities (env : Providers)
  (tokenAddress : string) (r : Report) :
  performSecurityChecks env tokenAddress = Returned r ->
  authorities r = authorities (after_adminKeys env tokenAddress).
Proof.
  intros Hrun. destruct (performSecurityChecks_inv _ _ _ Hrun) as (r0 & H0 & ->).
  destruct (runChecks_inv _ _ _ H0) as (r3 & r4 & H3 & H4 & ->).
  destruct (checkTransactions_frame
              (getRecentTransactions env tokenAddress 20) r4) as (_ & _ & Ha).
  destruct (checkDistribution_frame _ _ _ _ H4) as [_ Ha4].
  cbn [authorities capRiskScore set_riskScore].
  rewrite Ha, Ha4. apply (checkLpHealth_authorities _ _ _ H3).
Qed.

(** The two authority flags come from step 1 only. *)
Lemma authority_flags_only_from_step1 (env : Providers) (tokenAddress : string)
  (f : string) :
  f = MINT_ACTIVE \/ f = FREEZE_ACTIVE ->
  In f (run_flags env tokenAddress) ->
  In f (authority_flags (rpc_getMint env tokenAddress)).
Proof.
  intros Hf Hin. unfold run_flags in Hin. rewrite !in_app_iff in Hin.
  destruct Hin as [Hin | [Hin | [Hin | [Hin | Hin]]]]; [exact Hin | | | |];
    exfalso.
  - destruct (getTokenMeta env tokenAddress) as [m |]; cbn in Hin;
      [| contradiction].
    destruct (creator_over_10 (meta_creator m)); cbn in Hin;
      destruct Hf; subst f; intuition discriminate.
  - unfold lp_flags in Hin.
    destruct (getDexPairs env tokenAddress) as [| first pairs];
      [cbn in Hin; destruct Hf; subst f; intuition discriminate |].
    destruct (tiny_liquidity (first :: pairs)),
             (mint_active (rpc_getMint env tokenAddress));
      cbn in Hin; destruct Hf; subst f; intuition discriminate.
  - unfold distribution_flags in Hin.
    destruct (getTopHolders env tokenAddress 10) as [| h hs];
      [contradiction |].
    destruct (sum_shares _ (h :: hs)) as [p | e]; [| contradiction].
    unfold concentration_flags in Hin.
    destruct (num_gt p 50); [| destruct (num_gt p 20)]; cbn in Hin;
      destruct Hf; subst f; intuition discriminate.
  - unfold transaction_flags in Hin.
    destruct (2 <? _); cbn in Hin; destruct Hf; subst f; intuition discriminate.
Qed.

(** The liquidity section of a returned report is populated only if pairs
    were found and the chain reader answered. *)
Lemma performSecurityChecks_lpHealth (env : Providers) (tokenAddress : string)
  (r : Report) :
  performSecurityChecks env tokenAddress = Returned r ->
  is_populated (lpHealth r) = true ->
  getDexPairs env tokenAddress <> []
  /\ exists mintInfo, rpc_getMint env tokenAddress = Resolved mintInfo.
Proof.
  intros Hrun Hpop.
  destruct (performSecurityChecks_inv _ _ _ Hrun) as (r0 & H0 & ->).
  destruct (runChecks_inv _ _ _ H0) as (r3 & r4 & H3 & H4 & ->).
  destruct (checkTransactions_frame
              (getRecentTransactions env tokenAddress 20) r4) as (Hl & _ & _).
  destruct (checkDistribution_frame _ _ _ _ H4) as [Hl4 _].
  cbn [lpHealth capRiskScore set_riskScore] in Hpop.
  rewrite Hl, Hl4 in Hpop.
  destruct (checkLpHealth_section _ _ _ H3 Hpop) as [Hne Hauth].
  split; [exact Hne |].
  rewrite after_adminKeys_populated in Hauth.
  destruct (rpc_getMint env tokenAddress) as [mi | msg];
    [exists mi; reflexivity | discriminate].
Qed.

End SecurityFacts.

(** * The properties of the design document, for [performSecurityChecks] *)
Module SecurityClaims.
Import SecurityChecks SecurityFacts.
Local Open Scope list_scope.

(** C1 (fails on the code).  A single provider failure can abort the run.
    A run ends in an uncaught exception exactly when pairs were found after
    the chain reader rejected, or holders were found while the supply is
    missing or zero.  With the chain reader down and one DEX pair found,
    step 3 reads [includes] of an undefined [mintAuthority] and a TypeError
    escapes; with the metadata reader down and one holder found, step 4
    divides by the default supply [0n] and a RangeError escapes.  No report
    is returned in either run. *)
Theorem single_provider_failure_aborts_run :
  (forall (env : Providers) (tokenAddress : string),
     (exists e, performSecurityChecks env tokenAddress = Thrown e)
     <-> (getDexPairs env tokenAddress <> []
          /\ exists msg, rpc_getMint env tokenAddress = Rejected msg)
         \/ (getTopHolders env tokenAddress 10 <> []
             /\ totalSupply_of (getTokenMeta env tokenAddress) = 0))
  /\ rpc_getMint Samples.chain_down Samples.token
     = Rejected "failed to get info about account"
  /\ performSecurityChecks Samples.chain_down Samples.token
     = Thrown (TypeError "Cannot read properties of undefined (reading 'includes')")
  /\ solscan_meta Samples.meta_down Samples.token
     = Rejected "Request failed with status code 429"
  /\ performSecurityChecks Samples.meta_down Samples.token
     = Thrown (RangeError "Division by zero").
Proof.
  split; [exact performSecurityChecks_aborts_iff |].
  split; [reflexivity |]. split; [vm_compute; reflexivity |].
  split; [reflexivity | vm_compute; reflexivity].
Qed.

(** C2.  The risk score of every returned report lies in [0,100]; it is the
    sum of the deltas of the fired rules capped at 100, so it is exactly 100
    when that sum is at least 100 and exactly 0 when that sum is at most 0. *)
Theorem riskScore_clamped (env : Providers) (tokenAddress : string) (r : Report) :
  performSecurityChecks env tokenAddress = Returned r ->
  0 <= riskScore r <= 100
  /\ riskScore r = Z.min (delta_sum (flags r)) 100
  /\ (100 <= delta_sum (flags r) -> riskScore r = 100)
  /\ (delta_sum (flags r) <= 0 -> riskScore r = 0).
Proof.
  intros Hrun.
  destruct (performSecurityChecks_flags env tokenAddress r Hrun) as [Hf Hs].
  rewrite Hf, Hs.
  pose proof (delta_sum_nonneg (run_flags env tokenAddress)) as Hpos.
  repeat split; lia.
Qed.

Lemma riskScore_clamped_witness :
  exists r,
    performSecurityChecks Samples.everything_fires Samples.token = Returned r
    /\ delta_sum (flags r) = 145
    /\ (0 <= riskScore r <= 100
        /\ riskScore r = Z.min (delta_sum (flags r)) 100
        /\ (100 <= delta_sum (flags r) -> riskScore r = 100)
        /\ (delta_sum (flags r) <= 0 -> riskScore r = 0)).
Proof.
  eexists. split; [vm_compute; reflexivity |]. split; [reflexivity |].
  apply (riskScore_clamped Samples.everything_fires Samples.token).
  vm_compute; reflexivity.
Defined.

(** C3 (fails on the code).  When the chain reader rejects, a returned
    report has the error marker in its authorities section and neither
    authority flag, but its liquidity section is never populated: if the DEX
    reader found a pair the run raises a TypeError before any report exists,
    and if it found none the section is an error marker. *)
Theorem chain_failure_blocks_liquidity (env : Providers) (tokenAddress : string)
  (msg : string) :
  rpc_getMint env tokenAddress = Rejected msg ->
  (forall r, performSecurityChecks env tokenAddress = Returned r ->
             has_error (authorities r) = true
             /\ ~ In MINT_ACTIVE (flags r)
             /\ ~ In FREEZE_ACTIVE (flags r)
             /\ is_populated (lpHealth r) = false)
  /\ (getDexPairs env tokenAddress <> [] ->
      performSecurityChecks env tokenAddress
      = Thrown (TypeError "Cannot read properties of undefined (reading 'includes')")).
Proof.
  intros Hmint. split.
  - intros r Hrun.
    destruct (performSecurityChecks_flags env tokenAddress r Hrun) as [Hf _].
    pose proof (authority_flags_only_from_step1 env tokenAddress) as Honly.
    rewrite Hmint in Honly. cbn [authority_flags] in Honly.
    split; [| split; [| split]].
    + rewrite (performSecurityChecks_authorities env tokenAddress r Hrun).
      rewrite (after_adminKeys_error env tokenAddress msg Hmint). reflexivity.
    + rewrite Hf. intros Hin. apply (Honly _ (or_introl eq_refl) Hin).
    + rewrite Hf. intros Hin. apply (Honly _ (or_intror eq_refl) Hin).
    + destruct (is_populated (lpHealth r)) eqn:Hpop; [| reflexivity].
      destruct (performSecurityChecks_lpHealth env tokenAddress r Hrun Hpop)
        as (_ & mi & Hmi).
      rewrite Hmint in Hmi. discriminate.
  - intros Hpairs. unfold performSecurityChecks, runChecks. cbv zeta.
    fold (after_adminKeys env tokenAddress).
    destruct (getDexPairs env tokenAddress) as [| first pairs]; [congruence |].
    rewrite checkLpHealth_throws; [reflexivity |].
    rewrite after_adminKeys_populated, Hmint. reflexivity.
Qed.

Lemma chain_failure_blocks_liquidity_witness :
  rpc_getMint Samples.chain_down Samples.token
    = Rejected "failed to get info about account"
  /\ getDexPairs Samples.chain_down Samples.token = [Samples.deep_pair]
  /\ performSecurityChecks Samples.chain_down Samples.token
     = Thrown (TypeError "Cannot read properties of undefined (reading 'includes')").
Proof.
  split; [reflexivity |]. split; [reflexivity |].
  apply (chain_failure_blocks_liquidity Samples.chain_down Samples.token
           "failed to get info about account"); [reflexivity | discriminate].
Defined.

(** C4 (fails on the code).  When the DEX-pair reader rejects, its adapter
    returns the empty list, and every returned report carries the flag
    "No liquidity pools detected" with its delta of 30 in the score sum: a
    rule fires on a signal that no provider delivered. *)
Theorem dex_failure_fires_no_liquidity (env : Providers) (tokenAddress : string)
  (msg : string) :
  dexscreener_pairs env tokenAddress = Rejected msg ->
  forall r, performSecurityChecks env tokenAddress = Returned r ->
    In NO_LIQUIDITY (flags r)
    /\ lpHealth r = ErrorMarker "No DEX pairs found"
    /\ riskScore r = Z.min (delta_sum (flags r)) 100
    /\ 30 <= delta_sum (flags r).
Proof.
  intros Hdex r Hrun.
  assert (Hpairs : getDexPairs env tokenAddress = []).
  { unfold getDexPairs. rewrite Hdex. reflexivity. }
  destruct (performSecurityChecks_flags env tokenAddress r Hrun) as [Hf Hs].
  assert (Hin : In NO_LIQUIDITY (flags r)).
  { rewrite Hf. unfold run_flags. rewrite Hpairs.
    rewrite !in_app_iff. right. right. left. left. reflexivity. }
  split; [exact Hin |]. split.
  - destruct (performSecurityChecks_inv _ _ _ Hrun) as (r0 & H0 & ->).
    destruct (runChecks_inv _ _ _ H0) as (r3 & r4 & H3 & H4 & ->).
    destruct (checkTransactions_frame
                (getRecentTransactions env tokenAddress 20) r4) as (Hl & _ & _).
    destruct (checkDistribution_frame _ _ _ _ H4) as [Hl4 _].
    cbn [lpHealth capRiskScore set_riskScore]. rewrite Hl, Hl4.
    rewrite Hpairs in H3. cbn in H3. injection H3 as <-. reflexivity.
  - split; [rewrite Hs, Hf; reflexivity |].
    rewrite Hf. unfold run_flags. rewrite Hpairs, !delta_sum_app.
    pose proof (delta_sum_nonneg (authority_flags (rpc_getMint env tokenAddress))).
    pose proof (delta_sum_nonneg (adminKeys_flags (getTokenMeta env tokenAddress))).
    pose proof (delta_sum_nonneg
                  (distribution_flags (getTokenMeta env tokenAddress)
                     (getTopHolders env tokenAddress 10))).
    pose proof (delta_sum_nonneg
                  (transaction_flags (getRecentTransactions env tokenAddress 20))).
    change (delta_sum (lp_flags (mint_active (rpc_getMint env tokenAddress)) []))
      with 30.
    lia.
Qed.

Lemma dex_failure_fires_no_liquidity_witness :
  exists r,
    performSecurityChecks Samples.dex_down Samples.token = Returned r
    /\ flags r = [NO_LIQUIDITY]
    /\ riskScore r = 30
    /\ (In NO_LIQUIDITY (flags r)
        /\ lpHealth r = ErrorMarker "No DEX pairs found"
        /\ riskScore r = Z.min (delta_sum (flags r)) 100
        /\ 30 <= delta_sum (flags r)).
Proof.
  eexists. split; [vm_compute; reflexivity |].
  split; [reflexivity |]. split; [reflexivity |].
  apply (dex_failure_fires_no_liquidity Samples.dex_down Samples.token
           "Request failed with status code 503"); [reflexivity |].
  vm_compute; reflexivity.
Defined.

Lemma num_gt_20_50 (p : number) : num_gt p 20 = false -> num_gt p 50 = false.
Proof.
  destruct p as [a | | |]; cbn; try (intros; congruence).
  intros H. apply Z.ltb_ge in H. apply Z.ltb_ge. lia.
Qed.

Lemma quiet_distribution (tokenMeta : option TokenMeta) (topHolders : list Holder) :
  (topHolders = []
   \/ exists p, sum_shares (totalSupply_of tokenMeta) topHolders = Returned p
                /\ num_gt p 20 = false) ->
  distribution_flags tokenMeta topHolders = [].
Proof.
  intros [-> | (p & Hp & Hq)]; [reflexivity |].
  unfold distribution_flags. destruct topHolders as [| h hs]; [reflexivity |].
  rewrite Hp. unfold concentration_flags.
  rewrite (num_gt_20_50 p Hq), Hq. reflexivity.
Qed.

Lemma sample_two_authorities_quiet :
  other_rules_quiet Samples.two_authorities Samples.token.
Proof.
  repeat split.
  - exists [Samples.deep_pair]. split; [reflexivity | discriminate].
  - right. exists (Fin 10). split; reflexivity.
  - vm_compute. discriminate.
Qed.

(** C5 (counterexample).  Both authorities active, one pair with $50,000 of
    liquidity, no creator, a 10% holder and one small transfer: no other rule
    of the table has its condition true, yet the report has score 60 and a
    third flag. *)
Lemma two_authority_report_fails :
  ~ two_authority_report Samples.two_authorities Samples.token.
Proof.
  intros Hclaim.
  destruct (Hclaim eq_refl eq_refl sample_two_authorities_quiet)
    as (r & Hrun & Hscore & _).
  vm_compute in Hrun. injection Hrun as <-. discriminate Hscore.
Qed.

(** C5 (as amended).  With both authorities active, at least one DEX pair
    found and no other rule condition of the table true, the run returns a
    report whose score is exactly 60 and whose flags are exactly "Mint
    authority active", "Freeze authority active" and "Potential LP risk due
    to active mint", in that order: the active mint also fires the LP rule of
    step 3. *)
Theorem two_authorities_score_60 (env : Providers) (tokenAddress : string) :
  mint_active (rpc_getMint env tokenAddress) = true ->
  freeze_active (rpc_getMint env tokenAddress) = true ->
  other_rules_quiet env tokenAddress ->
  exists r, performSecurityChecks env tokenAddress = Returned r
            /\ riskScore r = 60
            /\ flags r = [MINT_ACTIVE; FREEZE_ACTIVE; LP_MINT_RISK].
Proof.
  intros Hmint Hfreeze (Hadmin & Htiny & (pairs & Hdex & Hne) & Hdist & Hdumps).
  assert (Hpairs : getDexPairs env tokenAddress = pairs).
  { unfold getDexPairs. rewrite Hdex. reflexivity. }
  assert (Hflags : run_flags env tokenAddress
                   = [MINT_ACTIVE; FREEZE_ACTIVE; LP_MINT_RISK]).
  { unfold run_flags. rewrite Hadmin, (quiet_distribution _ _ Hdist), Hmint.
    unfold transaction_flags.
    destruct (Z.ltb_spec 2 (count_largeDumps
                              (getRecentTransactions env tokenAddress 20)));
      [lia |].
    unfold lp_flags. rewrite Htiny, Hpairs.
    destruct pairs as [| first rest]; [congruence |].
    unfold mint_active, freeze_active in Hmint, Hfreeze.
    destruct (rpc_getMint env tokenAddress) as [mi | msg]; [| discriminate].
    cbn. rewrite Hmint, Hfreeze. reflexivity. }
  destruct (performSecurityChecks_returns env tokenAddress) as [r Hrun].
  { split.
    - right. unfold mint_active in Hmint.
      destruct (rpc_getMint env tokenAddress) as [mi | msg];
        [exists mi; reflexivity | discriminate].
    - destruct Hdist as [Hnil | (p & Hp & _)];
        [left; exact Hnil | right; exists p; exact Hp]. }
  exists r. split; [exact Hrun |].
  destruct (performSecurityChecks_flags env tokenAddress r Hrun) as [Hf Hs].
  rewrite Hflags in Hf, Hs. split; [rewrite Hs; reflexivity | exact Hf].
Qed.

Lemma two_authorities_score_60_witness :
  exists r,
    performSecurityChecks Samples.two_authorities Samples.token = Returned r
    /\ riskScore r = 60
    /\ flags r = [MINT_ACTIVE; FREEZE_ACTIVE; LP_MINT_RISK].
Proof.
  apply (two_authorities_score_60 Samples.two_authorities Samples.token);
    [reflexivity | reflexivity |].
  repeat split.
  - exists [Samples.deep_pair]. split; [reflexivity | discriminate].
  - right. exists (Fin 10). split; reflexivity.
  - vm_compute. discriminate.
Defined.

(** C6.  With the holder list [{amount: 600}, {amount: 400}] and a total
    supply of 1000, step 4 reports [top10HoldersPercent = 100], appends the
    flag "High concentration (>50% in top 10)" and adds 25 to the score; a
    run returns whenever step 3 does not raise, and every returned report
    shows that section and that flag, and never the moderate one. *)
Theorem two_holder_example (env : Providers) (tokenAddress : string)
  (m : TokenMeta) (h1 h2 : Holder) :
  getTokenMeta env tokenAddress = Some m ->
  meta_supply m = Some 1000 ->
  getTopHolders env tokenAddress 10 = [h1; h2] ->
  holder_amount h1 = 600 ->
  holder_amount h2 = 400 ->
  (forall r0,
     checkDistribution (Some m) [h1; h2] r0
     = Returned (raise_flag HIGH_CONCENTRATION 25
                   (set_tokenDistribution
                      (Populated {| top10HoldersPercent := Fin 100;
                                    holderCount := holderCount_of (Some m) |})
                      r0)))
  /\ rule_delta HIGH_CONCENTRATION = 25
  /\ (forall r, performSecurityChecks env tokenAddress = Returned r ->
        tokenDistribution r
        = Populated {| top10HoldersPercent := Fin 100;
                       holderCount := holderCount_of (Some m) |}
        /\ In HIGH_CONCENTRATION (flags r)
        /\ ~ In MODERATE_CONCENTRATION (flags r)
        /\ riskScore r = Z.min (delta_sum (flags r)) 100)
  /\ ((getDexPairs env tokenAddress = []
       \/ exists mintInfo, rpc_getMint env tokenAddress = Resolved mintInfo) ->
      exists r, performSecurityChecks env tokenAddress = Returned r).
Proof.
  intros Hmeta Hsupply Hholders H600 H400.
  assert (Hsum : sum_shares (totalSupply_of (Some m)) [h1; h2] = Returned (Fin 100)).
  { unfold totalSupply_of. rewrite Hsupply.
    unfold sum_shares, add_share. cbn [fold_left bind].
    rewrite H600, H400. reflexivity. }
  split; [| split; [reflexivity | split]].
  - intros r0. unfold checkDistribution. rewrite Hsum. reflexivity.
  - intros r Hrun.
    pose proof (performSecurityChecks_distribution env tokenAddress r Hrun) as Hd.
    destruct (performSecurityChecks_flags env tokenAddress r Hrun) as [Hf Hs].
    rewrite Hholders, Hmeta in Hd. destruct Hd as (p & Hp & Hd).
    rewrite Hsum in Hp. injection Hp as <-.
    split; [exact Hd |].
    assert (Hdf : distribution_flags (getTokenMeta env tokenAddress)
                    (getTopHolders env tokenAddress 10) = [HIGH_CONCENTRATION]).
    { rewrite Hholders, Hmeta. unfold distribution_flags. rewrite Hsum.
      reflexivity. }
    split; [| split].
    + rewrite Hf. unfold run_flags. rewrite Hdf, !in_app_iff.
      right. right. right. left. left. reflexivity.
    + rewrite Hf. unfold run_flags. rewrite Hdf, !in_app_iff.
      intros [Hin | [Hin | [Hin | [Hin | Hin]]]].
      * destruct (rpc_getMint env tokenAddress) as [mi |]; cbn in Hin;
          [| contradiction].
        destruct (present (mint_mintAuthority mi)),
                 (present (mint_freezeAuthority mi)); cbn in Hin;
          intuition discriminate.
      * rewrite Hmeta in Hin. cbn in Hin.
        destruct (creator_over_10 (meta_creator m)); cbn in Hin;
          intuition discriminate.
      * unfold lp_flags in Hin.
        destruct (getDexPairs env tokenAddress);
          [cbn in Hin; intuition discriminate |].
        destruct (tiny_liquidity (p :: l)),
                 (mint_active (rpc_getMint env tokenAddress)); cbn in Hin;
          intuition discriminate.
      * cbn in Hin. intuition discriminate.
      * unfold transaction_flags in Hin.
        destruct (2 <? _); cbn in Hin; intuition discriminate.
    + rewrite Hs, Hf. reflexivity.
  - intros Hlp. apply performSecurityChecks_returns. split; [exact Hlp |].
    right. exists (Fin 100). rewrite Hholders, Hmeta. exact Hsum.
Qed.

Lemma two_holder_example_witness :
  exists r,
    performSecurityChecks Samples.two_holders Samples.token = Returned r
    /\ tokenDistribution r
       = Populated {| top10HoldersPercent := Fin 100; holderCount := Some 2 |}
    /\ In HIGH_CONCENTRATION (flags r)
    /\ ~ In MODERATE_CONCENTRATION (flags r)
    /\ riskScore r = Z.min (delta_sum (flags r)) 100.
Proof.
  eexists. split; [vm_compute; reflexivity |].
  apply (two_holder_example Samples.two_holders Samples.token Samples.meta_plain
           Samples.holder_600 Samples.holder_400
           eq_refl eq_refl eq_refl eq_refl eq_refl).
  vm_compute; reflexivity.
Defined.

(** C8 (fails on the code).  When the metadata carries no supply (or the
    metadata call failed) and holders were found, step 4 takes 0 as total
    supply and divides by it: no report is returned, hence no section error
    marker; the run ends in the RangeError unless step 3 raised first. *)
Theorem missing_supply_aborts_run (env : Providers) (tokenAddress : string) :
  match getTokenMeta env tokenAddress with
  | Some m => meta_supply m = None
  | None => True
  end ->
  getTopHolders env tokenAddress 10 <> [] ->
  (forall r, performSecurityChecks env tokenAddress <> Returned r)
  /\ ((getDexPairs env tokenAddress = []
       \/ exists mintInfo, rpc_getMint env tokenAddress = Resolved mintInfo) ->
      performSecurityChecks env tokenAddress
      = Thrown (RangeError "Division by zero")).
Proof.
  intros Hmissing Hholders.
  assert (Hzero : totalSupply_of (getTokenMeta env tokenAddress) = 0).
  { unfold totalSupply_of.
    destruct (getTokenMeta env tokenAddress) as [m |]; [| reflexivity].
    rewrite Hmissing. reflexivity. }
  destruct (getTopHolders env tokenAddress 10) as [| h hs] eqn:Hh; [congruence |].
  split.
  - intros r Hrun.
    pose proof (performSecurityChecks_distribution env tokenAddress r Hrun) as Hd.
    rewrite Hh, Hzero in Hd. destruct Hd as (p & Hp & _).
    rewrite ShareFacts.sum_shares_zero_supply in Hp. discriminate.
  - intros Hlp.
    destruct (checkLpHealth_returns (getDexPairs env tokenAddress)
                (after_adminKeys env tokenAddress)) as [r3 H3].
    { destruct Hlp as [Hnil | [mi Hmi]]; [left; exact Hnil | right].
      rewrite after_adminKeys_populated, Hmi. reflexivity. }
    unfold performSecurityChecks, runChecks. cbv zeta.
    fold (after_adminKeys env tokenAddress). rewrite H3. cbn [bind].
    rewrite Hh. unfold checkDistribution. rewrite Hzero.
    rewrite ShareFacts.sum_shares_zero_supply. reflexivity.
Qed.

Lemma missing_supply_aborts_run_witness :
  meta_supply Samples.meta_without_supply = None
  /\ performSecurityChecks Samples.supply_missing Samples.token
     = Thrown (RangeError "Division by zero").
Proof.
  split; [reflexivity |].
  apply (missing_supply_aborts_run Samples.supply_missing Samples.token);
    [reflexivity | discriminate |].
  right. exists Samples.mint_renounced. reflexivity.
Defined.

End SecurityClaims.

(** ** The tokenomics analysis, step by step *)
Module TokenomicsFacts.
Import Tokenomics.
Local Open Scope list_scope.

Section WithFloats.

Variable F : Float64.

Ltac distinct_text :=
  unfold other_indicator, HIGH_WHALE, MODERATE_CONCENTRATION;
  split; discriminate.

Ltac case_split :=
  repeat match goal with
         | |- context [if ?c then _ else _] => destruct c; cbn
         end.

Lemma bystander_refl (r : Report F) : bystander r r.
Proof. split; [reflexivity |]. exists []. split; [symmetry; apply app_nil_r | constructor]. Qed.

Lemma bystander_trans (r1 r2 r3 : Report F) :
  bystander r1 r2 -> bystander r2 r3 -> bystander r1 r3.
Proof.
  intros [Hd1 (e1 & Hi1 & Ho1)] [Hd2 (e2 & Hi2 & Ho2)]. split; [congruence |].
  exists (e1 ++ e2). split.
  - rewrite Hi2, Hi1. symmetry. apply app_assoc.
  - apply Forall_app. split; assumption.
Qed.

Lemma bystander_push (text : string) (r : Report F) :
  other_indicator text -> bystander r (push_indicator F text r).
Proof.
  intros Ho. split; [reflexivity |]. exists [text].
  split; [reflexivity | constructor; [exact Ho | constructor]].
Qed.

Lemma bystander_silent (r r' : Report F) :
  distribution r' = distribution r ->
  riskIndicators r' = riskIndicators r ->
  bystander r r'.
Proof.
  intros Hd Hi. split; [exact Hd |]. exists [].
  split; [rewrite Hi; symmetry; apply app_nil_r | constructor].
Qed.

Lemma bystander_when (c : bool) (text : string) (r : Report F) :
  other_indicator text -> bystander r (when F c (push_indicator F text) r).
Proof.
  intros Ho. destruct c; [apply bystander_push, Ho | apply bystander_refl].
Qed.

Lemma checkBasicInfo_bystander (mint : fetch MintInfo) (r : Report F) :
  bystander r (checkBasicInfo F mint r).
Proof.
  destruct mint as [mi | msg]; unfold checkBasicInfo.
  - eapply bystander_trans; [| apply bystander_when; distinct_text].
    eapply bystander_trans; [| apply bystander_when; distinct_text].
    apply bystander_silent; reflexivity.
  - apply bystander_silent; reflexivity.
Qed.

Lemma checkSupplyMetrics_bystander (tokenMeta : option TokenMeta) (r : Report F) :
  bystander r (checkSupplyMetrics F tokenMeta r).
Proof. destruct tokenMeta; apply bystander_silent; reflexivity. Qed.

Lemma enrichWithBirdeye_bystander (env : Providers) (a k : string) (r : Report F) :
  bystander r (enrichWithBirdeye F env a k r).
Proof.
  unfold enrichWithBirdeye.
  destruct (String.eqb k ""); [apply bystander_silent; reflexivity |].
  destruct (getBirdeyeOverview env a k) as [o |]; [| apply bystander_refl].
  eapply bystander_trans; [| apply bystander_silent; reflexivity].
  eapply bystander_trans; [| apply bystander_when; distinct_text].
  unfold set_lpLocked. destruct (lpAnalysis r); apply bystander_silent; reflexivity.
Qed.

Lemma checkLpAnalysis_bystander (env : Providers) (a k : string)
  (pairs : list Pair) (r : Report F) :
  bystander r (checkLpAnalysis F env a k pairs r).
Proof.
  destruct pairs as [| first pairs]; unfold checkLpAnalysis.
  - eapply bystander_trans; [| apply bystander_push; distinct_text].
    apply bystander_silent; reflexivity.
  - cbv zeta. eapply bystander_trans; [| apply enrichWithBirdeye_bystander].
    eapply bystander_trans; [| apply bystander_when; distinct_text].
    apply bystander_silent; reflexivity.
Qed.

Lemma checkBurnAndMint_bystander (recentTx : list Tx) (r r' : Report F) :
  checkBurnAndMint F recentTx r = Returned r' -> bystander r r'.
Proof.
  destruct recentTx as [| tx txs]; unfold checkBurnAndMint.
  - intros [= <-]. apply bystander_silent; reflexivity.
  - cbv zeta. unfold bind.
    match goal with
    | |- match ?m with _ => _ end = _ -> _ => destruct m as [unexpected | e]
    end; [| discriminate].
    intros [= <-].
    eapply bystander_trans;
      [| unfold when at 1; destruct (0 <? _);
         apply bystander_silent; reflexivity].
    eapply bystander_trans; [| apply bystander_when; distinct_text].
    apply bystander_silent; reflexivity.
Qed.

Lemma classify_bystander (tokenMeta : option TokenMeta) (r : Report F) :
  bystander r (classify F tokenMeta r).
Proof.
  unfold classify. destruct (looks_like_memecoin tokenMeta);
    apply bystander_silent; reflexivity.
Qed.

Lemma summarise_bystander (r : Report F) : bystander r (summarise F r).
Proof. apply bystander_silent; reflexivity. Qed.

Lemma estimateCirculating_bystander (wallets : list string)
  (topHolders : list Holder) (S : Z) (r r' : Report F) :
  estimateCirculating F wallets topHolders S r = Returned r' -> bystander r r'.
Proof.
  destruct wallets as [| w ws]; unfold estimateCirculating.
  - intros [= <-]. apply bystander_silent; reflexivity.
  - cbv zeta. unfold bind.
    destruct (BigInt_of_float F _) as [u | e]; [| discriminate].
    destruct (bigint_div _ u) as [q | e]; [| discriminate].
    intros [= <-]. apply bystander_silent; reflexivity.
Qed.

(** What step 3 leaves in a report it returns. *)
Lemma checkDistribution_inv (tokenMeta : option TokenMeta)
  (topHolders : list Holder) (wallets : list string) (r r' : Report F) :
  checkDistribution F tokenMeta topHolders wallets r = Returned r' ->
  match topHolders with
  | [] => distribution r' = ErrorMarker "Failed to fetch holders"
          /\ riskIndicators r' = riskIndicators r
  | _ :: _ =>
      exists totalSupply p,
        totalSupply_of F tokenMeta r = Returned totalSupply
        /\ sum_shares totalSupply (firstn 10 topHolders) = Returned p
        /\ distribution r'
           = Populated {| top10HoldersPercent := p;
                          distribution_holderCount :=
                            supplyMetrics_holderCount F r |}
        /\ exists extra,
             riskIndicators r'
             = riskIndicators r ++ concentration_flags p ++ extra
             /\ Forall other_indicator extra
  end.
Proof.
  destruct topHolders as [| h hs]; unfold checkDistribution.
  - intros [= <-]. split; reflexivity.
  - unfold bind.
    destruct (totalSupply_of F tokenMeta r) as [S | e]; [| discriminate].
    destruct (sum_shares S (firstn 10 (h :: hs))) as [p | e] eqn:Hp;
      [| discriminate].
    intros Hest. apply estimateCirculating_bystander in Hest.
    destruct Hest as [Hd (extra & Hi & Ho)].
    exists S, p. split; [reflexivity |]. split; [exact Hp |].
    split.
    + rewrite Hd. unfold concentration_rules.
      destruct (num_gt p 50); [| destruct (num_gt p 20)]; reflexivity.
    + exists extra. split; [| exact Ho]. rewrite Hi.
      unfold concentration_rules, concentration_flags.
      destruct (num_gt p 50); [| destruct (num_gt p 20)]; cbn;
        rewrite <- ?app_assoc; reflexivity.
Qed.

Lemma performTokenomicsAnalysis_inv (env : Providers) (a : string)
  (wallets : list string) (k : string) (r : Report F) :
  performTokenomicsAnalysis F env a wallets k = Returned r ->
  exists r3,
    checkDistribution F (getTokenMeta env a) (getTopHolders env a 50) wallets
      (after_supplyMetrics F env a) = Returned r3
    /\ bystander r3 r.
Proof.
  unfold performTokenomicsAnalysis. cbv zeta.
  fold (after_supplyMetrics F env a). unfold bind.
  destruct (checkDistribution F _ _ wallets _) as [r3 | e] eqn:H3;
    [| discriminate].
  destruct (checkBurnAndMint F _ _) as [r5 | e] eqn:H5; [| discriminate].
  intros [= <-]. exists r3. split; [reflexivity |].
  eapply bystander_trans; [apply checkLpAnalysis_bystander |].
  eapply bystander_trans; [apply (checkBurnAndMint_bystander _ _ _ H5) |].
  eapply bystander_trans; [apply classify_bystander | apply summarise_bystander].
Qed.

Lemma after_supplyMetrics_bystander (env : Providers) (a : string) :
  bystander (initial_report F) (after_supplyMetrics F env a).
Proof.
  unfold after_supplyMetrics.
  eapply bystander_trans;
    [apply checkBasicInfo_bystander | apply checkSupplyMetrics_bystander].
Qed.

(** The distribution section and the indicators of a returned report. *)
Lemma performTokenomicsAnalysis_concentration (env : Providers) (a : string)
  (wallets : list string) (k : string) (r : Report F) :
  performTokenomicsAnalysis F env a wallets k = Returned r ->
  exists before after,
    Forall other_indicator before /\ Forall other_indicator after
    /\ match getTopHolders env a 50 with
       | [] => riskIndicators r = before ++ after
               /\ is_populated (distribution r) = false
       | _ :: _ =>
           exists totalSupply p,
             totalSupply_of F (getTokenMeta env a) (after_supplyMetrics F env a)
             = Returned totalSupply
             /\ sum_shares totalSupply (firstn 10 (getTopHolders env a 50))
                = Returned p
             /\ distribution r
                = Populated {| top10HoldersPercent := p;
                               distribution_holderCount :=
                                 supplyMetrics_holderCount F
                                   (after_supplyMetrics F env a) |}
             /\ riskIndicators r = before ++ concentration_flags p ++ after
       end.
Proof.
  intros Hrun.
  destruct (performTokenomicsAnalysis_inv env a wallets k r Hrun)
    as (r3 & H3 & [Hd (post & Hi & Hpost)]).
  destruct (after_supplyMetrics_bystander env a) as [Hd0 (pre & Hi0 & Hpre)].
  cbn [riskIndicators initial_report app] in Hi0.
  apply checkDistribution_inv in H3.
  destruct (getTopHolders env a 50) as [| h hs].
  - destruct H3 as [Hd3 Hi3].
    exists pre, post. split; [exact Hpre |]. split; [exact Hpost |]. split.
    + rewrite Hi, Hi3, Hi0. reflexivity.
    + rewrite Hd, Hd3. reflexivity.
  - destruct H3 as (S & p & HS & Hp & Hd3 & mid & Hi3 & Hmid).
    exists pre, (mid ++ post). split; [exact Hpre |].
    split; [apply Forall_app; split; assumption |].
    exists S, p. split; [exact HS |]. split; [exact Hp |]. split.
    + rewrite Hd. exact Hd3.
    + rewrite Hi, Hi3, Hi0. rewrite <- !app_assoc. reflexivity.
Qed.

End WithFloats.

End TokenomicsFacts.

(** * The properties that span both analyses *)
Module EngineClaims.
Import SecurityFacts TokenomicsFacts ShareFacts.
Local Open Scope list_scope.

Lemma security_concentration_only_from_step4 (env : SecurityChecks.Providers)
  (a : string) (f : string) :
  f = SecurityChecks.HIGH_CONCENTRATION
  \/ f = SecurityChecks.MODERATE_CONCENTRATION ->
  In f (SecurityChecks.run_flags env a) ->
  In f (SecurityChecks.distribution_flags (SecurityChecks.getTokenMeta env a)
          (SecurityChecks.getTopHolders env a 10)).
Proof.
  intros Hf Hin. unfold SecurityChecks.run_flags in Hin.
  rewrite !in_app_iff in Hin.
  destruct Hin as [Hin | [Hin | [Hin | [Hin | Hin]]]]; [| | | exact Hin |];
    exfalso.
  - destruct (SecurityChecks.rpc_getMint env a) as [mi |]; cbn in Hin;
      [| contradiction].
    destruct (SecurityChecks.present (mint_mintAuthority mi)),
             (SecurityChecks.present (mint_freezeAuthority mi)); cbn in Hin;
      destruct Hf; subst f; intuition discriminate.
  - destruct (SecurityChecks.getTokenMeta env a) as [m |]; cbn in Hin;
      [| contradiction].
    destruct (SecurityChecks.creator_over_10 (meta_creator m)); cbn in Hin;
      destruct Hf; subst f; intuition discriminate.
  - unfold SecurityChecks.lp_flags in Hin.
    destruct (SecurityChecks.getDexPairs env a) as [| first pairs];
      [cbn in Hin; destruct Hf; subst f; intuition discriminate |].
    destruct (SecurityChecks.tiny_liquidity (first :: pairs)),
             (SecurityChecks.mint_active (SecurityChecks.rpc_getMint env a));
      cbn in Hin; destruct Hf; subst f; intuition discriminate.
  - unfold SecurityChecks.transaction_flags in Hin.
    destruct (2 <? _); cbn in Hin; destruct Hf; subst f; intuition discriminate.
Qed.

Lemma security_concentration_flags_cases (p : number) :
  (In SecurityChecks.HIGH_CONCENTRATION (SecurityChecks.concentration_flags p)
   <-> num_gt p 50 = true)
  /\ (In SecurityChecks.MODERATE_CONCENTRATION
        (SecurityChecks.concentration_flags p)
      -> num_gt p 50 = false).
Proof.
  unfold SecurityChecks.concentration_flags.
  destruct (num_gt p 50); [| destruct (num_gt p 20)]; cbn; split;
    intuition discriminate.
Qed.

Lemma tokenomics_concentration_flags_cases (p : number) :
  (In Tokenomics.HIGH_WHALE (Tokenomics.concentration_flags p)
   <-> num_gt p 50 = true)
  /\ (In Tokenomics.MODERATE_CONCENTRATION (Tokenomics.concentration_flags p)
      -> num_gt p 50 = false).
Proof.
  unfold Tokenomics.concentration_flags.
  destruct (num_gt p 50); [| destruct (num_gt p 20)]; cbn; split;
    intuition discriminate.
Qed.

Lemma in_between_others (f : string) (before mid after : list string) :
  ~ Tokenomics.other_indicator f ->
  Forall Tokenomics.other_indicator before ->
  Forall Tokenomics.other_indicator after ->
  In f (before ++ mid ++ after) <-> In f mid.
Proof.
  intros Hf Hb Ha. rewrite !in_app_iff. rewrite Forall_forall in Hb, Ha.
  split; [| tauto].
  intros [Hin | [Hin | Hin]]; [exfalso; apply Hf, Hb, Hin | exact Hin |
                                exfalso; apply Hf, Ha, Hin].
Qed.

(** C7 (counterexample).  Ten holders of 59 units each own 59% of a supply
    of 1000, but each contributes [floor 5.9 = 5] to the reported
    percentage: the report shows 50 and carries the moderate flag, not the
    high one. *)
Lemma share_above_50_flagged_moderate :
  ~ SecurityRules.high_share_fires_high_only MoreSamples.ten_of_59 Samples.token.
Proof.
  intros Hclaim.
  destruct (SecurityChecks.performSecurityChecks MoreSamples.ten_of_59
              Samples.token) as [r | e] eqn:Hrun;
    [| vm_compute in Hrun; discriminate Hrun].
  destruct (Hclaim r Hrun) as [Hhigh _]; [vm_compute; reflexivity |].
  vm_compute in Hrun. injection Hrun as <-.
  cbn in Hhigh. intuition discriminate.
Qed.

(** C7 (as amended).  No returned report carries both concentration flags,
    and when the reported top-10 percentage exceeds 50 the high-severity
    flag is there and the moderate one is not; the same holds for the two
    concentration indicators of the tokenomics report. *)
Theorem concentration_flags_exclusive :
  (forall (env : SecurityChecks.Providers) (tokenAddress : string)
          (r : SecurityChecks.Report),
     SecurityChecks.performSecurityChecks env tokenAddress = Returned r ->
     ~ (In SecurityChecks.HIGH_CONCENTRATION (SecurityChecks.flags r)
        /\ In SecurityChecks.MODERATE_CONCENTRATION (SecurityChecks.flags r))
     /\ (forall d,
           SecurityChecks.tokenDistribution r = Populated d ->
           num_gt (SecurityChecks.top10HoldersPercent d) 50 = true ->
           In SecurityChecks.HIGH_CONCENTRATION (SecurityChecks.flags r)
           /\ ~ In SecurityChecks.MODERATE_CONCENTRATION (SecurityChecks.flags r)))
  /\ (forall (F : Tokenomics.Float64) (env : Tokenomics.Providers)
             (tokenAddress : string) (knownVestingWallets : list string)
             (birdeyeApiKey : string) (r : Tokenomics.Report F),
        Tokenomics.performTokenomicsAnalysis F env tokenAddress
          knownVestingWallets birdeyeApiKey = Returned r ->
        ~ (In Tokenomics.HIGH_WHALE (Tokenomics.riskIndicators r)
           /\ In Tokenomics.MODERATE_CONCENTRATION (Tokenomics.riskIndicators r))
        /\ (forall d,
              Tokenomics.distribution r = Populated d ->
              num_gt (Tokenomics.top10HoldersPercent d) 50 = true ->
              In Tokenomics.HIGH_WHALE (Tokenomics.riskIndicators r)
              /\ ~ In Tokenomics.MODERATE_CONCENTRATION
                     (Tokenomics.riskIndicators r))).
Proof.
  split.
  - intros env a r Hrun.
    destruct (performSecurityChecks_flags env a r Hrun) as [Hf _].
    pose proof (performSecurityChecks_distribution env a r Hrun) as Hd.
    pose proof (security_concentration_only_from_step4 env a) as Honly.
    rewrite Hf. unfold SecurityChecks.distribution_flags in Honly.
    destruct (SecurityChecks.getTopHolders env a 10) as [| h hs] eqn:Hh;
      rewrite ?Hh in Hd, Honly.
    + split.
      * intros [Hhigh _]. apply (Honly _ (or_introl eq_refl)) in Hhigh.
        exact Hhigh.
      * intros d Hpop. rewrite Hd in Hpop. discriminate.
    + destruct Hd as (p & Hp & Hd). rewrite Hp in Honly.
      destruct (security_concentration_flags_cases p) as [Hhigh Hmod].
      split.
      * intros [H1 H2]. apply (Honly _ (or_introl eq_refl)), Hhigh in H1.
        apply (Honly _ (or_intror eq_refl)), Hmod in H2. congruence.
      * intros d Hpop Hgt. rewrite Hd in Hpop. injection Hpop as <-.
        cbn in Hgt. split.
        -- unfold SecurityChecks.run_flags. rewrite Hh.
           unfold SecurityChecks.distribution_flags. rewrite Hp.
           rewrite !in_app_iff. right. right. right. left.
           apply Hhigh, Hgt.
        -- intros H2. apply (Honly _ (or_intror eq_refl)), Hmod in H2.
           congruence.
  - intros F env a wallets k r Hrun.
    destruct (performTokenomicsAnalysis_concentration F env a wallets k r Hrun)
      as (before & after & Hb & Ha & Hcase).
    assert (Hhw : ~ Tokenomics.other_indicator Tokenomics.HIGH_WHALE)
      by (intros [H _]; apply H; reflexivity).
    assert (Hmc : ~ Tokenomics.other_indicator Tokenomics.MODERATE_CONCENTRATION)
      by (intros [_ H]; apply H; reflexivity).
    destruct (Tokenomics.getTopHolders env a 50) as [| h hs] eqn:Hh;
      rewrite ?Hh in Hcase.
    + destruct Hcase as [Hi Hnone]. split.
      * intros [H1 _]. rewrite Hi in H1.
        change (before ++ after) with (before ++ [] ++ after) in H1.
        apply (proj1 (in_between_others _ before [] after Hhw Hb Ha)) in H1.
        exact H1.
      * intros d Hpop. rewrite Hpop in Hnone. discriminate.
    + destruct Hcase as (S & p & _ & _ & Hd & Hi).
      destruct (tokenomics_concentration_flags_cases p) as [Hhigh Hmod].
      rewrite Hi. split.
      * intros [H1 H2].
        apply (proj1 (in_between_others _ _ _ _ Hhw Hb Ha)), Hhigh in H1.
        apply (proj1 (in_between_others _ _ _ _ Hmc Hb Ha)), Hmod in H2.
        congruence.
      * intros d Hpop Hgt. rewrite Hd in Hpop. injection Hpop as <-.
        cbn in Hgt. split.
        -- apply (proj2 (in_between_others _ _ _ _ Hhw Hb Ha)), Hhigh, Hgt.
        -- intros H2.
           apply (proj1 (in_between_others _ _ _ _ Hmc Hb Ha)), Hmod in H2.
           congruence.
Qed.

Lemma concentration_flags_exclusive_witness :
  (exists r,
      SecurityChecks.performSecurityChecks Samples.everything_fires Samples.token
      = Returned r
      /\ In SecurityChecks.HIGH_CONCENTRATION (SecurityChecks.flags r)
      /\ ~ (In SecurityChecks.HIGH_CONCENTRATION (SecurityChecks.flags r)
            /\ In SecurityChecks.MODERATE_CONCENTRATION (SecurityChecks.flags r)))
  /\ (exists r,
        Tokenomics.performTokenomicsAnalysis Samples.exact Samples.whale_token
          Samples.token [] "" = Returned r
        /\ In Tokenomics.HIGH_WHALE (Tokenomics.riskIndicators r)
        /\ ~ (In Tokenomics.HIGH_WHALE (Tokenomics.riskIndicators r)
              /\ In Tokenomics.MODERATE_CONCENTRATION
                   (Tokenomics.riskIndicators r))).
Proof.
  destruct concentration_flags_exclusive as [Hsec Htok]. split.
  - eexists. split; [vm_compute; reflexivity |]. split.
    + cbn. do 5 right. left. reflexivity.
    + apply (Hsec Samples.everything_fires Samples.token).
      vm_compute; reflexivity.
  - eexists. split; [vm_compute; reflexivity |]. split.
    + cbn. left. reflexivity.
    + apply (Htok Samples.exact Samples.whale_token Samples.token [] "").
      vm_compute; reflexivity.
Defined.

Lemma contribution_below_one_percent (S : Z) (h : Holder) :
  0 <= holder_amount h -> holder_amount h * 100 < S ->
  (q <- bigint_div (holder_amount h * 100) S ;; Returned (Number_of_BigInt q))
  = Returned (Fin 0)
  /\ floor_share S h = 0.
Proof.
  intros Hpos Hlt. unfold bigint_div, floor_share.
  destruct (Z.eqb_spec S 0) as [-> | _]; [lia |]. cbn [bind].
  rewrite Z.quot_small, Z.div_small by lia. split; reflexivity.
Qed.

Lemma floor_below_exact (S : Z) (hs : list Holder) :
  0 < S -> (inject_Z (floor_shares S hs) <= exact_share_percent S hs)%Q.
Proof.
  intros HS. unfold exact_share_percent.
  apply Qle_shift_div_l.
  - change 0%Q with (inject_Z 0). rewrite <- Zlt_Qlt. exact HS.
  - rewrite <- inject_Z_mult, <- Zle_Qle. apply floor_shares_below, HS.
Qed.

(** C10.  On balances that are not negative, with a positive supply, the
    top-10 percentage is the sum of the whole-percent floors
    [floor (amount * 100 / totalSupply)] of the holders: a holder below 1% of
    the supply contributes exactly 0, and the reported percentage never
    exceeds the exact share.  That is the number both reports show. *)
Theorem top10_percent_sums_floors :
  (forall (totalSupply : Z) (holders : list Holder),
     well_formed_balances totalSupply holders ->
     sum_shares totalSupply holders
     = Returned (Fin (floor_shares totalSupply holders))
     /\ (forall h, In h holders ->
           holder_amount h * 100 < totalSupply ->
           (q <- bigint_div (holder_amount h * 100) totalSupply ;;
            Returned (Number_of_BigInt q)) = Returned (Fin 0)
           /\ floor_share totalSupply h = 0)
     /\ (inject_Z (floor_shares totalSupply holders)
         <= exact_share_percent totalSupply holders)%Q)
  /\ (forall (env : SecurityChecks.Providers) (tokenAddress : string)
             (r : SecurityChecks.Report) (d : SecurityChecks.TokenDistribution),
        SecurityChecks.performSecurityChecks env tokenAddress = Returned r ->
        SecurityChecks.tokenDistribution r = Populated d ->
        well_formed_balances
          (SecurityChecks.totalSupply_of
             (SecurityChecks.getTokenMeta env tokenAddress))
          (SecurityChecks.getTopHolders env tokenAddress 10) ->
        SecurityChecks.top10HoldersPercent d
        = Fin (floor_shares
                 (SecurityChecks.totalSupply_of
                    (SecurityChecks.getTokenMeta env tokenAddress))
                 (SecurityChecks.getTopHolders env tokenAddress 10)))
  /\ (forall (F : Tokenomics.Float64) (env : Tokenomics.Providers)
             (tokenAddress : string) (knownVestingWallets : list string)
             (birdeyeApiKey : string) (r : Tokenomics.Report F)
             (d : Tokenomics.Distribution) (m : TokenMeta) (totalSupply : Z),
        Tokenomics.performTokenomicsAnalysis F env tokenAddress
          knownVestingWallets birdeyeApiKey = Returned r ->
        Tokenomics.distribution r = Populated d ->
        Tokenomics.getTokenMeta env tokenAddress = Some m ->
        meta_supply m = Some totalSupply ->
        well_formed_balances totalSupply
          (Tokenomics.getTopHolders env tokenAddress 50) ->
        Tokenomics.top10HoldersPercent d
        = Fin (floor_shares totalSupply
                 (firstn 10 (Tokenomics.getTopHolders env tokenAddress 50)))).
Proof.
  split; [| split].
  - intros S hs Hwf. split; [apply sum_shares_exact, Hwf |].
    destruct Hwf as (HS & Hall & _). split.
    + intros h Hin Hlt. apply contribution_below_one_percent; [| exact Hlt].
      rewrite Forall_forall in Hall. apply Hall, Hin.
    + apply floor_below_exact, HS.
  - intros env a r d Hrun Hpop Hwf.
    pose proof (performSecurityChecks_distribution env a r Hrun) as Hd.
    destruct (SecurityChecks.getTopHolders env a 10) as [| h hs] eqn:Hh.
    + rewrite Hd in Hpop. discriminate.
    + destruct Hd as (p & Hp & Hd). rewrite Hd in Hpop. injection Hpop as <-.
      rewrite (sum_shares_exact _ _ Hwf) in Hp. injection Hp as <-. reflexivity.
  - intros F env a wallets k r d m S Hrun Hpop Hmeta Hsupply Hwf.
    destruct (performTokenomicsAnalysis_concentration F env a wallets k r Hrun)
      as (before & after & _ & _ & Hcase).
    destruct (Tokenomics.getTopHolders env a 50) as [| h hs] eqn:Hh.
    + destruct Hcase as [_ Hnone]. rewrite Hpop in Hnone. discriminate.
    + destruct Hcase as (S' & p & HS' & Hp & Hd & _).
      rewrite Hmeta in HS'. unfold Tokenomics.totalSupply_of in HS'.
      rewrite Hsupply in HS'.
      destruct (Z.eqb_spec S 0) as [-> | _];
        [destruct Hwf as (HS & _); lia |].
      injection HS' as <-.
      rewrite (sum_shares_exact _ _ (well_formed_firstn S 10 _ Hwf)) in Hp.
      injection Hp as <-. rewrite Hd in Hpop. injection Hpop as <-. reflexivity.
Qed.

Lemma top10_percent_sums_floors_witness :
  well_formed_balances 1000
    [Samples.holder_59; Samples.holder_59; Samples.holder_9]
  /\ sum_shares 1000 [Samples.holder_59; Samples.holder_59; Samples.holder_9]
     = Returned (Fin 10)
  /\ floor_share 1000 Samples.holder_9 = 0
  /\ (inject_Z 10 <= exact_share_percent 1000
                       [Samples.holder_59; Samples.holder_59; Samples.holder_9])%Q
  /\ (exists r d,
        SecurityChecks.performSecurityChecks Samples.two_holders Samples.token
        = Returned r
        /\ SecurityChecks.tokenDistribution r = Populated d
        /\ SecurityChecks.top10HoldersPercent d = Fin 100)
  /\ (exists r d,
        Tokenomics.performTokenomicsAnalysis Samples.exact Samples.whale_token
          Samples.token [] "" = Returned r
        /\ Tokenomics.distribution r = Populated d
        /\ Tokenomics.top10HoldersPercent d = Fin 100).
Proof.
  destruct top10_percent_sums_floors as (Hsum & Hsec & Htok).
  assert (Hwf : well_formed_balances 1000
                  [Samples.holder_59; Samples.holder_59; Samples.holder_9]).
  { split; [reflexivity |]. split; [| reflexivity].
    repeat constructor; discriminate. }
  assert (Hwf2 : well_formed_balances 1000
                   [Samples.holder_600; Samples.holder_400]).
  { split; [reflexivity |]. split; [| reflexivity].
    repeat constructor; discriminate. }
  destruct (Hsum _ _ Hwf) as (H1 & H2 & H3).
  split; [exact Hwf |]. split; [exact H1 |]. split.
  { apply (H2 Samples.holder_9); [right; right; left; reflexivity | reflexivity]. }
  split; [exact H3 |]. split.
  - eexists. eexists. split; [vm_compute; reflexivity |].
    split; [reflexivity |].
    apply (Hsec Samples.two_holders Samples.token _ _ eq_refl eq_refl Hwf2).
  - eexists. eexists. split; [vm_compute; reflexivity |].
    split; [reflexivity |].
    apply (Htok Samples.exact Samples.whale_token Samples.token [] "" _ _
             Samples.meta_plain 1000 eq_refl eq_refl eq_refl eq_refl Hwf2).
Defined.

End EngineClaims.

(** * Further properties of [performSecurityChecks] *)
Module SecurityExtras.
Import SecurityChecks SecurityRules SecurityFacts.
Local Open Scope list_scope.

(** ** Subsequences *)

Lemma Subseq_nil_l {A : Type} (l : list A) : Subseq [] l.
Proof. induction l; constructor; assumption. Qed.

Lemma Subseq_app {A : Type} (a a' b b' : list A) :
  Subseq a a' -> Subseq b b' -> Subseq (a ++ b) (a' ++ b').
Proof.
  intros Ha Hb. induction Ha; cbn; [exact Hb | |]; constructor; assumption.
Qed.

Lemma Subseq_In {A : Type} (l1 l2 : list A) (x : A) :
  Subseq l1 l2 -> In x l1 -> In x l2.
Proof.
  intros H. induction H; cbn; intros Hin; [contradiction | right; auto |].
  destruct Hin as [-> | Hin]; [left; reflexivity | right; auto].
Qed.

Lemma Subseq_NoDup {A : Type} (l1 l2 : list A) :
  Subseq l1 l2 -> NoDup l2 -> NoDup l1.
Proof.
  intros H. induction H; intros Hnd; [constructor | |].
  - inversion Hnd; subst. auto.
  - inversion Hnd as [| ? ? Hnotin Hnd']; subst. constructor; [| auto].
    intros Hin. apply Hnotin. eapply Subseq_In; eassumption.
Qed.

Lemma Subseq_length {A : Type} (l1 l2 : list A) :
  Subseq l1 l2 -> (List.length l1 <= List.length l2)%nat.
Proof. intros H. induction H; cbn; lia. Qed.

Ltac in_order :=
  repeat first [apply Subseq_take | apply Subseq_skip | apply Subseq_nil].

Lemma run_flags_in_order (env : Providers) (tokenAddress : string) :
  Subseq (run_flags env tokenAddress) rule_order.
Proof.
  unfold run_flags.
  change rule_order
    with ([MINT_ACTIVE; FREEZE_ACTIVE] ++ [CREATOR_SHARE]
          ++ [TINY_LP; LP_MINT_RISK; NO_LIQUIDITY]
          ++ [HIGH_CONCENTRATION; MODERATE_CONCENTRATION] ++ [LARGE_DUMPS]).
  apply Subseq_app;
    [| apply Subseq_app; [| apply Subseq_app; [| apply Subseq_app]]].
  - destruct (rpc_getMint env tokenAddress) as [mi | msg]; cbn;
      [| apply Subseq_nil_l].
    destruct (present (mint_mintAuthority mi)),
             (present (mint_freezeAuthority mi)); cbn; in_order.
  - destruct (getTokenMeta env tokenAddress) as [m |]; cbn;
      [| apply Subseq_nil_l].
    destruct (creator_over_10 (meta_creator m)); in_order.
  - unfold lp_flags.
    destruct (getDexPairs env tokenAddress) as [| first pairs];
      [in_order |].
    destruct (tiny_liquidity (first :: pairs)),
             (mint_active (rpc_getMint env tokenAddress)); cbn;
      in_order.
  - unfold distribution_flags.
    destruct (getTopHolders env tokenAddress 10) as [| h hs];
      [apply Subseq_nil_l |].
    destruct (sum_shares _ (h :: hs)) as [p | e]; [| apply Subseq_nil_l].
    unfold concentration_flags.
    destruct (num_gt p 50); [| destruct (num_gt p 20)]; in_order.
  - unfold transaction_flags. destruct (2 <? _); in_order.
Qed.

Lemma rule_order_NoDup : NoDup rule_order.
Proof.
  unfold rule_order.
  repeat (constructor; [cbn; intuition discriminate |]). constructor.
Qed.

(** X1.  The flags of a returned report keep the order in which the source
    pushes them, so no flag occurs twice and a report has at most seven
    flags. *)
Theorem flags_follow_rule_order (env : Providers) (tokenAddress : string)
  (r : Report) :
  performSecurityChecks env tokenAddress = Returned r ->
  Subseq (flags r) rule_order
  /\ NoDup (flags r)
  /\ (List.length (flags r) <= 7)%nat.
Proof.
  intros Hrun.
  destruct (performSecurityChecks_flags env tokenAddress r Hrun) as [Hf _].
  rewrite Hf. pose proof (run_flags_in_order env tokenAddress) as Hsub.
  split; [exact Hsub |]. split; [exact (Subseq_NoDup _ _ Hsub rule_order_NoDup) |].
  unfold run_flags. rewrite !length_app.
  assert (H1 : (List.length (authority_flags (rpc_getMint env tokenAddress)) <= 2)%nat).
  { destruct (rpc_getMint env tokenAddress) as [mi |]; cbn; [| lia].
    destruct (present (mint_mintAuthority mi)),
             (present (mint_freezeAuthority mi)); cbn; lia. }
  assert (H2 : (List.length (adminKeys_flags (getTokenMeta env tokenAddress)) <= 1)%nat).
  { destruct (getTokenMeta env tokenAddress) as [m |]; cbn; [| lia].
    destruct (creator_over_10 (meta_creator m)); cbn; lia. }
  assert (H3 : (List.length (lp_flags (mint_active (rpc_getMint env tokenAddress))
                               (getDexPairs env tokenAddress)) <= 2)%nat).
  { unfold lp_flags. destruct (getDexPairs env tokenAddress) as [| first pairs];
      [cbn; lia |].
    destruct (tiny_liquidity (first :: pairs)),
             (mint_active (rpc_getMint env tokenAddress)); cbn; lia. }
  assert (H4 : (List.length (distribution_flags (getTokenMeta env tokenAddress)
                               (getTopHolders env tokenAddress 10)) <= 1)%nat).
  { unfold distribution_flags.
    destruct (getTopHolders env tokenAddress 10) as [| h hs]; [cbn; lia |].
    destruct (sum_shares _ (h :: hs)) as [p | e]; [| cbn; lia].
    unfold concentration_flags.
    destruct (num_gt p 50); [| destruct (num_gt p 20)]; cbn; lia. }
  assert (H5 : (List.length (transaction_flags
                               (getRecentTransactions env tokenAddress 20)) <= 1)%nat).
  { unfold transaction_flags. destruct (2 <? _); cbn; lia. }
  lia.
Qed.

Lemma flags_follow_rule_order_witness :
  exists r,
    performSecurityChecks Samples.everything_fires Samples.token = Returned r
    /\ List.length (flags r) = 7%nat
    /\ (Subseq (flags r) rule_order
        /\ NoDup (flags r)
        /\ (List.length (flags r) <= 7)%nat).
Proof.
  eexists. split; [vm_compute; reflexivity |]. split; [reflexivity |].
  apply (flags_follow_rule_order Samples.everything_fires Samples.token).
  vm_compute; reflexivity.
Defined.

(** ** Which flag comes from which check *)

Lemma authority_flags_in_order (mint : fetch MintInfo) :
  Subseq (authority_flags mint) [MINT_ACTIVE; FREEZE_ACTIVE].
Proof.
  destruct mint as [mi | msg]; cbn; [| apply Subseq_nil_l].
  destruct (present (mint_mintAuthority mi)),
           (present (mint_freezeAuthority mi)); cbn; in_order.
Qed.

Lemma adminKeys_flags_in_order (tokenMeta : option TokenMeta) :
  Subseq (adminKeys_flags tokenMeta) [CREATOR_SHARE].
Proof.
  destruct tokenMeta as [m |]; cbn; [| apply Subseq_nil_l].
  destruct (creator_over_10 (meta_creator m)); in_order.
Qed.

Lemma lp_flags_in_order (mintActive : bool) (pairs : list Pair) :
  Subseq (lp_flags mintActive pairs) [TINY_LP; LP_MINT_RISK; NO_LIQUIDITY].
Proof.
  unfold lp_flags. destruct pairs as [| first pairs]; [in_order |].
  destruct (tiny_liquidity (first :: pairs)), mintActive; cbn; in_order.
Qed.

Lemma distribution_flags_in_order (tokenMeta : option TokenMeta)
  (topHolders : list Holder) :
  Subseq (distribution_flags tokenMeta topHolders)
         [HIGH_CONCENTRATION; MODERATE_CONCENTRATION].
Proof.
  unfold distribution_flags.
  destruct topHolders as [| h hs]; [apply Subseq_nil_l |].
  destruct (sum_shares _ (h :: hs)) as [p | e]; [| apply Subseq_nil_l].
  unfold concentration_flags.
  destruct (num_gt p 50); [| destruct (num_gt p 20)]; in_order.
Qed.

Lemma transaction_flags_in_order (recentTx : list Tx) :
  Subseq (transaction_flags recentTx) [LARGE_DUMPS].
Proof. unfold transaction_flags. destruct (2 <? _); in_order. Qed.

(** A flag of a run sits in exactly one of the five pieces. *)
Lemma in_run_flags (env : Providers) (tokenAddress : string) (f : string) :
  In f (run_flags env tokenAddress)
  <-> (In f [MINT_ACTIVE; FREEZE_ACTIVE]
       /\ In f (authority_flags (rpc_getMint env tokenAddress)))
      \/ (In f [CREATOR_SHARE]
          /\ In f (adminKeys_flags (getTokenMeta env tokenAddress)))
      \/ (In f [TINY_LP; LP_MINT_RISK; NO_LIQUIDITY]
          /\ In f (lp_flags (mint_active (rpc_getMint env tokenAddress))
                     (getDexPairs env tokenAddress)))
      \/ (In f [HIGH_CONCENTRATION; MODERATE_CONCENTRATION]
          /\ In f (distribution_flags (getTokenMeta env tokenAddress)
                     (getTopHolders env tokenAddress 10)))
      \/ (In f [LARGE_DUMPS]
          /\ In f (transaction_flags (getRecentTransactions env tokenAddress 20))).
Proof.
  unfold run_flags. rewrite !in_app_iff.
  pose proof (Subseq_In _ _ f (authority_flags_in_order (rpc_getMint env tokenAddress))).
  pose proof (Subseq_In _ _ f (adminKeys_flags_in_order (getTokenMeta env tokenAddress))).
  pose proof (Subseq_In _ _ f (lp_flags_in_order
                                 (mint_active (rpc_getMint env tokenAddress))
                                 (getDexPairs env tokenAddress))).
  pose proof (Subseq_In _ _ f (distribution_flags_in_order
                                 (getTokenMeta env tokenAddress)
                                 (getTopHolders env tokenAddress 10))).
  pose proof (Subseq_In _ _ f (transaction_flags_in_order
                                 (getRecentTransactions env tokenAddress 20))).
  tauto.
Qed.

Ltac from_piece Hpiece :=
  let H := fresh "Hin" in
  let Hv := fresh "Hv" in
  split; intros H;
  [ apply in_run_flags in H;
    destruct H as [[Hv H] | [[Hv H] | [[Hv H] | [[Hv H] | [Hv H]]]]];
    first [ apply Hpiece, H | cbn in Hv; exfalso; intuition discriminate ]
  | apply in_run_flags; apply Hpiece in H;
    first [ left; split; [cbn; auto 10 | exact H]
          | right; left; split; [cbn; auto 10 | exact H]
          | right; right; left; split; [cbn; auto 10 | exact H]
          | right; right; right; left; split; [cbn; auto 10 | exact H]
          | right; right; right; right; split; [cbn; auto 10 | exact H] ] ].

Lemma in_authority_mint (mint : fetch MintInfo) :
  In MINT_ACTIVE (authority_flags mint) <-> mint_active mint = true.
Proof.
  destruct mint as [mi | msg]; cbn; [| intuition discriminate].
  destruct (present (mint_mintAuthority mi)),
           (present (mint_freezeAuthority mi)); cbn; intuition discriminate.
Qed.

Lemma in_authority_freeze (mint : fetch MintInfo) :
  In FREEZE_ACTIVE (authority_flags mint) <-> freeze_active mint = true.
Proof.
  destruct mint as [mi | msg]; cbn; [| intuition discriminate].
  destruct (present (mint_mintAuthority mi)),
           (present (mint_freezeAuthority mi)); cbn; intuition discriminate.
Qed.

Lemma in_adminKeys_creator (tokenMeta : option TokenMeta) :
  In CREATOR_SHARE (adminKeys_flags tokenMeta)
  <-> exists m, tokenMeta = Some m /\ creator_over_10 (meta_creator m) = true.
Proof.
  destruct tokenMeta as [m |]; cbn.
  - destruct (creator_over_10 (meta_creator m)) eqn:Hc; cbn; split.
    + intros _. exists m. split; [reflexivity | exact Hc].
    + intros _. left. reflexivity.
    + contradiction.
    + intros (m' & [= <-] & H). congruence.
  - split; [contradiction | intros (m' & H & _); discriminate].
Qed.

Lemma in_lp_flags (mintActive : bool) (pairs : list Pair) :
  (In TINY_LP (lp_flags mintActive pairs) <-> tiny_liquidity pairs = true)
  /\ (In LP_MINT_RISK (lp_flags mintActive pairs)
      <-> pairs <> [] /\ mintActive = true)
  /\ (In NO_LIQUIDITY (lp_flags mintActive pairs) <-> pairs = []).
Proof.
  unfold lp_flags. destruct pairs as [| first pairs].
  - cbn. repeat split; try intuition discriminate; try congruence.
  - destruct (tiny_liquidity (first :: pairs)), mintActive; cbn;
      repeat split; try intuition discriminate; try congruence.
Qed.

Lemma in_transaction_flags (recentTx : list Tx) :
  In LARGE_DUMPS (transaction_flags recentTx) <-> 2 < count_largeDumps recentTx.
Proof.
  unfold transaction_flags.
  destruct (Z.ltb_spec 2 (count_largeDumps recentTx)); cbn; intuition lia.
Qed.

Lemma in_concentration_flags (p : number) :
  (In HIGH_CONCENTRATION (concentration_flags p) <-> num_gt p 50 = true)
  /\ (In MODERATE_CONCENTRATION (concentration_flags p)
      <-> num_gt p 50 = false /\ num_gt p 20 = true).
Proof.
  unfold concentration_flags.
  destruct (num_gt p 50); [| destruct (num_gt p 20)]; cbn; split;
    intuition discriminate.
Qed.

(** X2.  A flag is in a returned report exactly when the condition of its
    rule holds on what the adapters handed over: the two authority flags on
    the mint account, the creator flag on a creator share above 10, "Tiny LP"
    on a main pair below $20,000, the LP-mint flag on found pairs together
    with an active mint authority, "No liquidity pools detected" on an empty
    pair list, the two concentration flags on the reported top-10 percentage
    and the dump flag on more than two large dumps. *)
Theorem flag_iff_rule_condition (env : Providers) (tokenAddress : string)
  (r : Report) :
  performSecurityChecks env tokenAddress = Returned r ->
  (In MINT_ACTIVE (flags r)
   <-> mint_active (rpc_getMint env tokenAddress) = true)
  /\ (In FREEZE_ACTIVE (flags r)
      <-> freeze_active (rpc_getMint env tokenAddress) = true)
  /\ (In CREATOR_SHARE (flags r)
      <-> exists m, getTokenMeta env tokenAddress = Some m
                    /\ creator_over_10 (meta_creator m) = true)
  /\ (In TINY_LP (flags r)
      <-> tiny_liquidity (getDexPairs env tokenAddress) = true)
  /\ (In LP_MINT_RISK (flags r)
      <-> getDexPairs env tokenAddress <> []
          /\ mint_active (rpc_getMint env tokenAddress) = true)
  /\ (In NO_LIQUIDITY (flags r) <-> getDexPairs env tokenAddress = [])
  /\ (In HIGH_CONCENTRATION (flags r)
      <-> exists d, tokenDistribution r = Populated d
                    /\ num_gt (top10HoldersPercent d) 50 = true)
  /\ (In MODERATE_CONCENTRATION (flags r)
      <-> exists d, tokenDistribution r = Populated d
                    /\ num_gt (top10HoldersPercent d) 50 = false
                    /\ num_gt (top10HoldersPercent d) 20 = true)
  /\ (In LARGE_DUMPS (flags r)
      <-> 2 < count_largeDumps (getRecentTransactions env tokenAddress 20)).
Proof.
  intros Hrun.
  destruct (performSecurityChecks_flags env tokenAddress r Hrun) as [Hf _].
  pose proof (performSecurityChecks_distribution env tokenAddress r Hrun) as Hd.
  rewrite Hf.
  pose proof (in_authority_mint (rpc_getMint env tokenAddress)) as Hm.
  pose proof (in_authority_freeze (rpc_getMint env tokenAddress)) as Hfr.
  pose proof (in_adminKeys_creator (getTokenMeta env tokenAddress)) as Hc.
  destruct (in_lp_flags (mint_active (rpc_getMint env tokenAddress))
              (getDexPairs env tokenAddress)) as (Ht & Hl & Hn).
  pose proof (in_transaction_flags (getRecentTransactions env tokenAddress 20))
    as Htx.
  assert (Hhigh : In HIGH_CONCENTRATION
                    (distribution_flags (getTokenMeta env tokenAddress)
                       (getTopHolders env tokenAddress 10))
                  <-> exists d, tokenDistribution r = Populated d
                                /\ num_gt (top10HoldersPercent d) 50 = true).
  { unfold distribution_flags.
    destruct (getTopHolders env tokenAddress 10) as [| h hs].
    - rewrite Hd. split; [contradiction | intros (d & H & _); discriminate].
    - destruct Hd as (p & Hp & Hd). rewrite Hp, Hd.
      rewrite (proj1 (in_concentration_flags p)). split.
      + intros H. eexists. split; [reflexivity | exact H].
      + intros (d & [= <-] & H). exact H. }
  assert (Hmod : In MODERATE_CONCENTRATION
                   (distribution_flags (getTokenMeta env tokenAddress)
                      (getTopHolders env tokenAddress 10))
                 <-> exists d, tokenDistribution r = Populated d
                               /\ num_gt (top10HoldersPercent d) 50 = false
                               /\ num_gt (top10HoldersPercent d) 20 = true).
  { unfold distribution_flags.
    destruct (getTopHolders env tokenAddress 10) as [| h hs].
    - rewrite Hd. split; [contradiction | intros (d & H & _); discriminate].
    - destruct Hd as (p & Hp & Hd). rewrite Hp, Hd.
      rewrite (proj2 (in_concentration_flags p)). split.
      + intros H. eexists. split; [reflexivity | exact H].
      + intros (d & [= <-] & H). exact H. }
  repeat match goal with |- _ /\ _ => split end.
  - from_piece Hm.
  - from_piece Hfr.
  - from_piece Hc.
  - from_piece Ht.
  - from_piece Hl.
  - from_piece Hn.
  - from_piece Hhigh.
  - from_piece Hmod.
  - from_piece Htx.
Qed.

Lemma flag_iff_rule_condition_witness :
  exists r,
    performSecurityChecks Samples.everything_fires Samples.token = Returned r
    /\ In TINY_LP (flags r)
    /\ ~ In NO_LIQUIDITY (flags r)
    /\ In LARGE_DUMPS (flags r).
Proof.
  eexists. split; [vm_compute; reflexivity |].
  destruct (flag_iff_rule_condition Samples.everything_fires Samples.token _
              eq_refl) as (_ & _ & _ & Ht & _ & Hn & _ & _ & Hd).
  split; [apply Ht; reflexivity |].
  split; [intros H; apply Hn in H; discriminate H | apply Hd; reflexivity].
Defined.

(** ** The sections of a returned report *)

Lemma checkLpHealth_cases (pairs : list Pair) (r r' : Report) :
  checkLpHealth pairs r = Returned r' ->
  adminKeys r' = adminKeys r
  /\ match pairs with
     | [] => lpHealth r' = ErrorMarker "No DEX pairs found"
     | first :: _ =>
         exists lp, lpHealth r' = Populated lp
                    /\ liquidityUSD lp
                       = liquidity_or_zero (mainPair_of first pairs)
                    /\ dex lp = pair_dexId (mainPair_of first pairs)
                    /\ pairAddress lp = pair_pairAddress (mainPair_of first pairs)
     end.
Proof.
  destruct pairs as [| first pairs].
  - cbn. intros [= <-]. split; reflexivity.
  - unfold checkLpHealth. cbv zeta.
    change (Qltb _ (20000 # 1)) with (tiny_liquidity (first :: pairs)).
    unfold mintAuthority_includes_Active, when.
    destruct (tiny_liquidity (first :: pairs)); cbn;
      destruct (authorities r) as [| a |]; cbn; try discriminate;
      destruct (includes "Active" (mintAuthority a)); intros [= <-];
      (split; [reflexivity |]); eexists; repeat split.
Qed.

Lemma checkDistribution_adminKeys (tokenMeta : option TokenMeta)
  (topHolders : list Holder) (r r' : Report) :
  checkDistribution tokenMeta topHolders r = Returned r' ->
  adminKeys r' = adminKeys r.
Proof.
  destruct topHolders as [| h hs].
  - cbn. intros [= <-]. reflexivity.
  - unfold checkDistribution, bind.
    destruct (sum_shares (totalSupply_of tokenMeta) (h :: hs)) as [p | e];
      [| discriminate].
    intros [= <-]. unfold concentration_rules.
    destruct (num_gt p 50); [| destruct (num_gt p 20)]; reflexivity.
Qed.

Lemma checkTransactions_cases (recentTx : list Tx) (r : Report) :
  adminKeys (checkTransactions recentTx r) = adminKeys r
  /\ match recentTx with
     | [] => transactionPatterns (checkTransactions recentTx r)
             = ErrorMarker "Failed to fetch transactions"
     | _ :: _ =>
         exists t, transactionPatterns (checkTransactions recentTx r) = Populated t
                   /\ recentTxCount t = Z.of_nat (List.length recentTx)
                   /\ potentialDumps t = count_largeDumps recentTx
     end.
Proof.
  destruct recentTx as [| tx txs]; [split; reflexivity |].
  unfold checkTransactions, when.
  destruct (2 <? count_largeDumps (tx :: txs)); (split; [reflexivity |]);
    eexists; repeat split.
Qed.

Lemma after_adminKeys_adminKeys (env : Providers) (tokenAddress : string) :
  match getTokenMeta env tokenAddress with
  | Some _ => is_populated (adminKeys (after_adminKeys env tokenAddress)) = true
  | None => adminKeys (after_adminKeys env tokenAddress)
            = ErrorMarker "Failed to fetch token meta"
  end.
Proof.
  unfold after_adminKeys.
  destruct (getTokenMeta env tokenAddress) as [m |]; cbn; [| reflexivity].
  destruct (creator_over_10 (meta_creator m)); reflexivity.
Qed.

(** X3.  Every section of a returned report is populated exactly when its
    source delivered data and carries its own error marker otherwise; no
    section is left as the empty object. *)
Theorem sections_populated_or_marked (env : Providers) (tokenAddress : string)
  (r : Report) :
  performSecurityChecks env tokenAddress = Returned r ->
  match rpc_getMint env tokenAddress with
  | Resolved _ => is_populated (authorities r) = true
  | Rejected _ => authorities r = ErrorMarker "Failed to fetch on-chain mint info"
  end
  /\ match getTokenMeta env tokenAddress with
     | Some _ => is_populated (adminKeys r) = true
     | None => adminKeys r = ErrorMarker "Failed to fetch token meta"
     end
  /\ match getDexPairs env tokenAddress with
     | _ :: _ => is_populated (lpHealth r) = true
     | [] => lpHealth r = ErrorMarker "No DEX pairs found"
     end
  /\ match getTopHolders env tokenAddress 10 with
     | _ :: _ => is_populated (tokenDistribution r) = true
     | [] => tokenDistribution r = ErrorMarker "Failed to fetch holders"
     end
  /\ match getRecentTransactions env tokenAddress 20 with
     | _ :: _ => is_populated (transactionPatterns r) = true
     | [] => transactionPatterns r = ErrorMarker "Failed to fetch transactions"
     end.
Proof.
  intros Hrun.
  pose proof (performSecurityChecks_authorities env tokenAddress r Hrun) as Ha.
  pose proof (performSecurityChecks_distribution env tokenAddress r Hrun) as Hd.
  destruct (performSecurityChecks_inv _ _ _ Hrun) as (r0 & H0 & ->).
  destruct (runChecks_inv _ _ _ H0) as (r3 & r4 & H3 & H4 & ->).
  destruct (checkLpHealth_cases _ _ _ H3) as [Hk3 Hlp].
  pose proof (checkDistribution_adminKeys _ _ _ _ H4) as Hk4.
  destruct (checkDistribution_frame _ _ _ _ H4) as [Hl4 _].
  destruct (checkTransactions_cases
              (getRecentTransactions env tokenAddress 20) r4) as [Hk5 Htx].
  destruct (checkTransactions_frame
              (getRecentTransactions env tokenAddress 20) r4) as (Hl5 & _ & _).
  cbn [authorities adminKeys lpHealth tokenDistribution transactionPatterns
       capRiskScore set_riskScore] in *.
  repeat match goal with |- _ /\ _ => split end.
  - rewrite Ha.
    pose proof (after_adminKeys_populated env tokenAddress) as Hp.
    destruct (rpc_getMint env tokenAddress) as [mi | msg] eqn:Hm; [exact Hp |].
    apply (after_adminKeys_error env tokenAddress msg Hm).
  - rewrite Hk5, Hk4, Hk3. apply after_adminKeys_adminKeys.
  - rewrite Hl5, Hl4.
    destruct (getDexPairs env tokenAddress) as [| first pairs]; [exact Hlp |].
    destruct Hlp as (lp & -> & _). reflexivity.
  - destruct (getTopHolders env tokenAddress 10) as [| h hs]; [exact Hd |].
    destruct Hd as (p & _ & ->). reflexivity.
  - destruct (getRecentTransactions env tokenAddress 20) as [| tx txs];
      [exact Htx |].
    destruct Htx as (t & -> & _). reflexivity.
Qed.

Lemma sections_populated_or_marked_witness :
  exists r,
    performSecurityChecks Samples.dex_down Samples.token = Returned r
    /\ lpHealth r = ErrorMarker "No DEX pairs found"
    /\ is_populated (tokenDistribution r) = true.
Proof.
  eexists. split; [vm_compute; reflexivity |].
  destruct (sections_populated_or_marked Samples.dex_down Samples.token _ eq_refl)
    as (_ & _ & Hlp & Hd & _).
  split; [exact Hlp | exact Hd].
Defined.

(** ** Score and flags *)

Lemma rule_delta_in_order (f : string) :
  In f rule_order -> 10 <= rule_delta f <= 30.
Proof.
  unfold rule_order. cbn [In].
  intros [<- | [<- | [<- | [<- | [<- | [<- | [<- | [<- | [<- | []]]]]]]]]];
    vm_compute; split; discriminate.
Qed.

Lemma delta_sum_bounds (l : list string) :
  (forall f, In f l -> In f rule_order) ->
  10 * Z.of_nat (List.length l) <= delta_sum l <= 30 * Z.of_nat (List.length l).
Proof.
  induction l as [| f l IH]; intros Hall; [cbn; lia |].
  cbn [delta_sum fold_right List.length]. fold (delta_sum l).
  pose proof (rule_delta_in_order f (Hall f (or_introl eq_refl))).
  assert (forall g, In g l -> In g rule_order)
    by (intros g Hg; apply Hall; right; exact Hg).
  specialize (IH H0). lia.
Qed.

(** X4.  Every flag of a returned report stands for a delta between 10 and
    30, so the score is 0 exactly when the report has no flag, and a report
    that reaches the cap of 100 has at least four flags. *)
Theorem score_zero_iff_no_flags (env : Providers) (tokenAddress : string)
  (r : Report) :
  performSecurityChecks env tokenAddress = Returned r ->
  (riskScore r = 0 <-> flags r = [])
  /\ Z.min (10 * Z.of_nat (List.length (flags r))) 100 <= riskScore r
  /\ riskScore r <= 30 * Z.of_nat (List.length (flags r))
  /\ (riskScore r = 100 -> (4 <= List.length (flags r))%nat).
Proof.
  intros Hrun.
  destruct (performSecurityChecks_flags env tokenAddress r Hrun) as [Hf Hs].
  pose proof (delta_sum_bounds (flags r)) as Hb.
  rewrite Hf in Hb. rewrite Hf, Hs.
  specialize (Hb (fun f => Subseq_In _ _ f (run_flags_in_order env tokenAddress))).
  set (l := run_flags env tokenAddress) in *.
  repeat match goal with |- _ /\ _ => split end; try lia.
  split.
  - intros H0. destruct l as [| f l']; [reflexivity |].
    cbn [List.length] in Hb. lia.
  - intros ->. reflexivity.
Qed.

Lemma score_zero_iff_no_flags_witness :
  exists r,
    performSecurityChecks Samples.everything_fires Samples.token = Returned r
    /\ riskScore r = 100
    /\ (4 <= List.length (flags r))%nat.
Proof.
  eexists. split; [vm_compute; reflexivity |]. split; [reflexivity |].
  apply (score_zero_iff_no_flags Samples.everything_fires Samples.token _ eq_refl).
  reflexivity.
Defined.

(** ** The main pair *)

Lemma fold_pick_in (l : list Pair) (prev : Pair) :
  In (fold_left pick_deeper l prev) (prev :: l).
Proof.
  revert prev. induction l as [| curr l IH]; intros prev; [left; reflexivity |].
  cbn [fold_left].
  destruct (IH (pick_deeper prev curr)) as [Heq | Hin];
    [| right; right; exact Hin].
  rewrite <- Heq. unfold pick_deeper.
  destruct (opt_gt _ _); [right; left | left]; reflexivity.
Qed.

Lemma fold_pick_none (l : list Pair) (prev : Pair) :
  pair_liquidity_usd prev = None -> fold_left pick_deeper l prev = prev.
Proof.
  intros Hnone. induction l as [| curr l IH]; [reflexivity |].
  cbn [fold_left]. unfold pick_deeper at 2. rewrite Hnone.
  destruct (pair_liquidity_usd curr); exact IH.
Qed.

Lemma fold_pick_max (l : list Pair) :
  forall (prev : Pair) (b : Q),
    pair_liquidity_usd prev = Some b ->
    exists best,
      pair_liquidity_usd (fold_left pick_deeper l prev) = Some best
      /\ (b <= best)%Q
      /\ forall p usd, In p l -> pair_liquidity_usd p = Some usd ->
                       (usd <= best)%Q.
Proof.
  induction l as [| curr l IH]; intros prev b Hb.
  - exists b. split; [exact Hb |]. split; [apply Qle_refl | contradiction].
  - cbn [fold_left]. unfold pick_deeper at 2. rewrite Hb.
    destruct (pair_liquidity_usd curr) as [c |] eqn:Hc; cbn [opt_gt].
    + unfold Qltb. destruct (Qle_bool c b) eqn:Hle; cbn [negb].
      * apply Qle_bool_iff in Hle.
        destruct (IH prev b Hb) as (best & Hbest & Hge & Hall).
        exists best. split; [exact Hbest |]. split; [exact Hge |].
        intros p usd [<- | Hin] Hp; [| eapply Hall; eassumption].
        rewrite Hc in Hp. injection Hp as <-.
        eapply Qle_trans; eassumption.
      * assert (Hlt : (b < c)%Q).
        { apply Qnot_le_lt. intros H. apply Qle_bool_iff in H. congruence. }
        destruct (IH curr c Hc) as (best & Hbest & Hge & Hall).
        exists best. split; [exact Hbest |].
        split; [eapply Qle_trans; [apply Qlt_le_weak, Hlt | exact Hge] |].
        intros p usd [<- | Hin] Hp; [| eapply Hall; eassumption].
        rewrite Hc in Hp. injection Hp as <-. exact Hge.
    + destruct (IH prev b Hb) as (best & Hbest & Hge & Hall).
      exists best. split; [exact Hbest |]. split; [exact Hge |].
      intros p usd [<- | Hin] Hp; [congruence | eapply Hall; eassumption].
Qed.

(** X5.  The main pair is one of the pairs.  When the first pair has a
    liquidity figure, the main pair has the largest figure of all pairs that
    have one.  When the first pair has none, it stays the main pair whatever
    the other pairs hold, and its liquidity counts as 0, below the $20,000
    threshold. *)
Theorem mainPair_selection (first : Pair) (rest : list Pair) :
  In (mainPair_of first (first :: rest)) (first :: rest)
  /\ (pair_liquidity_usd first = None ->
      mainPair_of first (first :: rest) = first
      /\ tiny_liquidity (first :: rest) = true)
  /\ (forall usd0, pair_liquidity_usd first = Some usd0 ->
      exists best,
        pair_liquidity_usd (mainPair_of first (first :: rest)) = Some best
        /\ forall p usd, In p (first :: rest) ->
                         pair_liquidity_usd p = Some usd -> (usd <= best)%Q).
Proof.
  change (mainPair_of first (first :: rest))
    with (fold_left pick_deeper (first :: rest) first).
  split; [| split].
  - destruct (fold_pick_in (first :: rest) first) as [<- | Hin];
      [left; reflexivity | exact Hin].
  - intros Hnone. pose proof (fold_pick_none (first :: rest) first Hnone) as Hm.
    split; [exact Hm |].
    unfold tiny_liquidity, mainPair_liquidity.
    change (mainPair_of first (first :: rest))
      with (fold_left pick_deeper (first :: rest) first).
    rewrite Hm, Hnone. reflexivity.
  - intros usd0 H0.
    destruct (fold_pick_max (first :: rest) first usd0 H0)
      as (best & Hbest & _ & Hall).
    exists best. split; [exact Hbest | exact Hall].
Qed.

Lemma mainPair_selection_witness :
  (exists best,
      pair_liquidity_usd
        (mainPair_of Samples.shallow_pair [Samples.shallow_pair; Samples.deep_pair])
      = Some best
      /\ forall p usd,
           In p [Samples.shallow_pair; Samples.deep_pair] ->
           pair_liquidity_usd p = Some usd -> (usd <= best)%Q)
  /\ mainPair_of Samples.shallow_pair [Samples.shallow_pair; Samples.deep_pair]
     = Samples.deep_pair.
Proof.
  split; [| reflexivity].
  destruct (mainPair_selection Samples.shallow_pair [Samples.deep_pair])
    as (_ & _ & Hmax).
  apply (Hmax (1500 # 1) eq_refl).
Defined.

(** ** Large dumps *)

Lemma fold_count_largeDumps (recentTx : list Tx) (acc : Z) :
  fold_left (fun largeDumps tx =>
               if is_large_dump tx then largeDumps + 1 else largeDumps)
            recentTx acc
  = acc + Z.of_nat (List.length (large_dumps recentTx)).
Proof.
  revert acc. induction recentTx as [| tx txs IH]; intros acc; [cbn; lia |].
  cbn [fold_left]. rewrite IH. unfold large_dumps. cbn [filter].
  destruct (is_large_dump tx); cbn [List.length]; lia.
Qed.

Lemma count_largeDumps_length (recentTx : list Tx) :
  count_largeDumps recentTx = Z.of_nat (List.length (large_dumps recentTx)).
Proof. unfold count_largeDumps. apply fold_count_largeDumps. Qed.

Lemma large_dumps_length (recentTx : list Tx) :
  (List.length (large_dumps recentTx) <= List.length recentTx)%nat.
Proof.
  induction recentTx as [| tx txs IH]; [cbn; lia |].
  unfold large_dumps in *. cbn [filter].
  destruct (is_large_dump tx); cbn [List.length]; lia.
Qed.

Lemma is_large_dump_iff (tx : Tx) :
  is_large_dump tx = true
  <-> tx_type tx = "transfer" /\ 10000000 < tx_amount tx.
Proof.
  unfold is_large_dump. rewrite !andb_true_iff, String.eqb_eq, !Z.ltb_lt.
  split; [intros [[H1 _] H3]; split; assumption | intros [H1 H3]].
  repeat split; [exact H1 | lia | exact H3].
Qed.

(** X6.  In a returned report with a transaction section, [recentTxCount] is
    the number of transactions received and [potentialDumps] the number of
    those of type 'transfer' whose amount exceeds 10,000,000, so it lies
    between 0 and [recentTxCount]; the dump flag is present exactly when
    [potentialDumps] is at least 3. *)
Theorem potentialDumps_counted (env : Providers) (tokenAddress : string)
  (r : Report) (t : TransactionPatterns) :
  performSecurityChecks env tokenAddress = Returned r ->
  transactionPatterns r = Populated t ->
  recentTxCount t
  = Z.of_nat (List.length (getRecentTransactions env tokenAddress 20))
  /\ potentialDumps t
     = Z.of_nat (List.length
                   (large_dumps (getRecentTransactions env tokenAddress 20)))
  /\ (forall tx, In tx (large_dumps (getRecentTransactions env tokenAddress 20))
                 <-> In tx (getRecentTransactions env tokenAddress 20)
                     /\ tx_type tx = "transfer" /\ 10000000 < tx_amount tx)
  /\ 0 <= potentialDumps t <= recentTxCount t
  /\ (In LARGE_DUMPS (flags r) <-> 3 <= potentialDumps t).
Proof.
  intros Hrun Ht.
  destruct (performSecurityChecks_flags env tokenAddress r Hrun) as [Hf _].
  destruct (performSecurityChecks_inv _ _ _ Hrun) as (r0 & H0 & ->).
  destruct (runChecks_inv _ _ _ H0) as (r3 & r4 & _ & _ & ->).
  destruct (checkTransactions_cases
              (getRecentTransactions env tokenAddress 20) r4) as [_ Htx].
  cbn [transactionPatterns capRiskScore set_riskScore] in Ht.
  pose proof (count_largeDumps_length (getRecentTransactions env tokenAddress 20))
    as Hcount.
  pose proof (large_dumps_length (getRecentTransactions env tokenAddress 20))
    as Hle.
  destruct (getRecentTransactions env tokenAddress 20) as [| tx txs] eqn:Hrecent.
  - rewrite Htx in Ht. discriminate.
  - destruct Htx as (t' & Ht' & Hn & Hp). rewrite Ht' in Ht.
    injection Ht as <-. rewrite Hn, Hp, Hcount.
    repeat match goal with |- _ /\ _ => split end; try reflexivity; try lia.
    + intros tx0. unfold large_dumps. rewrite filter_In, is_large_dump_iff.
      reflexivity.
    + rewrite Hf.
      assert (Hin : In LARGE_DUMPS (run_flags env tokenAddress)
                    <-> 2 < count_largeDumps (tx :: txs)).
      { rewrite in_run_flags, Hrecent.
        pose proof (in_transaction_flags (tx :: txs)) as Hi.
        split.
        - intros [[Hv _] | [[Hv _] | [[Hv _] | [[Hv _] | [_ H]]]]];
            [cbn in Hv; exfalso; intuition discriminate ..| apply Hi, H].
        - intros H. do 4 right. split; [left; reflexivity | apply Hi, H]. }
      rewrite Hin, Hcount. lia.
Qed.

Lemma potentialDumps_counted_witness :
  exists r t,
    performSecurityChecks Samples.everything_fires Samples.token = Returned r
    /\ transactionPatterns r = Populated t
    /\ potentialDumps t = 3
    /\ In LARGE_DUMPS (flags r).
Proof.
  eexists. eexists. split; [vm_compute; reflexivity |].
  split; [reflexivity |]. split; [reflexivity |].
  destruct (potentialDumps_counted Samples.everything_fires Samples.token _ _
              eq_refl eq_refl) as (_ & _ & _ & _ & Hflag).
  apply Hflag. vm_compute. discriminate.
Defined.

(** ** What the floors lose *)

Lemma floor_shares_loss (S : Z) (hs : list Holder) :
  0 < S -> hs <> [] ->
  100 * total_amount hs < (floor_shares S hs + Z.of_nat (List.length hs)) * S.
Proof.
  intros HS.
  assert (Hweak : forall l,
             100 * total_amount l
             <= (floor_shares S l + Z.of_nat (List.length l)) * S
             /\ (l <> [] ->
                 100 * total_amount l
                 < (floor_shares S l + Z.of_nat (List.length l)) * S)).
  { induction l as [| h l [IHle IHlt]]; [split; [cbn; lia | congruence] |].
    cbn [floor_shares total_amount fold_right List.length].
    fold (floor_shares S l). fold (total_amount l). unfold floor_share.
    pose proof (Z.div_mod (holder_amount h * 100) S ltac:(lia)) as Hdm.
    pose proof (Z.mod_pos_bound (holder_amount h * 100) S HS) as Hmod.
    set (q := holder_amount h * 100 / S) in *.
    set (m := (holder_amount h * 100) mod S) in *.
    rewrite Nat2Z.inj_succ.
    assert (Hlt : 100 * (holder_amount h + total_amount l)
                  < (q + floor_shares S l + Z.succ (Z.of_nat (List.length l))) * S)
      by nia.
    split; [lia | intros _; exact Hlt]. }
  intros Hne. apply (Hweak hs), Hne.
Qed.

(** X7.  On well-formed balances the reported top-10 percentage lies below
    the exact share by less than one point per holder listed:
    [p <= exact < p + n]. *)
Theorem top10_percent_loss_bounded (env : Providers) (tokenAddress : string)
  (r : Report) (d : TokenDistribution) :
  performSecurityChecks env tokenAddress = Returned r ->
  tokenDistribution r = Populated d ->
  well_formed_balances (totalSupply_of (getTokenMeta env tokenAddress))
                       (getTopHolders env tokenAddress 10) ->
  exists p,
    top10HoldersPercent d = Fin p
    /\ (inject_Z p
        <= exact_share_percent (totalSupply_of (getTokenMeta env tokenAddress))
                               (getTopHolders env tokenAddress 10))%Q
    /\ (exact_share_percent (totalSupply_of (getTokenMeta env tokenAddress))
                            (getTopHolders env tokenAddress 10)
        < inject_Z (p + Z.of_nat
                          (List.length (getTopHolders env tokenAddress 10))))%Q.
Proof.
  intros Hrun Hpop Hwf.
  pose proof (performSecurityChecks_distribution env tokenAddress r Hrun) as Hd.
  set (S := totalSupply_of (getTokenMeta env tokenAddress)) in *.
  destruct (getTopHolders env tokenAddress 10) as [| h hs] eqn:Hh.
  - rewrite Hd in Hpop. discriminate.
  - destruct Hd as (p & Hp & Hd). rewrite Hd in Hpop. injection Hpop as <-.
    rewrite (ShareFacts.sum_shares_exact _ _ Hwf) in Hp. injection Hp as <-.
    destruct Hwf as (HS & _ & _).
    exists (floor_shares S (h :: hs)). split; [reflexivity |]. split.
    + unfold exact_share_percent. apply Qle_shift_div_l.
      * change 0%Q with (inject_Z 0). rewrite <- Zlt_Qlt. exact HS.
      * rewrite <- inject_Z_mult, <- Zle_Qle.
        apply ShareFacts.floor_shares_below, HS.
    + unfold exact_share_percent. apply Qlt_shift_div_r.
      * change 0%Q with (inject_Z 0). rewrite <- Zlt_Qlt. exact HS.
      * rewrite <- inject_Z_mult, <- Zlt_Qlt.
        apply floor_shares_loss; [exact HS | discriminate].
Qed.

Lemma top10_percent_loss_bounded_witness :
  exists r d p,
    performSecurityChecks Samples.two_holders Samples.token = Returned r
    /\ tokenDistribution r = Populated d
    /\ top10HoldersPercent d = Fin p
    /\ (exact_share_percent 1000 [Samples.holder_600; Samples.holder_400]
        < inject_Z (p + 2))%Q.
Proof.
  assert (Hwf : well_formed_balances 1000
                  [Samples.holder_600; Samples.holder_400]).
  { split; [reflexivity |]. split; [| reflexivity].
    repeat constructor; discriminate. }
  destruct (top10_percent_loss_bounded Samples.two_holders Samples.token _ _
              eq_refl eq_refl Hwf) as (p & Hp & _ & Hlt).
  eexists. eexists. exists p. split; [vm_compute; reflexivity |].
  split; [reflexivity |]. split; [exact Hp | exact Hlt].
Defined.

(** ** The tiny-liquidity flag alone *)

Lemma in_flags_tiny (env : Providers) (tokenAddress : string) (r : Report) :
  performSecurityChecks env tokenAddress = Returned r ->
  In TINY_LP (flags r) <-> tiny_liquidity (getDexPairs env tokenAddress) = true.
Proof.
  intros Hrun.
  destruct (performSecurityChecks_flags env tokenAddress r Hrun) as [Hf _].
  rewrite Hf.
  destruct (in_lp_flags (mint_active (rpc_getMint env tokenAddress))
              (getDexPairs env tokenAddress)) as (Ht & _ & _).
  from_piece Ht.
Qed.

Lemma Qltb_lt (a b : Q) : Qltb a b = true <-> (a < b)%Q.
Proof.
  unfold Qltb. rewrite negb_true_iff. split.
  - intros H. apply Qnot_le_lt. intros Hle. apply Qle_bool_iff in Hle. congruence.
  - intros H. destruct (Qle_bool b a) eqn:Hle; [| reflexivity].
    apply Qle_bool_iff in Hle. exfalso. exact (Qlt_not_le _ _ H Hle).
Qed.

End SecurityExtras.

(** * Further properties of [performTokenomicsAnalysis] *)
Module TokenomicsExtras.
Import Tokenomics TokenomicsRules TokenomicsFacts.
Import SecurityRules SecurityExtras.
Local Open Scope list_scope.

Section WithFloats.

Variable F : Float64.

(** The sections a step leaves as they are. *)
Ltac untouched := repeat split; reflexivity.

Lemma performTokenomicsAnalysis_steps (env : Providers) (a : string)
  (wallets : list string) (k : string) (r : Report F) :
  performTokenomicsAnalysis F env a wallets k = Returned r ->
  exists r3 r5,
    checkDistribution F (getTokenMeta env a) (getTopHolders env a 50) wallets
      (after_supplyMetrics F env a) = Returned r3
    /\ checkBurnAndMint F (getRecentTransactions env a 50)
         (checkLpAnalysis F env a k (getDexPairs env a) r3) = Returned r5
    /\ r = summarise F (classify F (getTokenMeta env a) r5).
Proof.
  unfold performTokenomicsAnalysis. cbv zeta.
  fold (after_supplyMetrics F env a). unfold bind.
  destruct (checkDistribution F _ _ wallets _) as [r3 | e] eqn:H3;
    [| discriminate].
  destruct (checkBurnAndMint F _ _) as [r5 | e] eqn:H5; [| discriminate].
  intros [= <-]. exists r3, r5. repeat split. exact H5.
Qed.

Lemma performTokenomicsAnalysis_compose (env : Providers) (a : string)
  (wallets : list string) (k : string) (r3 r5 : Report F) :
  checkDistribution F (getTokenMeta env a) (getTopHolders env a 50) wallets
    (after_supplyMetrics F env a) = Returned r3 ->
  checkBurnAndMint F (getRecentTransactions env a 50)
    (checkLpAnalysis F env a k (getDexPairs env a) r3) = Returned r5 ->
  performTokenomicsAnalysis F env a wallets k
  = Returned (summarise F (classify F (getTokenMeta env a) r5)).
Proof.
  intros H3 H5. unfold performTokenomicsAnalysis. cbv zeta.
  fold (after_supplyMetrics F env a). rewrite H3. cbn [bind]. rewrite H5.
  reflexivity.
Qed.

(** ** Step 1 and step 2 *)

Lemma after_supplyMetrics_cases (env : Providers) (a : string) :
  riskIndicators (after_supplyMetrics F env a)
  = basic_indicators (rpc_getMint env a)
  /\ distribution (after_supplyMetrics F env a) = Empty
  /\ lpAnalysis (after_supplyMetrics F env a) = Empty
  /\ burnAndMintActivity (after_supplyMetrics F env a) = Empty
  /\ estimatedCirculatingSupply (after_supplyMetrics F env a)
     = Some (of_Z F 0)
  /\ match rpc_getMint env a with
     | Resolved mintInfo =>
         is_populated (basicInfo (after_supplyMetrics F env a)) = true
         /\ is_populated (authorities (after_supplyMetrics F env a)) = true
         /\ basicInfo_decimals F (after_supplyMetrics F env a)
            = Some (mint_decimals mintInfo)
     | Rejected _ =>
         basicInfo (after_supplyMetrics F env a)
         = ErrorMarker "Failed to fetch on-chain mint info"
         /\ authorities (after_supplyMetrics F env a) = Empty
     end
  /\ match getTokenMeta env a with
     | Some m =>
         is_populated (supplyMetrics (after_supplyMetrics F env a)) = true
         /\ supplyMetrics_totalSupply F (after_supplyMetrics F env a)
            = Some (fdiv F (num_of_field F (meta_supply m))
                           (pow10 F (meta_decimals m)))
     | None =>
         supplyMetrics (after_supplyMetrics F env a)
         = ErrorMarker "Failed to fetch token meta"
         /\ supplyMetrics_totalSupply F (after_supplyMetrics F env a) = None
     end.
Proof.
  unfold after_supplyMetrics, basic_indicators, mint_active, freeze_active.
  destruct (rpc_getMint env a) as [mi | msg];
    destruct (getTokenMeta env a) as [m |]; cbn;
    try (destruct (present (mint_mintAuthority mi)),
                  (present (mint_freezeAuthority mi)); cbn);
    untouched.
Qed.

(** Whether the authorities section says the mint authority is active. *)
Lemma after_supplyMetrics_authorities (env : Providers) (a : string) :
  match rpc_getMint env a with
  | Resolved mintInfo =>
      mintAuthority_not_Active F (after_supplyMetrics F env a)
      = Returned (negb (present (mint_mintAuthority mintInfo)))
  | Rejected _ =>
      mintAuthority_not_Active F (after_supplyMetrics F env a)
      = Thrown (TypeError "Cannot read properties of undefined (reading 'includes')")
  end.
Proof.
  unfold after_supplyMetrics, mintAuthority_not_Active.
  destruct (rpc_getMint env a) as [mi | msg];
    destruct (getTokenMeta env a) as [m |]; cbn;
    try (destruct (present (mint_mintAuthority mi)),
                  (present (mint_freezeAuthority mi)); cbn);
    reflexivity.
Qed.

(** ** Step 3 *)

Lemma estimateCirculating_cases (wallets : list string)
  (topHolders : list Holder) (S : Z) (r r' : Report F) :
  estimateCirculating F wallets topHolders S r = Returned r' ->
  riskIndicators r' = riskIndicators r
  /\ distribution r' = distribution r
  /\ basicInfo r' = basicInfo r
  /\ supplyMetrics r' = supplyMetrics r
  /\ authorities r' = authorities r
  /\ lpAnalysis r' = lpAnalysis r
  /\ burnAndMintActivity r' = burnAndMintActivity r
  /\ match wallets with
     | [] => estimatedCirculatingSupply r' = supplyMetrics_totalSupply F r
     | _ :: _ =>
         exists unit_,
           BigInt_of_float F (pow10 F (basicInfo_decimals F r)) = Returned unit_
           /\ unit_ <> 0
           /\ estimatedCirculatingSupply r'
              = Some (of_Z F (Z.quot (S - lockedAmount_of wallets topHolders)
                                     unit_))
     end.
Proof.
  destruct wallets as [| w ws]; unfold estimateCirculating.
  - intros [= <-]. untouched.
  - cbv zeta. unfold bind.
    destruct (BigInt_of_float F _) as [u | e] eqn:Hu; [| discriminate].
    unfold bigint_div. destruct (Z.eqb_spec u 0) as [-> | Hne]; [discriminate |].
    intros [= <-]. repeat split.
    exists u. repeat split. exact Hne.
Qed.

Lemma checkDistribution_cases (tokenMeta : option TokenMeta)
  (topHolders : list Holder) (wallets : list string) (r r' : Report F) :
  checkDistribution F tokenMeta topHolders wallets r = Returned r' ->
  basicInfo r' = basicInfo r
  /\ supplyMetrics r' = supplyMetrics r
  /\ authorities r' = authorities r
  /\ lpAnalysis r' = lpAnalysis r
  /\ burnAndMintActivity r' = burnAndMintActivity r
  /\ match topHolders with
     | [] =>
         distribution r' = ErrorMarker "Failed to fetch holders"
         /\ riskIndicators r' = riskIndicators r
         /\ estimatedCirculatingSupply r' = estimatedCirculatingSupply r
     | _ :: _ =>
         exists totalSupply p,
           totalSupply_of F tokenMeta r = Returned totalSupply
           /\ sum_shares totalSupply (firstn 10 topHolders) = Returned p
           /\ is_populated (distribution r') = true
           /\ riskIndicators r' = riskIndicators r ++ concentration_flags p
           /\ match wallets with
              | [] => estimatedCirculatingSupply r'
                      = supplyMetrics_totalSupply F r
              | _ :: _ =>
                  exists unit_,
                    BigInt_of_float F (pow10 F (basicInfo_decimals F r))
                    = Returned unit_
                    /\ unit_ <> 0
                    /\ estimatedCirculatingSupply r'
                       = Some (of_Z F (Z.quot (totalSupply
                                               - lockedAmount_of wallets topHolders)
                                              unit_))
              end
     end.
Proof.
  destruct topHolders as [| h hs]; unfold checkDistribution.
  - intros [= <-]. untouched.
  - unfold bind.
    destruct (totalSupply_of F tokenMeta r) as [S | e]; [| discriminate].
    destruct (sum_shares S (firstn 10 (h :: hs))) as [p | e] eqn:Hp;
      [| discriminate].
    intros Hest. apply estimateCirculating_cases in Hest.
    destruct Hest as (Hi & Hd & Hb & Hs & Ha & Hl & Hbm & Hest).
    assert (Hframe : forall (r0 : Report F),
               basicInfo (concentration_rules F p r0) = basicInfo r0
               /\ supplyMetrics (concentration_rules F p r0) = supplyMetrics r0
               /\ authorities (concentration_rules F p r0) = authorities r0
               /\ lpAnalysis (concentration_rules F p r0) = lpAnalysis r0
               /\ burnAndMintActivity (concentration_rules F p r0)
                  = burnAndMintActivity r0
               /\ distribution (concentration_rules F p r0) = distribution r0
               /\ riskIndicators (concentration_rules F p r0)
                  = riskIndicators r0 ++ concentration_flags p
               /\ supplyMetrics_totalSupply F (concentration_rules F p r0)
                  = supplyMetrics_totalSupply F r0
               /\ basicInfo_decimals F (concentration_rules F p r0)
                  = basicInfo_decimals F r0).
    { intros r0. unfold concentration_rules, concentration_flags.
      destruct (num_gt p 50); [| destruct (num_gt p 20)]; cbn;
        rewrite ?app_nil_r; untouched. }
    match type of Hi with
    | riskIndicators r' = riskIndicators (concentration_rules F p ?r0) =>
        destruct (Hframe r0) as (Fb & Fs & Fa & Fl & Fbm & Fd & Fi & Fts & Fdec)
    end.
    rewrite Hb, Hs, Ha, Hl, Hbm, Fb, Fs, Fa, Fl, Fbm.
    repeat match goal with |- _ /\ _ => split end; try reflexivity.
    exists S, p. split; [reflexivity |]. split; [exact Hp |].
    split; [rewrite Hd, Fd; reflexivity |].
    split; [rewrite Hi, Fi; reflexivity |].
    destruct wallets as [| w ws].
    + rewrite Hest, Fts. reflexivity.
    + destruct Hest as (u & Hu & Hne & Hest). exists u.
      rewrite Fdec in Hu. split; [exact Hu |]. split; [exact Hne | exact Hest].
Qed.

(** ** Step 4 *)

Lemma enrichWithBirdeye_cases (env : Providers) (a k : string) (r : Report F) :
  riskIndicators (enrichWithBirdeye F env a k r)
  = riskIndicators r ++ (if lp_unlocked env a k then [UNLOCKED_LP] else [])
  /\ basicInfo (enrichWithBirdeye F env a k r) = basicInfo r
  /\ supplyMetrics (enrichWithBirdeye F env a k r) = supplyMetrics r
  /\ authorities (enrichWithBirdeye F env a k r) = authorities r
  /\ distribution (enrichWithBirdeye F env a k r) = distribution r
  /\ burnAndMintActivity (enrichWithBirdeye F env a k r) = burnAndMintActivity r
  /\ estimatedCirculatingSupply (enrichWithBirdeye F env a k r)
     = estimatedCirculatingSupply r
  /\ is_populated (lpAnalysis (enrichWithBirdeye F env a k r))
     = is_populated (lpAnalysis r).
Proof.
  unfold enrichWithBirdeye, lp_unlocked.
  destruct (String.eqb k ""); [cbn; rewrite app_nil_r; untouched |].
  destruct (getBirdeyeOverview env a k) as [o |];
    [| cbn; rewrite app_nil_r; untouched].
  unfold set_lpLocked, when.
  destruct (liquidity_locked o), (lpAnalysis r) eqn:Hlp; cbn;
    rewrite ?app_nil_r, ?Hlp; untouched.
Qed.

Lemma checkLpAnalysis_cases (env : Providers) (a k : string)
  (pairs : list Pair) (r : Report F) :
  riskIndicators (checkLpAnalysis F env a k pairs r)
  = riskIndicators r ++ lp_indicators env a k pairs
  /\ basicInfo (checkLpAnalysis F env a k pairs r) = basicInfo r
  /\ supplyMetrics (checkLpAnalysis F env a k pairs r) = supplyMetrics r
  /\ authorities (checkLpAnalysis F env a k pairs r) = authorities r
  /\ distribution (checkLpAnalysis F env a k pairs r) = distribution r
  /\ burnAndMintActivity (checkLpAnalysis F env a k pairs r)
     = burnAndMintActivity r
  /\ estimatedCirculatingSupply (checkLpAnalysis F env a k pairs r)
     = estimatedCirculatingSupply r
  /\ match pairs with
     | [] => lpAnalysis (checkLpAnalysis F env a k pairs r)
             = ErrorMarker "No DEX pairs found"
     | _ :: _ => is_populated (lpAnalysis (checkLpAnalysis F env a k pairs r))
                 = true
     end.
Proof.
  destruct pairs as [| first pairs]; [cbn; untouched |].
  unfold checkLpAnalysis. cbv zeta.
  change (Qltb _ (50000 # 1)) with (shallow_liquidity (first :: pairs)).
  match goal with
  | |- context [enrichWithBirdeye F env a k ?r0] =>
      destruct (enrichWithBirdeye_cases env a k r0)
        as (Hi & Hb & Hs & Ha & Hd & Hbm & He & Hl)
  end.
  rewrite Hi, Hb, Hs, Ha, Hd, Hbm, He, Hl. unfold lp_indicators, when.
  destruct (shallow_liquidity (first :: pairs)); cbn;
    rewrite <- ?app_assoc; untouched.
Qed.

(** ** Step 5 *)

Lemma fold_count_tx (recentTx : list Tx) (a0 : Activity F) :
  mints F (fold_left (count_tx F) recentTx a0)
  = mints F a0 + Z.of_nat (List.length (mint_txs recentTx))
  /\ burns F (fold_left (count_tx F) recentTx a0)
     = burns F a0 + Z.of_nat (List.length (burn_txs recentTx)).
Proof.
  revert a0. induction recentTx as [| tx txs IH]; intros a0; [cbn; lia |].
  cbn [fold_left]. destruct (IH (count_tx F a0 tx)) as [Hm Hb].
  rewrite Hm, Hb. unfold count_tx, mint_txs, burn_txs. cbn [filter].
  destruct (String.eqb (tx_type tx) "burn") eqn:Hburn.
  - apply String.eqb_eq in Hburn. rewrite Hburn. cbn. lia.
  - destruct (String.eqb (tx_type tx) "mint"); cbn [List.length mints burns];
      lia.
Qed.

Lemma checkBurnAndMint_cases (recentTx : list Tx) (r : Report F) :
  match mint_txs recentTx, mintAuthority_not_Active F r with
  | _ :: _, Thrown e => checkBurnAndMint F recentTx r = Thrown e
  | mintsSeen, notActive =>
      exists r',
        checkBurnAndMint F recentTx r = Returned r'
        /\ riskIndicators r'
           = riskIndicators r
             ++ (match mintsSeen, notActive with
                 | _ :: _, Returned true => [UNEXPECTED_MINTS]
                 | _, _ => []
                 end)
        /\ basicInfo r' = basicInfo r
        /\ supplyMetrics r' = supplyMetrics r
        /\ authorities r' = authorities r
        /\ distribution r' = distribution r
        /\ lpAnalysis r' = lpAnalysis r
        /\ estimatedCirculatingSupply r' = estimatedCirculatingSupply r
        /\ match recentTx with
           | [] => burnAndMintActivity r'
                   = ErrorMarker "Failed to fetch transactions"
           | _ :: _ =>
               exists b, burnAndMintActivity r' = Populated b
                         /\ recentMints F b
                            = Z.of_nat (List.length (mint_txs recentTx))
                         /\ recentBurns F b
                            = Z.of_nat (List.length (burn_txs recentTx))
           end
  end.
Proof.
  destruct recentTx as [| tx txs].
  - cbn. destruct (mintAuthority_not_Active F r);
      eexists; split; try reflexivity; cbn; rewrite app_nil_r; untouched.
  - unfold checkBurnAndMint. cbv zeta.
    destruct (fold_count_tx (tx :: txs)
                {| burns := 0; mints := 0; burned := of_Z F 0 |}) as [Hm Hb].
    cbn [mints burns] in Hm, Hb. rewrite Z.add_0_l in Hm, Hb.
    set (act := fold_left (count_tx F) (tx :: txs) _) in *.
    assert (Hauth : forall s,
               mintAuthority_not_Active F (set_burnAndMintActivity F s r)
               = mintAuthority_not_Active F r) by reflexivity.
    rewrite Hauth.
    destruct (mint_txs (tx :: txs)) as [| mtx mtxs] eqn:Hmints.
    + cbn [List.length] in Hm.
      replace (0 <? mints F act) with false by (symmetry; apply Z.ltb_ge; lia).
      cbn [bind when].
      assert (Hex : exists r',
                 Returned (when F (0 <? burns F act)
                             (push_note F "Deflationary mechanics detected via burns")
                             (set_burnAndMintActivity F
                                (Populated
                                   {| recentBurns := burns F act;
                                      burnedAmount :=
                                        fdiv F (burned F act)
                                          (pow10 F (basicInfo_decimals F r));
                                      recentMints := mints F act |}) r))
                 = Returned r'
                 /\ riskIndicators r' = riskIndicators r ++ []
                 /\ basicInfo r' = basicInfo r
                 /\ supplyMetrics r' = supplyMetrics r
                 /\ authorities r' = authorities r
                 /\ distribution r' = distribution r
                 /\ lpAnalysis r' = lpAnalysis r
                 /\ estimatedCirculatingSupply r' = estimatedCirculatingSupply r
                 /\ exists b, burnAndMintActivity r' = Populated b
                              /\ recentMints F b = Z.of_nat 0
                              /\ recentBurns F b
                                 = Z.of_nat (List.length (burn_txs (tx :: txs)))).
      { eexists. split; [reflexivity |]. unfold when.
        destruct (0 <? burns F act); cbn; rewrite app_nil_r;
          repeat split; eexists; repeat split; assumption. }
      destruct (mintAuthority_not_Active F r); exact Hex.
    + cbn [List.length] in Hm.
      replace (0 <? mints F act) with true by (symmetry; apply Z.ltb_lt; lia).
      destruct (mintAuthority_not_Active F r) as [unexpected | e];
        [| reflexivity].
      cbn [bind]. eexists. split; [reflexivity |]. unfold when.
      destruct unexpected, (0 <? burns F act); cbn; rewrite ?app_nil_r;
        repeat split; eexists; repeat split; assumption.
Qed.

(** ** The last two steps *)

Lemma classify_summarise_cases (tokenMeta : option TokenMeta) (r : Report F) :
  riskIndicators (summarise F (classify F tokenMeta r)) = riskIndicators r
  /\ basicInfo (summarise F (classify F tokenMeta r)) = basicInfo r
  /\ supplyMetrics (summarise F (classify F tokenMeta r)) = supplyMetrics r
  /\ authorities (summarise F (classify F tokenMeta r)) = authorities r
  /\ distribution (summarise F (classify F tokenMeta r)) = distribution r
  /\ lpAnalysis (summarise F (classify F tokenMeta r)) = lpAnalysis r
  /\ burnAndMintActivity (summarise F (classify F tokenMeta r))
     = burnAndMintActivity r
  /\ estimatedCirculatingSupply (summarise F (classify F tokenMeta r))
     = estimatedCirculatingSupply r
  /\ riskLevel (summarise F (classify F tokenMeta r))
     = Some (level_of (List.length (riskIndicators r))).
Proof.
  unfold summarise, classify.
  destruct (looks_like_memecoin tokenMeta); untouched.
Qed.

(** ** A whole run *)

Lemma mintAuthority_not_Active_ext (r r' : Report F) :
  authorities r' = authorities r ->
  mintAuthority_not_Active F r' = mintAuthority_not_Active F r.
Proof. unfold mintAuthority_not_Active. intros ->. reflexivity. Qed.

Lemma concentration_indicators_of (env : Providers) (a : string)
  (r3 : Report F) (wallets : list string) :
  checkDistribution F (getTokenMeta env a) (getTopHolders env a 50) wallets
    (after_supplyMetrics F env a) = Returned r3 ->
  riskIndicators r3
  = basic_indicators (rpc_getMint env a) ++ concentration_indicators F env a.
Proof.
  intros H3. apply checkDistribution_cases in H3.
  destruct (after_supplyMetrics_cases env a) as (Hi2 & _).
  unfold concentration_indicators, top10_of.
  destruct H3 as (_ & _ & _ & _ & _ & H3).
  destruct (getTopHolders env a 50) as [| h hs].
  - destruct H3 as (_ & Hi & _). rewrite Hi, Hi2, app_nil_r. reflexivity.
  - destruct H3 as (S & p & HS & Hp & _ & Hi & _).
    rewrite HS. cbn [bind]. rewrite Hp, Hi, Hi2. reflexivity.
Qed.

(** The report a run returns, section by section. *)
Lemma performTokenomicsAnalysis_report (env : Providers) (a : string)
  (wallets : list string) (k : string) (r : Report F) :
  performTokenomicsAnalysis F env a wallets k = Returned r ->
  exists r3,
    checkDistribution F (getTokenMeta env a) (getTopHolders env a 50) wallets
      (after_supplyMetrics F env a) = Returned r3
    /\ riskIndicators r = run_indicators F env a k
    /\ riskLevel r = Some (level_of (List.length (riskIndicators r)))
    /\ basicInfo r = basicInfo (after_supplyMetrics F env a)
    /\ supplyMetrics r = supplyMetrics (after_supplyMetrics F env a)
    /\ authorities r = authorities (after_supplyMetrics F env a)
    /\ distribution r = distribution r3
    /\ estimatedCirculatingSupply r = estimatedCirculatingSupply r3
    /\ match getDexPairs env a with
       | [] => lpAnalysis r = ErrorMarker "No DEX pairs found"
       | _ :: _ => is_populated (lpAnalysis r) = true
       end
    /\ match getRecentTransactions env a 50 with
       | [] => burnAndMintActivity r = ErrorMarker "Failed to fetch transactions"
       | _ :: _ =>
           exists b, burnAndMintActivity r = Populated b
                     /\ recentMints F b
                        = Z.of_nat (List.length
                                      (mint_txs (getRecentTransactions env a 50)))
                     /\ recentBurns F b
                        = Z.of_nat (List.length
                                      (burn_txs (getRecentTransactions env a 50)))
       end
    /\ (mint_txs (getRecentTransactions env a 50) <> [] ->
        exists mintInfo, rpc_getMint env a = Resolved mintInfo).
Proof.
  intros Hrun.
  destruct (performTokenomicsAnalysis_steps env a wallets k r Hrun)
    as (r3 & r5 & H3 & H5 & ->).
  exists r3. split; [exact H3 |].
  pose proof (concentration_indicators_of env a r3 wallets H3) as Hi3.
  destruct (checkDistribution_cases _ _ _ _ _ H3)
    as (Hb3 & Hs3 & Ha3 & _ & _ & _).
  destruct (checkLpAnalysis_cases env a k (getDexPairs env a) r3)
    as (Hi4 & Hb4 & Hs4 & Ha4 & Hd4 & _ & He4 & Hl4).
  set (r4 := checkLpAnalysis F env a k (getDexPairs env a) r3) in *.
  pose proof (checkBurnAndMint_cases (getRecentTransactions env a 50) r4) as H5c.
  rewrite (mintAuthority_not_Active_ext
             (after_supplyMetrics F env a) r4) in H5c
    by (rewrite Ha4, Ha3; reflexivity).
  pose proof (after_supplyMetrics_authorities env a) as Hauth.
  destruct (classify_summarise_cases (getTokenMeta env a) r5)
    as (Hi6 & Hb6 & Hs6 & Ha6 & Hd6 & Hl6 & Hbm6 & He6 & Hlvl).
  rewrite Hi6, Hb6, Hs6, Ha6, Hd6, Hl6, Hbm6, He6, Hlvl.
  assert (Hmain :
            riskIndicators r5
            = riskIndicators r4
              ++ mint_indicators (rpc_getMint env a)
                   (getRecentTransactions env a 50)
            /\ basicInfo r5 = basicInfo r4
            /\ supplyMetrics r5 = supplyMetrics r4
            /\ authorities r5 = authorities r4
            /\ distribution r5 = distribution r4
            /\ lpAnalysis r5 = lpAnalysis r4
            /\ estimatedCirculatingSupply r5 = estimatedCirculatingSupply r4
            /\ match getRecentTransactions env a 50 with
               | [] => burnAndMintActivity r5
                       = ErrorMarker "Failed to fetch transactions"
               | _ :: _ =>
                   exists b, burnAndMintActivity r5 = Populated b
                             /\ recentMints F b
                                = Z.of_nat
                                    (List.length
                                       (mint_txs (getRecentTransactions env a 50)))
                             /\ recentBurns F b
                                = Z.of_nat
                                    (List.length
                                       (burn_txs (getRecentTransactions env a 50)))
               end
            /\ (mint_txs (getRecentTransactions env a 50) <> [] ->
                exists mintInfo, rpc_getMint env a = Resolved mintInfo)).
  { unfold mint_indicators, unexpected_mints.
    destruct (rpc_getMint env a) as [mi | msg]; rewrite Hauth in H5c.
    - destruct (mint_txs (getRecentTransactions env a 50)) as [| mtx mtxs];
        destruct H5c as (r' & Hr' & Hi & Hrest);
        rewrite Hr' in H5; injection H5 as <-;
        (split; [rewrite Hi; destruct (present (mint_mintAuthority mi));
                 reflexivity |]);
        destruct Hrest as (Hb & Hs & Ha & Hd & Hl & He & Hbm);
        repeat (split; [assumption |]); intros _; exists mi; reflexivity.
    - destruct (mint_txs (getRecentTransactions env a 50)) as [| mtx mtxs].
      + destruct H5c as (r' & Hr' & Hi & Hrest).
        rewrite Hr' in H5; injection H5 as <-.
        split; [rewrite Hi; reflexivity |].
        destruct Hrest as (Hb & Hs & Ha & Hd & Hl & He & Hbm).
        repeat (split; [assumption |]). congruence.
      + rewrite H5c in H5. discriminate. }
  destruct Hmain as (Hi5 & Hb5 & Hs5 & Ha5 & Hd5 & Hl5 & He5 & Hbm5 & Hmints).
  rewrite Hb5, Hs5, Ha5, Hd5, Hl5, He5, Hb4, Hs4, Ha4, Hd4, He4, Hb3, Hs3, Ha3.
  assert (Hind : riskIndicators r5 = run_indicators F env a k).
  { rewrite Hi5, Hi4, Hi3. unfold run_indicators. rewrite <- !app_assoc.
    reflexivity. }
  rewrite Hind.
  repeat (split; [reflexivity |]).
  split; [exact Hl4 |]. split; [exact Hbm5 | exact Hmints].
Qed.

(** ** Which indicator comes from which step *)

Lemma basic_indicators_in_order (mint : fetch MintInfo) :
  Subseq (basic_indicators mint) [MINT_INFLATION; FREEZE_ACCOUNTS].
Proof.
  unfold basic_indicators.
  destruct (mint_active mint), (freeze_active mint); cbn; in_order.
Qed.

Lemma concentration_indicators_in_order (env : Providers) (a : string) :
  Subseq (concentration_indicators F env a) [HIGH_WHALE; MODERATE_CONCENTRATION].
Proof.
  unfold concentration_indicators.
  destruct (getTopHolders env a 50) as [| h hs]; [apply Subseq_nil_l |].
  destruct (top10_of F env a) as [p | e]; [| apply Subseq_nil_l].
  unfold concentration_flags.
  destruct (num_gt p 50); [| destruct (num_gt p 20)]; in_order.
Qed.

Lemma lp_indicators_in_order (env : Providers) (a k : string)
  (pairs : list Pair) :
  Subseq (lp_indicators env a k pairs)
         [SHALLOW_LIQUIDITY; UNLOCKED_LP; NO_LIQUIDITY].
Proof.
  unfold lp_indicators. destruct pairs as [| first pairs]; [in_order |].
  destruct (shallow_liquidity (first :: pairs)), (lp_unlocked env a k); cbn;
    in_order.
Qed.

Lemma mint_indicators_in_order (mint : fetch MintInfo) (recentTx : list Tx) :
  Subseq (mint_indicators mint recentTx) [UNEXPECTED_MINTS].
Proof.
  unfold mint_indicators. destruct (unexpected_mints mint recentTx); in_order.
Qed.

Lemma run_indicators_in_order (env : Providers) (a k : string) :
  Subseq (run_indicators F env a k) indicator_order.
Proof.
  unfold run_indicators.
  change indicator_order
    with ([MINT_INFLATION; FREEZE_ACCOUNTS]
          ++ [HIGH_WHALE; MODERATE_CONCENTRATION]
          ++ [SHALLOW_LIQUIDITY; UNLOCKED_LP; NO_LIQUIDITY]
          ++ [UNEXPECTED_MINTS]).
  apply Subseq_app; [| apply Subseq_app; [| apply Subseq_app]].
  - apply basic_indicators_in_order.
  - apply concentration_indicators_in_order.
  - apply lp_indicators_in_order.
  - apply mint_indicators_in_order.
Qed.

Lemma in_run_indicators (env : Providers) (a k : string) (f : string) :
  In f (run_indicators F env a k)
  <-> (In f [MINT_INFLATION; FREEZE_ACCOUNTS]
       /\ In f (basic_indicators (rpc_getMint env a)))
      \/ (In f [HIGH_WHALE; MODERATE_CONCENTRATION]
          /\ In f (concentration_indicators F env a))
      \/ (In f [SHALLOW_LIQUIDITY; UNLOCKED_LP; NO_LIQUIDITY]
          /\ In f (lp_indicators env a k (getDexPairs env a)))
      \/ (In f [UNEXPECTED_MINTS]
          /\ In f (mint_indicators (rpc_getMint env a)
                     (getRecentTransactions env a 50))).
Proof.
  unfold run_indicators. rewrite !in_app_iff.
  pose proof (Subseq_In _ _ f (basic_indicators_in_order (rpc_getMint env a))).
  pose proof (Subseq_In _ _ f (concentration_indicators_in_order env a)).
  pose proof (Subseq_In _ _ f (lp_indicators_in_order env a k (getDexPairs env a))).
  pose proof (Subseq_In _ _ f (mint_indicators_in_order (rpc_getMint env a)
                                 (getRecentTransactions env a 50))).
  tauto.
Qed.

Ltac from_step Hpiece :=
  let H := fresh "Hin" in
  let Hv := fresh "Hv" in
  split; intros H;
  [ apply in_run_indicators in H;
    destruct H as [[Hv H] | [[Hv H] | [[Hv H] | [Hv H]]]];
    first [ apply Hpiece, H | cbn in Hv; exfalso; intuition discriminate ]
  | apply in_run_indicators; apply Hpiece in H;
    first [ left; split; [cbn; auto 10 | exact H]
          | right; left; split; [cbn; auto 10 | exact H]
          | right; right; left; split; [cbn; auto 10 | exact H]
          | right; right; right; split; [cbn; auto 10 | exact H] ] ].

Lemma in_basic_indicators (mint : fetch MintInfo) :
  (In MINT_INFLATION (basic_indicators mint) <-> mint_active mint = true)
  /\ (In FREEZE_ACCOUNTS (basic_indicators mint) <-> freeze_active mint = true).
Proof.
  unfold basic_indicators.
  destruct (mint_active mint), (freeze_active mint); cbn; split;
    intuition discriminate.
Qed.

Lemma in_lp_indicators (env : Providers) (a k : string) (pairs : list Pair) :
  (In SHALLOW_LIQUIDITY (lp_indicators env a k pairs)
   <-> shallow_liquidity pairs = true)
  /\ (In UNLOCKED_LP (lp_indicators env a k pairs)
      <-> pairs <> [] /\ lp_unlocked env a k = true)
  /\ (In NO_LIQUIDITY (lp_indicators env a k pairs) <-> pairs = []).
Proof.
  unfold lp_indicators. destruct pairs as [| first pairs].
  - cbn. repeat split; try intuition discriminate; try congruence.
  - destruct (shallow_liquidity (first :: pairs)), (lp_unlocked env a k); cbn;
      repeat split; try intuition discriminate; try congruence.
Qed.

Lemma in_mint_indicators (mint : fetch MintInfo) (recentTx : list Tx) :
  In UNEXPECTED_MINTS (mint_indicators mint recentTx)
  <-> unexpected_mints mint recentTx = true.
Proof.
  unfold mint_indicators. destruct (unexpected_mints mint recentTx); cbn;
    intuition discriminate.
Qed.

Lemma unexpected_mints_iff (mint : fetch MintInfo) (recentTx : list Tx) :
  unexpected_mints mint recentTx = true
  <-> (exists tx, In tx recentTx /\ tx_type tx = "mint")
      /\ exists mintInfo, mint = Resolved mintInfo
                          /\ mint_mintAuthority mintInfo = None.
Proof.
  unfold unexpected_mints.
  destruct (mint_txs recentTx) as [| mtx mtxs] eqn:Hm.
  - split; [discriminate |]. intros [(tx & Hin & Hty) _].
    assert (Hin' : In tx (mint_txs recentTx)).
    { unfold mint_txs. apply filter_In. split; [exact Hin |].
      apply String.eqb_eq, Hty. }
    rewrite Hm in Hin'. contradiction.
  - assert (Hex : exists tx, In tx recentTx /\ tx_type tx = "mint").
    { exists mtx. assert (Hin : In mtx (mint_txs recentTx))
        by (rewrite Hm; left; reflexivity).
      unfold mint_txs in Hin. apply filter_In in Hin.
      destruct Hin as [Hin Hty]. split; [exact Hin | apply String.eqb_eq, Hty]. }
    destruct mint as [mi | msg].
    + destruct (mint_mintAuthority mi) as [auth |] eqn:Hauth; cbn; split;
        try discriminate.
      * intros [_ (mi' & [= <-] & H)]. congruence.
      * intros _. split; [exact Hex |]. exists mi. split; [reflexivity | exact Hauth].
      * reflexivity.
    + split; [discriminate |]. intros [_ (mi' & H & _)]. discriminate.
Qed.

(** X8.  An indicator is in a returned tokenomics report exactly when its
    condition holds: the two authority indicators on the mint account,
    "Shallow liquidity" on a main pair below $50,000, "Unlocked LP" when
    pairs were found, a Birdeye key was given and Birdeye answered that the
    liquidity is not locked, "No liquidity detected" on an empty pair list,
    and "Unexpected mints" when a recent transaction is of type 'mint' while
    the mint account shows no mint authority. *)
Theorem indicator_iff_condition (env : Providers) (tokenAddress : string)
  (knownVestingWallets : list string) (birdeyeApiKey : string) (r : Report F) :
  performTokenomicsAnalysis F env tokenAddress knownVestingWallets birdeyeApiKey
  = Returned r ->
  (In MINT_INFLATION (riskIndicators r)
   <-> mint_active (rpc_getMint env tokenAddress) = true)
  /\ (In FREEZE_ACCOUNTS (riskIndicators r)
      <-> freeze_active (rpc_getMint env tokenAddress) = true)
  /\ (In SHALLOW_LIQUIDITY (riskIndicators r)
      <-> shallow_liquidity (getDexPairs env tokenAddress) = true)
  /\ (In UNLOCKED_LP (riskIndicators r)
      <-> getDexPairs env tokenAddress <> []
          /\ birdeyeApiKey <> ""
          /\ exists o, getBirdeyeOverview env tokenAddress birdeyeApiKey = Some o
                       /\ liquidity_locked o = false)
  /\ (In NO_LIQUIDITY (riskIndicators r) <-> getDexPairs env tokenAddress = [])
  /\ (In UNEXPECTED_MINTS (riskIndicators r)
      <-> (exists tx, In tx (getRecentTransactions env tokenAddress 50)
                      /\ tx_type tx = "mint")
          /\ exists mintInfo, rpc_getMint env tokenAddress = Resolved mintInfo
                              /\ mint_mintAuthority mintInfo = None).
Proof.
  intros Hrun.
  destruct (performTokenomicsAnalysis_report env tokenAddress
              knownVestingWallets birdeyeApiKey r Hrun) as (r3 & _ & Hi & _).
  rewrite Hi.
  destruct (in_basic_indicators (rpc_getMint env tokenAddress)) as [Hm Hf].
  destruct (in_lp_indicators env tokenAddress birdeyeApiKey
              (getDexPairs env tokenAddress)) as (Hs & Hu & Hn).
  pose proof (in_mint_indicators (rpc_getMint env tokenAddress)
                (getRecentTransactions env tokenAddress 50)) as Hx.
  rewrite unexpected_mints_iff in Hx.
  assert (Hu' : In UNLOCKED_LP
                  (lp_indicators env tokenAddress birdeyeApiKey
                     (getDexPairs env tokenAddress))
                <-> getDexPairs env tokenAddress <> []
                    /\ birdeyeApiKey <> ""
                    /\ exists o,
                         getBirdeyeOverview env tokenAddress birdeyeApiKey = Some o
                         /\ liquidity_locked o = false).
  { rewrite Hu. unfold lp_unlocked.
    destruct (String.eqb_spec birdeyeApiKey "") as [-> | Hk].
    - split; [intros [_ H]; discriminate | intros (_ & H & _); congruence].
    - destruct (getBirdeyeOverview env tokenAddress birdeyeApiKey) as [o |].
      + destruct (liquidity_locked o) eqn:Hl; cbn; split.
        * intros [_ H]; discriminate.
        * intros (_ & _ & o' & [= <-] & H). congruence.
        * intros [Hp _]. repeat split; try assumption. exists o. split; auto.
        * intros (Hp & _). split; [exact Hp | reflexivity].
      + split; [intros [_ H]; discriminate |].
        intros (_ & _ & o' & H & _). discriminate. }
  repeat match goal with |- _ /\ _ => split end.
  - from_step Hm.
  - from_step Hf.
  - from_step Hs.
  - from_step Hu'.
  - from_step Hn.
  - from_step Hx.
Qed.

(** Indicators that exclude each other cap the count at five. *)
Lemma run_indicators_length (env : Providers) (a k : string) :
  (List.length (run_indicators F env a k) <= 5)%nat.
Proof.
  unfold run_indicators, basic_indicators, mint_indicators, unexpected_mints,
    mint_active.
  rewrite !length_app.
  pose proof (Subseq_length _ _ (concentration_indicators_in_order env a)) as Hc.
  assert (Hc' : (List.length (concentration_indicators F env a) <= 1)%nat).
  { unfold concentration_indicators.
    destruct (getTopHolders env a 50) as [| h hs]; [cbn; lia |].
    destruct (top10_of F env a) as [p | e]; [| cbn; lia].
    unfold concentration_flags.
    destruct (num_gt p 50); [| destruct (num_gt p 20)]; cbn; lia. }
  assert (Hl : (List.length (lp_indicators env a k (getDexPairs env a)) <= 2)%nat).
  { unfold lp_indicators. destruct (getDexPairs env a) as [| first pairs];
      [cbn; lia |].
    destruct (shallow_liquidity (first :: pairs)), (lp_unlocked env a k); cbn;
      lia. }
  destruct (rpc_getMint env a) as [mi | msg]; cbn [freeze_active].
  - destruct (present (mint_mintAuthority mi)),
             (present (mint_freezeAuthority mi)),
             (mint_txs (getRecentTransactions env a 50)); cbn; lia.
  - destruct (mint_txs (getRecentTransactions env a 50)); cbn; lia.
Qed.

Lemma indicator_order_NoDup : NoDup indicator_order.
Proof.
  unfold indicator_order.
  repeat (constructor; [cbn; intuition discriminate |]). constructor.
Qed.

(** X9.  The indicators of a returned tokenomics report keep the order in
    which the source pushes them, none occurs twice and there are at most
    five; the risk level is 'High' exactly for four or five indicators,
    'Medium' for two or three and 'Low' for at most one. *)
Theorem riskLevel_by_indicator_count (env : Providers) (tokenAddress : string)
  (knownVestingWallets : list string) (birdeyeApiKey : string) (r : Report F) :
  performTokenomicsAnalysis F env tokenAddress knownVestingWallets birdeyeApiKey
  = Returned r ->
  Subseq (riskIndicators r) indicator_order
  /\ NoDup (riskIndicators r)
  /\ (List.length (riskIndicators r) <= 5)%nat
  /\ (riskLevel r = Some "High" <-> (4 <= List.length (riskIndicators r))%nat)
  /\ (riskLevel r = Some "Medium"
      <-> (2 <= List.length (riskIndicators r) <= 3)%nat)
  /\ (riskLevel r = Some "Low" <-> (List.length (riskIndicators r) <= 1)%nat).
Proof.
  intros Hrun.
  destruct (performTokenomicsAnalysis_report env tokenAddress
              knownVestingWallets birdeyeApiKey r Hrun)
    as (r3 & _ & Hi & Hlvl & _).
  rewrite Hlvl, Hi.
  pose proof (run_indicators_in_order env tokenAddress birdeyeApiKey) as Hsub.
  pose proof (run_indicators_length env tokenAddress birdeyeApiKey) as Hlen.
  split; [exact Hsub |].
  split; [exact (Subseq_NoDup _ _ Hsub indicator_order_NoDup) |].
  split; [exact Hlen |].
  set (n := List.length (run_indicators F env tokenAddress birdeyeApiKey)) in *.
  unfold level_of.
  destruct (Nat.ltb_spec 3 n); [| destruct (Nat.ltb_spec 1 n)];
    repeat split; intros; try lia; try discriminate; reflexivity.
Qed.

(** ** Sections, aborts and the supply estimate *)

(** X10.  In a returned tokenomics report every section but [authorities]
    is populated exactly when its source delivered data and carries its
    error marker otherwise.  After a chain failure the error marker is
    written into [basicInfo] only: [authorities] is left as the empty
    object. *)
Theorem tokenomics_sections (env : Providers) (tokenAddress : string)
  (knownVestingWallets : list string) (birdeyeApiKey : string) (r : Report F) :
  performTokenomicsAnalysis F env tokenAddress knownVestingWallets birdeyeApiKey
  = Returned r ->
  match rpc_getMint env tokenAddress with
  | Resolved _ => is_populated (basicInfo r) = true
                  /\ is_populated (authorities r) = true
  | Rejected _ => basicInfo r = ErrorMarker "Failed to fetch on-chain mint info"
                  /\ authorities r = Empty
  end
  /\ match getTokenMeta env tokenAddress with
     | Some _ => is_populated (supplyMetrics r) = true
     | None => supplyMetrics r = ErrorMarker "Failed to fetch token meta"
     end
  /\ match getTopHolders env tokenAddress 50 with
     | _ :: _ => is_populated (distribution r) = true
     | [] => distribution r = ErrorMarker "Failed to fetch holders"
     end
  /\ match getDexPairs env tokenAddress with
     | _ :: _ => is_populated (lpAnalysis r) = true
     | [] => lpAnalysis r = ErrorMarker "No DEX pairs found"
     end
  /\ match getRecentTransactions env tokenAddress 50 with
     | _ :: _ =>
         exists b, burnAndMintActivity r = Populated b
                   /\ recentMints F b
                      = Z.of_nat (List.length
                                    (mint_txs
                                       (getRecentTransactions env tokenAddress 50)))
                   /\ recentBurns F b
                      = Z.of_nat (List.length
                                    (burn_txs
                                       (getRecentTransactions env tokenAddress 50)))
     | [] => burnAndMintActivity r = ErrorMarker "Failed to fetch transactions"
     end.
Proof.
  intros Hrun.
  destruct (performTokenomicsAnalysis_report env tokenAddress
              knownVestingWallets birdeyeApiKey r Hrun)
    as (r3 & H3 & _ & _ & Hb & Hs & Ha & Hd & _ & Hl & Hbm & _).
  destruct (after_supplyMetrics_cases env tokenAddress)
    as (_ & _ & _ & _ & _ & Hmint & Hmeta).
  destruct (checkDistribution_cases _ _ _ _ _ H3) as (_ & _ & _ & _ & _ & Hdist).
  rewrite Hb, Hs, Ha, Hd.
  repeat match goal with |- _ /\ _ => split end.
  - destruct (rpc_getMint env tokenAddress) as [mi | msg];
      [destruct Hmint as (H1 & H2 & _); split; assumption | exact Hmint].
  - destruct (getTokenMeta env tokenAddress) as [m |];
      [apply Hmeta | apply Hmeta].
  - destruct (getTopHolders env tokenAddress 50) as [| h hs];
      [apply Hdist |].
    destruct Hdist as (S & p & _ & _ & Hpop & _). exact Hpop.
  - destruct (getDexPairs env tokenAddress); exact Hl.
  - destruct (getRecentTransactions env tokenAddress 50); exact Hbm.
Qed.

(** X11.  After a chain failure a tokenomics run with a recent 'mint'
    transaction returns no report: step 5 reads [includes] of the undefined
    [authorities.mintAuthority], and a TypeError escapes unless step 3 raised
    before.  It returns no report either when holders and vesting wallets
    are given, since [BigInt(Math.pow(10, undefined))] is not defined. *)
Theorem tokenomics_chain_failure_aborts (env : Providers) (tokenAddress : string)
  (knownVestingWallets : list string) (birdeyeApiKey : string) (msg : string) :
  rpc_getMint env tokenAddress = Rejected msg ->
  (mint_txs (getRecentTransactions env tokenAddress 50) <> [] ->
   (forall r, performTokenomicsAnalysis F env tokenAddress knownVestingWallets
                birdeyeApiKey <> Returned r)
   /\ (getTopHolders env tokenAddress 50 = [] ->
       performTokenomicsAnalysis F env tokenAddress knownVestingWallets
         birdeyeApiKey
       = Thrown (TypeError "Cannot read properties of undefined (reading 'includes')")))
  /\ (to_bigint F (pow10 F None) = None ->
      knownVestingWallets <> [] ->
      getTopHolders env tokenAddress 50 <> [] ->
      forall r, performTokenomicsAnalysis F env tokenAddress knownVestingWallets
                  birdeyeApiKey <> Returned r).
Proof.
  intros Hmint. split.
  - intros Hmints. split.
    + intros r Hrun.
      destruct (performTokenomicsAnalysis_report env tokenAddress
                  knownVestingWallets birdeyeApiKey r Hrun)
        as (_ & _ & _ & _ & _ & _ & _ & _ & _ & _ & _ & Hres).
      destruct (Hres Hmints) as (mi & Hmi). congruence.
    + intros Hholders.
      unfold performTokenomicsAnalysis. cbv zeta.
      fold (after_supplyMetrics F env tokenAddress). rewrite Hholders.
      cbn [checkDistribution bind].
      match goal with
      | |- context [checkBurnAndMint F ?txs ?r4] =>
          pose proof (checkBurnAndMint_cases txs r4) as H5;
          rewrite (mintAuthority_not_Active_ext
                     (after_supplyMetrics F env tokenAddress) r4) in H5
      end.
      * pose proof (after_supplyMetrics_authorities env tokenAddress) as Hauth.
        rewrite Hmint in Hauth. rewrite Hauth in H5.
        destruct (mint_txs (getRecentTransactions env tokenAddress 50));
          [congruence |].
        rewrite H5. reflexivity.
      * destruct (checkLpAnalysis_cases env tokenAddress birdeyeApiKey
                    (getDexPairs env tokenAddress)
                    (set_distribution F (ErrorMarker "Failed to fetch holders")
                       (after_supplyMetrics F env tokenAddress)))
          as (_ & _ & _ & Ha & _).
        rewrite Ha. reflexivity.
  - intros Hnan Hwallets Hholders r Hrun.
    destruct (performTokenomicsAnalysis_steps env tokenAddress
                knownVestingWallets birdeyeApiKey r Hrun) as (r3 & _ & H3 & _).
    destruct (checkDistribution_cases _ _ _ _ _ H3) as (_ & _ & _ & _ & _ & Hd).
    destruct (getTopHolders env tokenAddress 50) as [| h hs]; [congruence |].
    destruct Hd as (S & p & _ & _ & _ & _ & Hest).
    destruct knownVestingWallets as [| w ws]; [congruence |].
    destruct Hest as (u & Hu & _).
    destruct (after_supplyMetrics_cases env tokenAddress)
      as (_ & _ & _ & _ & _ & Hb & _).
    rewrite Hmint in Hb. destruct Hb as [Hb _].
    unfold basicInfo_decimals in Hu. rewrite Hb in Hu.
    unfold BigInt_of_float in Hu. rewrite Hnan in Hu. discriminate.
Qed.

(** X12.  Without vesting wallets the circulating-supply estimate of a
    returned report is the normalized metadata supply, [undefined] when the
    metadata could not be fetched, and it stays at the initial 0 when no
    holder list arrived.  With vesting wallets and holders it is the
    truncated quotient of [totalSupply - lockedAmount] by
    [BigInt(Math.pow(10, decimals))], which is then a non-zero integer. *)
Theorem circulating_supply_estimate (env : Providers) (tokenAddress : string)
  (knownVestingWallets : list string) (birdeyeApiKey : string) (r : Report F) :
  performTokenomicsAnalysis F env tokenAddress knownVestingWallets birdeyeApiKey
  = Returned r ->
  match getTopHolders env tokenAddress 50, knownVestingWallets with
  | [], _ => estimatedCirculatingSupply r = Some (of_Z F 0)
  | _ :: _, [] =>
      estimatedCirculatingSupply r
      = match getTokenMeta env tokenAddress with
        | Some m => Some (fdiv F (num_of_field F (meta_supply m))
                                 (pow10 F (meta_decimals m)))
        | None => None
        end
  | _ :: _, _ :: _ =>
      exists totalSupply unit_,
        totalSupply_of F (getTokenMeta env tokenAddress)
          (after_supplyMetrics F env tokenAddress) = Returned totalSupply
        /\ to_bigint F
             (pow10 F (match rpc_getMint env tokenAddress with
                       | Resolved mintInfo => Some (mint_decimals mintInfo)
                       | Rejected _ => None
                       end)) = Some unit_
        /\ unit_ <> 0
        /\ estimatedCirculatingSupply r
           = Some (of_Z F (Z.quot (totalSupply
                                   - lockedAmount_of knownVestingWallets
                                       (getTopHolders env tokenAddress 50))
                                  unit_))
  end.
Proof.
  intros Hrun.
  destruct (performTokenomicsAnalysis_report env tokenAddress
              knownVestingWallets birdeyeApiKey r Hrun)
    as (r3 & H3 & _ & _ & _ & _ & _ & _ & He & _).
  destruct (after_supplyMetrics_cases env tokenAddress)
    as (_ & _ & _ & _ & He2 & Hmint & Hmeta).
  destruct (checkDistribution_cases _ _ _ _ _ H3) as (_ & _ & _ & _ & _ & Hd).
  rewrite He.
  destruct (getTopHolders env tokenAddress 50) as [| h hs].
  - destruct Hd as (_ & _ & ->). exact He2.
  - destruct Hd as (S & p & HS & _ & _ & _ & Hest).
    destruct knownVestingWallets as [| w ws].
    + rewrite Hest.
      destruct (getTokenMeta env tokenAddress) as [m |]; apply Hmeta.
    + destruct Hest as (u & Hu & Hne & Hest).
      assert (Hdec : basicInfo_decimals F (after_supplyMetrics F env tokenAddress)
                     = match rpc_getMint env tokenAddress with
                       | Resolved mintInfo => Some (mint_decimals mintInfo)
                       | Rejected _ => None
                       end).
      { destruct (rpc_getMint env tokenAddress) as [mi | msg].
        - apply Hmint.
        - destruct Hmint as [Hb _]. unfold basicInfo_decimals. rewrite Hb.
          reflexivity. }
      rewrite Hdec in Hu. unfold BigInt_of_float in Hu.
      destruct (to_bigint F _) as [u' |] eqn:Hb; [| discriminate].
      injection Hu as ->.
      exists S, u. repeat split; assumption.
Qed.

Lemma fold_lockedAmount (wallets : list string) (topHolders : list Holder)
  (acc : Z) :
  fold_left
    (fun lockedAmount holder =>
       if existsb (String.eqb (holder_owner holder)) wallets
       then lockedAmount + holder_amount holder else lockedAmount)
    topHolders acc
  = acc + total_amount (vested_holders wallets topHolders).
Proof.
  revert acc. induction topHolders as [| h hs IH]; intros acc; [cbn; lia |].
  cbn [fold_left]. rewrite IH. unfold vested_holders. cbn [filter].
  destruct (existsb (String.eqb (holder_owner h)) wallets);
    cbn [total_amount fold_right]; fold (total_amount
      (filter (fun h0 => existsb (String.eqb (holder_owner h0)) wallets) hs));
    lia.
Qed.

Lemma existsb_owner_iff (owner : string) (wallets : list string) :
  existsb (String.eqb owner) wallets = true <-> In owner wallets.
Proof.
  rewrite existsb_exists. split.
  - intros (w & Hin & Heq). apply String.eqb_eq in Heq. subst. exact Hin.
  - intros Hin. exists owner. split; [exact Hin | apply String.eqb_refl].
Qed.

Lemma vested_holders_ext (ws1 ws2 : list string) (hs : list Holder) :
  (forall w, In w ws1 <-> In w ws2) ->
  vested_holders ws1 hs = vested_holders ws2 hs.
Proof.
  intros Hsame. unfold vested_holders. apply filter_ext. intros h.
  destruct (existsb (String.eqb (holder_owner h)) ws1) eqn:H1;
    destruct (existsb (String.eqb (holder_owner h)) ws2) eqn:H2;
    try reflexivity.
  - apply existsb_owner_iff, Hsame, existsb_owner_iff in H1. congruence.
  - apply existsb_owner_iff, Hsame, existsb_owner_iff in H2. congruence.
Qed.

Lemma total_amount_filter_bounds (f : Holder -> bool) (hs : list Holder) :
  Forall (fun h => 0 <= holder_amount h) hs ->
  0 <= total_amount (filter f hs) <= total_amount hs.
Proof.
  intros Hall. induction Hall as [| h hs Hh _ IH]; [cbn; lia |].
  cbn [filter total_amount fold_right]. fold (total_amount hs).
  destruct (f h); cbn [total_amount fold_right];
    fold (total_amount (filter f hs)); lia.
Qed.

(** X13.  The locked amount is the sum of the balances of the listed holders
    whose owner is one of the known wallets: each holder row counts once,
    however often or in whatever order the wallets are given, and with
    balances that are not negative it lies between 0 and the sum of all
    listed balances. *)
Theorem lockedAmount_counts_vested_holders (wallets : list string)
  (topHolders : list Holder) :
  lockedAmount_of wallets topHolders
  = total_amount (vested_holders wallets topHolders)
  /\ (forall h, In h (vested_holders wallets topHolders)
                <-> In h topHolders /\ In (holder_owner h) wallets)
  /\ (forall wallets',
        (forall w, In w wallets <-> In w wallets') ->
        lockedAmount_of wallets' topHolders = lockedAmount_of wallets topHolders)
  /\ (Forall (fun h => 0 <= holder_amount h) topHolders ->
      0 <= lockedAmount_of wallets topHolders <= total_amount topHolders).
Proof.
  assert (Heq : forall ws, lockedAmount_of ws topHolders
                           = total_amount (vested_holders ws topHolders)).
  { intros ws. unfold lockedAmount_of. rewrite fold_lockedAmount. lia. }
  split; [apply Heq |]. split; [| split].
  - intros h. unfold vested_holders. rewrite filter_In, existsb_owner_iff.
    reflexivity.
  - intros ws' Hsame. rewrite !Heq.
    rewrite (vested_holders_ext wallets ws' topHolders Hsame). reflexivity.
  - intros Hall. rewrite Heq. apply total_amount_filter_bounds, Hall.
Qed.

(** ** The two liquidity thresholds *)

(** X14.  On the same DEX answer the tokenomics analysis is the stricter
    one: whenever the security checks flag "Tiny LP (<$20k)" the tokenomics
    report has "Shallow liquidity (<$50k)", and the tokenomics indicator
    stands without the security flag exactly when the main pair holds at
    least $20,000 and less than $50,000. *)
Theorem shallow_covers_tiny (securityEnv : SecurityChecks.Providers)
  (env : Providers) (tokenAddress : string)
  (knownVestingWallets : list string) (birdeyeApiKey : string)
  (rs : SecurityChecks.Report) (rt : Report F) :
  SecurityChecks.dexscreener_pairs securityEnv tokenAddress
  = dexscreener_pairs env tokenAddress ->
  SecurityChecks.performSecurityChecks securityEnv tokenAddress = Returned rs ->
  performTokenomicsAnalysis F env tokenAddress knownVestingWallets birdeyeApiKey
  = Returned rt ->
  (In SecurityChecks.TINY_LP (SecurityChecks.flags rs) ->
   In SHALLOW_LIQUIDITY (riskIndicators rt))
  /\ (In SHALLOW_LIQUIDITY (riskIndicators rt)
      /\ ~ In SecurityChecks.TINY_LP (SecurityChecks.flags rs)
      <-> exists first rest,
            getDexPairs env tokenAddress = first :: rest
            /\ (20000 # 1
                <= liquidity_or_zero (mainPair_of first (first :: rest)))%Q
            /\ (liquidity_or_zero (mainPair_of first (first :: rest))
                < 50000 # 1)%Q).
Proof.
  intros Hsame Hs Ht.
  pose proof (in_flags_tiny securityEnv tokenAddress rs Hs) as Htiny.
  assert (Hpairs : SecurityChecks.getDexPairs securityEnv tokenAddress
                   = getDexPairs env tokenAddress).
  { unfold SecurityChecks.getDexPairs, getDexPairs. rewrite Hsame. reflexivity. }
  rewrite Hpairs in Htiny.
  destruct (performTokenomicsAnalysis_report env tokenAddress
              knownVestingWallets birdeyeApiKey rt Ht) as (r3 & _ & Hi & _).
  assert (Hshallow : In SHALLOW_LIQUIDITY (riskIndicators rt)
                     <-> shallow_liquidity (getDexPairs env tokenAddress) = true).
  { rewrite Hi.
    destruct (in_lp_indicators env tokenAddress birdeyeApiKey
                (getDexPairs env tokenAddress)) as (Hsh & _ & _).
    from_step Hsh. }
  rewrite Hshallow, Htiny.
  unfold shallow_liquidity, SecurityChecks.tiny_liquidity,
    SecurityChecks.mainPair_liquidity.
  destruct (getDexPairs env tokenAddress) as [| first rest].
  - split; [discriminate |]. split.
    + intros [H _]. discriminate.
    + intros (f & l & H & _). discriminate.
  - fold (liquidity_or_zero (mainPair_of first (first :: rest))).
    set (usd := liquidity_or_zero (mainPair_of first (first :: rest))).
    rewrite !Qltb_lt. split.
    + intros H. eapply Qlt_trans; [exact H | reflexivity].
    + split.
      * intros [Hlt Hge]. exists first, rest. split; [reflexivity |].
        split; [| exact Hlt].
        destruct (Qlt_le_dec usd (20000 # 1)) as [H | H]; [contradiction | exact H].
      * intros (f & l & [= <- <-] & Hge & Hlt). split; [exact Hlt |].
        intros H. exact (Qlt_not_le _ _ H Hge).
Qed.

End WithFloats.

(** ** The sample runs *)

Lemma indicator_iff_condition_witness :
  exists r,
    performTokenomicsAnalysis Samples.exact MoreSamples.risky_token
      Samples.token [] "key" = Returned r
    /\ In UNEXPECTED_MINTS (riskIndicators r)
    /\ In UNLOCKED_LP (riskIndicators r)
    /\ ~ In NO_LIQUIDITY (riskIndicators r).
Proof.
  destruct (performTokenomicsAnalysis Samples.exact MoreSamples.risky_token
              Samples.token [] "key") as [r | e] eqn:Hrun;
    [| exfalso; vm_compute in Hrun; discriminate Hrun].
  exists r. split; [reflexivity |].
  destruct (indicator_iff_condition Samples.exact MoreSamples.risky_token
              Samples.token [] "key" r Hrun)
    as (_ & _ & _ & Hu & Hn & Hx).
  split; [| split].
  - apply Hx. split.
    + exists MoreSamples.mint_tx. split; [left; reflexivity | reflexivity].
    + exists Samples.mint_renounced. split; reflexivity.
  - apply Hu. split; [discriminate |]. split; [discriminate |].
    exists MoreSamples.unlocked_overview. split; reflexivity.
  - intros H. apply Hn in H. discriminate H.
Defined.

Lemma riskLevel_by_indicator_count_witness :
  exists r,
    performTokenomicsAnalysis Samples.exact MoreSamples.risky_token
      Samples.token [] "key" = Returned r
    /\ (List.length (riskIndicators r) <= 5)%nat
    /\ (riskLevel r = Some "High" <-> (4 <= List.length (riskIndicators r))%nat).
Proof.
  destruct (performTokenomicsAnalysis Samples.exact MoreSamples.risky_token
              Samples.token [] "key") as [r | e] eqn:Hrun;
    [| exfalso; vm_compute in Hrun; discriminate Hrun].
  exists r. split; [reflexivity |].
  destruct (riskLevel_by_indicator_count Samples.exact MoreSamples.risky_token
              Samples.token [] "key" r Hrun) as (_ & _ & Hlen & Hhigh & _).
  split; [exact Hlen | exact Hhigh].
Defined.

Lemma tokenomics_sections_witness :
  exists r,
    performTokenomicsAnalysis Samples.exact MoreSamples.chain_down_with_holders
      Samples.token [] "" = Returned r
    /\ basicInfo r = ErrorMarker "Failed to fetch on-chain mint info"
    /\ authorities r = Empty
    /\ is_populated (distribution r) = true.
Proof.
  destruct (performTokenomicsAnalysis Samples.exact
              MoreSamples.chain_down_with_holders Samples.token [] "")
    as [r | e] eqn:Hrun;
    [| exfalso; vm_compute in Hrun; discriminate Hrun].
  exists r. split; [reflexivity |].
  destruct (tokenomics_sections Samples.exact MoreSamples.chain_down_with_holders
              Samples.token [] "" r Hrun) as ([Hb Ha] & _ & Hd & _).
  split; [exact Hb |]. split; [exact Ha | exact Hd].
Defined.

Lemma tokenomics_chain_failure_aborts_witness :
  performTokenomicsAnalysis Samples.exact MoreSamples.chain_down_with_mint
    Samples.token [] ""
  = Thrown (TypeError "Cannot read properties of undefined (reading 'includes')")
  /\ (forall r,
        performTokenomicsAnalysis Samples.exact
          MoreSamples.chain_down_with_holders Samples.token ["W1"] ""
        <> Returned r).
Proof.
  split.
  - destruct (tokenomics_chain_failure_aborts Samples.exact
                MoreSamples.chain_down_with_mint Samples.token [] ""
                "failed to get info about account" eq_refl) as [Hm _].
    apply Hm; [discriminate | reflexivity].
  - destruct (tokenomics_chain_failure_aborts Samples.exact
                MoreSamples.chain_down_with_holders Samples.token ["W1"] ""
                "failed to get info about account" eq_refl) as [_ Hw].
    apply Hw; [reflexivity | discriminate | discriminate].
Defined.

Lemma circulating_supply_estimate_witness :
  (exists r,
      performTokenomicsAnalysis Samples.exact MoreSamples.tokenomics_meta_down
        Samples.token [] "" = Returned r
      /\ estimatedCirculatingSupply r = None)
  /\ (exists r unit_,
        performTokenomicsAnalysis Samples.exact Samples.whale_token
          Samples.token ["W1"] "" = Returned r
        /\ unit_ <> 0
        /\ estimatedCirculatingSupply r
           = Some (Tokenomics.of_Z Samples.exact (Z.quot (1000 - 600) unit_))).
Proof.
  split.
  - destruct (performTokenomicsAnalysis Samples.exact
                MoreSamples.tokenomics_meta_down Samples.token [] "")
      as [r | e] eqn:Hrun;
      [| exfalso; vm_compute in Hrun; discriminate Hrun].
    exists r. split; [reflexivity |].
    apply (circulating_supply_estimate Samples.exact
             MoreSamples.tokenomics_meta_down Samples.token [] "" r Hrun).
  - destruct (performTokenomicsAnalysis Samples.exact Samples.whale_token
                Samples.token ["W1"] "") as [r | e] eqn:Hrun;
      [| exfalso; vm_compute in Hrun; discriminate Hrun].
    destruct (circulating_supply_estimate Samples.exact Samples.whale_token
                Samples.token ["W1"] "" r Hrun)
      as (S & u & HS & _ & Hne & Hest).
    vm_compute in HS. injection HS as <-.
    exists r, u. split; [reflexivity |]. split; [exact Hne | exact Hest].
Defined.

Lemma lockedAmount_counts_vested_holders_witness :
  lockedAmount_of ["W1"; "W1"; "W9"] [Samples.holder_600; Samples.holder_400]
  = lockedAmount_of ["W9"; "W1"] [Samples.holder_600; Samples.holder_400]
  /\ 0 <= lockedAmount_of ["W9"; "W1"] [Samples.holder_600; Samples.holder_400]
     <= 1000.
Proof.
  destruct (lockedAmount_counts_vested_holders ["W9"; "W1"]
              [Samples.holder_600; Samples.holder_400])
    as (_ & _ & Hsame & Hbound).
  split.
  - apply Hsame. intros w. cbn. tauto.
  - apply Hbound. repeat constructor; discriminate.
Defined.

Lemma shallow_covers_tiny_witness :
  exists rs rt,
    SecurityChecks.performSecurityChecks MoreSamples.band_security Samples.token
    = Returned rs
    /\ performTokenomicsAnalysis Samples.exact MoreSamples.band_tokenomics
         Samples.token [] "" = Returned rt
    /\ In SHALLOW_LIQUIDITY (riskIndicators rt)
    /\ ~ In SecurityChecks.TINY_LP (SecurityChecks.flags rs).
Proof.
  destruct (SecurityChecks.performSecurityChecks MoreSamples.band_security
              Samples.token) as [rs | e] eqn:Hs;
    [| exfalso; vm_compute in Hs; discriminate Hs].
  destruct (performTokenomicsAnalysis Samples.exact MoreSamples.band_tokenomics
              Samples.token [] "") as [rt | e] eqn:Ht;
    [| exfalso; vm_compute in Ht; discriminate Ht].
  exists rs, rt. split; [reflexivity |]. split; [reflexivity |].
  destruct (shallow_covers_tiny Samples.exact MoreSamples.band_security
              MoreSamples.band_tokenomics Samples.token [] "" rs rt
              eq_refl Hs Ht) as [_ Hband].
  apply Hband. exists MoreSamples.band_pair, []. split; [reflexivity |].
  split; [discriminate | reflexivity].
Defined.

End TokenomicsExtras.


(** * Properties of [performSocialSentimentAnalysis] *)
Module SentimentFacts.
Import Sentiment SentimentRules SecurityRules SecurityExtras.
Local Open Scope list_scope.

Section WithScoring.

Variable sc : Scoring.
Variable toLowerCase : string -> string.

(** ** The scan of the tweets *)

Lemma seen_text (t : string) (l : list string) :
  existsb (String.eqb t) l = true <-> In t l.
Proof.
  rewrite existsb_exists. split.
  - intros (x & Hin & Heq). apply String.eqb_eq in Heq. subst. exact Hin.
  - intros Hin. exists t. split; [exact Hin | apply String.eqb_refl].
Qed.

Lemma score_sum_snoc (seen : list Tweet) (tweet : Tweet) :
  score_sum (analyze sc) (seen ++ [tweet])
  = score_sum (analyze sc) seen + analyze sc (text tweet).
Proof.
  unfold score_sum. induction seen as [| x seen IH]; cbn; [lia |].
  cbn in IH. rewrite IH. lia.
Qed.

Lemma scan_tweet_scanned (seen : list Tweet) (s : Scan) (tweet : Tweet) :
  scanned sc seen s -> scanned sc (seen ++ [tweet]) (scan_tweet sc s tweet).
Proof.
  intros (Hnd & Hin & Hlen & Hsum). unfold scan_tweet, scanned.
  rewrite score_sum_snoc, length_app, map_app. cbn [List.length map].
  destruct (existsb (String.eqb (text tweet)) (textSet s)) eqn:Hseen;
    cbn [textSet duplicates totalScore].
  - apply seen_text in Hseen.
    repeat split; try assumption; try lia.
    + intros Ht. apply in_or_app. left. apply Hin. exact Ht.
    + intros Ht. apply in_app_or in Ht. destruct Ht as [Ht | [<- | []]];
        [apply Hin; exact Ht | exact Hseen].
  - assert (Hnew : ~ In (text tweet) (textSet s)).
    { intros Hc. apply seen_text in Hc. congruence. }
    repeat split; try lia.
    + apply NoDup_app; [exact Hnd | constructor; [intros [] | constructor] |].
      intros x Hx [<- | []]. exact (Hnew Hx).
    + intros Ht. apply in_app_or in Ht. apply in_or_app.
      destruct Ht as [Ht | Ht]; [left; apply Hin; exact Ht | right; exact Ht].
    + intros Ht. apply in_app_or in Ht. apply in_or_app.
      destruct Ht as [Ht | Ht]; [left; apply Hin; exact Ht | right; exact Ht].
    + rewrite length_app. cbn [List.length]. lia.
Qed.

Lemma fold_scan_scanned (tweets seen : list Tweet) (s : Scan) :
  scanned sc seen s ->
  scanned sc (seen ++ tweets) (fold_left (scan_tweet sc) tweets s).
Proof.
  revert seen s. induction tweets as [| tweet tweets IH]; intros seen s Hs.
  - rewrite app_nil_r. exact Hs.
  - cbn [fold_left].
    replace (seen ++ tweet :: tweets) with ((seen ++ [tweet]) ++ tweets)
      by (rewrite <- app_assoc; reflexivity).
    apply IH. apply scan_tweet_scanned. exact Hs.
Qed.

Lemma scan_tweets_scanned (tweets : list Tweet) :
  scanned sc tweets (scan_tweets sc tweets).
Proof.
  unfold scan_tweets. apply (fold_scan_scanned tweets []).
  unfold scanned. cbn. repeat split; try tauto. constructor.
Qed.

(** Two duplicate-free lists with the same elements have the same length. *)
Lemma NoDup_same_length (l1 l2 : list string) :
  NoDup l1 -> NoDup l2 -> (forall t, In t l1 <-> In t l2) ->
  List.length l1 = List.length l2.
Proof.
  intros H1 H2 Hin. apply Nat.le_antisymm.
  - apply NoDup_incl_length; [exact H1 |]. intros t Ht. apply Hin. exact Ht.
  - apply NoDup_incl_length; [exact H2 |]. intros t Ht. apply Hin. exact Ht.
Qed.

Lemma scan_tweets_duplicates (tweets : list Tweet) :
  duplicates (scan_tweets sc tweets) = repeated tweets.
Proof.
  destruct (scan_tweets_scanned tweets) as (Hnd & Hin & Hlen & _).
  unfold repeated, distinct_texts.
  rewrite <- (NoDup_same_length (textSet (scan_tweets sc tweets))
                (nodup string_dec (map text tweets)));
    [lia | exact Hnd | apply NoDup_nodup |].
  intros t. rewrite nodup_In. apply Hin.
Qed.

Lemma distinct_texts_length (tweets : list Tweet) :
  (List.length (distinct_texts tweets) <= List.length tweets)%nat
  /\ (tweets <> [] -> 1 <= List.length (distinct_texts tweets))%nat.
Proof.
  unfold distinct_texts. split.
  - rewrite <- (length_map text tweets).
    apply NoDup_incl_length; [apply NoDup_nodup |].
    intros t Ht. apply nodup_In in Ht. exact Ht.
  - intros Hne. destruct tweets as [| tweet tweets]; [congruence |].
    assert (Hin : In (text tweet) (nodup string_dec (map text (tweet :: tweets)))).
    { apply nodup_In. left. reflexivity. }
    destruct (nodup string_dec (map text (tweet :: tweets)));
      [contradiction | cbn; lia].
Qed.

Lemma repeated_bounds (tweets : list Tweet) :
  0 <= repeated tweets <= Z.of_nat (List.length tweets)
  /\ (tweets <> [] -> repeated tweets < Z.of_nat (List.length tweets)).
Proof.
  destruct (distinct_texts_length tweets) as [Hle Hpos]. unfold repeated.
  split; [lia |]. intros Hne. specialize (Hpos Hne). lia.
Qed.

(** X15.  The loop of [getTwitterSentiment] counts as duplicates the tweets
    whose text an earlier tweet had: their number is the number of tweets
    minus the number of distinct texts.  The set holds each text of the
    tweets once, and the total is the sum of the scores of all tweets,
    repeated ones included. *)
Theorem duplicates_counted (tweets : list Tweet) :
  let s := scan_tweets sc tweets in
  duplicates s = repeated tweets
  /\ 0 <= duplicates s <= Z.of_nat (List.length tweets)
  /\ (tweets <> [] -> duplicates s < Z.of_nat (List.length tweets))
  /\ NoDup (textSet s)
  /\ (forall t, In t (textSet s)
                <-> exists tweet, In tweet tweets /\ text tweet = t)
  /\ totalScore s = score_sum (analyze sc) tweets.
Proof.
  cbn zeta. destruct (scan_tweets_scanned tweets) as (Hnd & Hin & _ & Hsum).
  destruct (repeated_bounds tweets) as [Hb Hlt].
  rewrite scan_tweets_duplicates.
  repeat match goal with |- _ /\ _ => split end;
    try assumption; try lia.
  intros t. rewrite Hin, in_map_iff.
  split; intros (tweet & H1 & H2); exists tweet; split; assumption.
Qed.

(** ** [getTwitterSentiment] *)

Lemma searchTweets_found (env : Providers) (query : string)
  (keys : TwitterKeys) (tweets : list Tweet) :
  twitter_search env query keys = Resolved (Some tweets) ->
  searchTweets sc env query keys
  = {| averageScore := average sc tweets;
       tweetCount := Z.of_nat (List.length tweets);
       potentialBots := if 5 <? repeated tweets then repeated tweets else 0 |}.
Proof.
  intros Hs. unfold searchTweets, average. rewrite Hs.
  destruct (scan_tweets_scanned tweets) as (_ & _ & _ & Hsum).
  rewrite scan_tweets_duplicates, Hsum. reflexivity.
Qed.

Lemma searchTweets_failed (env : Providers) (query : string)
  (keys : TwitterKeys) :
  (forall tweets, twitter_search env query keys <> Resolved (Some tweets)) ->
  searchTweets sc env query keys = no_twitter_data sc.
Proof.
  intros Hf. unfold searchTweets.
  destruct (twitter_search env query keys) as [[tweets |] | msg] eqn:Hs;
    try reflexivity.
  exfalso. exact (Hf tweets eq_refl).
Qed.

(** The [try] answers with the data of the tweets, or with the zero data. *)
Lemma searchTweets_cases (env : Providers) (query : string)
  (keys : TwitterKeys) :
  (exists tweets,
      twitter_search env query keys = Resolved (Some tweets)
      /\ searchTweets sc env query keys
         = {| averageScore := average sc tweets;
              tweetCount := Z.of_nat (List.length tweets);
              potentialBots :=
                if 5 <? repeated tweets then repeated tweets else 0 |})
  \/ ((forall tweets, twitter_search env query keys <> Resolved (Some tweets))
      /\ searchTweets sc env query keys = no_twitter_data sc).
Proof.
  destruct (twitter_search env query keys) as [[tweets |] | msg] eqn:Hs.
  - left. exists tweets. split; [reflexivity |].
    apply searchTweets_found. exact Hs.
  - right. split; [intros t H; discriminate H |].
    unfold searchTweets. rewrite Hs. reflexivity.
  - right. split; [intros t H; discriminate H |].
    unfold searchTweets. rewrite Hs. reflexivity.
Qed.

Lemma getTwitterSentiment_cases (env : Providers) (query : string)
  (keys : TwitterKeys) :
  match new_TwitterApi env keys with
  | Constructed =>
      getTwitterSentiment sc env query (Some keys)
      = Resolved (searchTweets sc env query keys)
  | Throws msg =>
      getTwitterSentiment sc env query (Some keys) = Rejected msg
  end.
Proof.
  unfold getTwitterSentiment. destruct (new_TwitterApi env keys); reflexivity.
Qed.

(** ** The steps of a run

    Each step, as the record it leaves behind. *)

Lemma checkLunarCrush_eq (env : Providers) (tokenSymbol : string)
  (apiKeys : ApiKeys) (r : Report sc) :
  checkLunarCrush sc env tokenSymbol apiKeys r
  = let found := lunarCrush_record env tokenSymbol apiKeys in
    {| sentiment :=
         {| galaxyScore := match found with
                           | Some lcData => galaxy_score lcData
                           | None => galaxyScore (sentiment r)
                           end;
            relativeSentiment := match found with
                                 | Some lcData => sentiment_relative lcData
                                 | None => relativeSentiment (sentiment r)
                                 end;
            santimentWeighted := santimentWeighted (sentiment r);
            santimentTrend := santimentTrend (sentiment r);
            twitterAverage := twitterAverage (sentiment r) |};
       community :=
         {| socialVolume := match found with
                            | Some lcData => social_volume lcData
                            | None => socialVolume (community r)
                            end;
            socialEngagement := match found with
                                | Some lcData => social_engagement_score lcData
                                | None => socialEngagement (community r)
                                end;
            community_tweetCount := community_tweetCount (community r) |};
       influencers := match found with
                      | Some lcData => match top_influencers lcData with
                                       | Some l => l
                                       | None => []
                                       end
                      | None => influencers r
                      end;
       hypeIndicators :=
         {| highVolume := if high_volume env tokenSymbol apiKeys
                          then Some HIGH_VOLUME
                          else highVolume (hypeIndicators r);
            twitterHype := twitterHype (hypeIndicators r) |};
       riskFlags := riskFlags r ++ lunarCrush_flags env tokenSymbol apiKeys;
       notes := notes r ++ lunarCrush_notes apiKeys |}.
Proof.
  destruct r as [[gs rs sw st ta] [sv se tc] inf [hv th] rf nt].
  unfold checkLunarCrush, lunarCrush_flags, lunarCrush_notes, high_volume,
    bearish, lunarCrush_record.
  destruct (String.eqb (lunarCrush apiKeys) "");
    [| destruct (getLunarCrushData env tokenSymbol (lunarCrush apiKeys))
         as [lcData |];
       [unfold record_lunarCrush, when;
        destruct (field_gt (social_volume lcData) (1000 # 1)),
                 (field_lt (sentiment_relative lcData) double_0_4) |]];
    unfold push_riskFlag, push_note; cbn; rewrite ?app_nil_r; reflexivity.
Qed.

Lemma checkSantiment_eq (env : Providers) (tokenSymbol : string)
  (r : Report sc) :
  checkSantiment sc toLowerCase env tokenSymbol r
  = {| sentiment :=
         {| galaxyScore := galaxyScore (sentiment r);
            relativeSentiment := relativeSentiment (sentiment r);
            santimentWeighted :=
              match recent_sentiment toLowerCase env tokenSymbol with
              | Some v => v
              | None => santimentWeighted (sentiment r)
              end;
            santimentTrend := match series toLowerCase env tokenSymbol with
                              | [] => santimentTrend (sentiment r)
                              | first :: rest => Some (first :: rest)
                              end;
            twitterAverage := twitterAverage (sentiment r) |};
       community := community r;
       influencers := influencers r;
       hypeIndicators := hypeIndicators r;
       riskFlags := riskFlags r ++ santiment_flags toLowerCase env tokenSymbol;
       notes := notes r ++ santiment_notes toLowerCase env tokenSymbol |}.
Proof.
  destruct r as [[gs rs sw st ta] [sv se tc] inf [hv th] rf nt].
  unfold checkSantiment, santiment_flags, santiment_notes, negative_weighted,
    recent_sentiment, series.
  destruct (getSantimentSentiment env (toLowerCase tokenSymbol))
    as [| first rest];
    [| unfold when; destruct (field_lt (recent_value first rest) 0)];
    unfold push_riskFlag, push_note; cbn; rewrite ?app_nil_r; reflexivity.
Qed.

Lemma recordTwitter_eq (twitterData : TwitterData sc) (r : Report sc) :
  recordTwitter sc twitterData r
  = {| sentiment :=
         {| galaxyScore := galaxyScore (sentiment r);
            relativeSentiment := relativeSentiment (sentiment r);
            santimentWeighted := santimentWeighted (sentiment r);
            santimentTrend := santimentTrend (sentiment r);
            twitterAverage := Some (averageScore twitterData) |};
       community :=
         {| socialVolume := socialVolume (community r);
            socialEngagement := socialEngagement (community r);
            community_tweetCount := Some (tweetCount twitterData) |};
       influencers := influencers r;
       hypeIndicators :=
         {| highVolume := highVolume (hypeIndicators r);
            twitterHype := if andb (20 <? tweetCount twitterData)
                                   (above_one sc (averageScore twitterData))
                           then Some TWITTER_HYPE
                           else twitterHype (hypeIndicators r) |};
       riskFlags :=
         riskFlags r ++ (if 0 <? potentialBots twitterData
                         then [bot_flag (potentialBots twitterData)] else []);
       notes := notes r |}.
Proof.
  destruct r as [[gs rs sw st ta] [sv se tc] inf [hv th] rf nt].
  unfold recordTwitter, when.
  destruct (0 <? potentialBots twitterData),
           (andb (20 <? tweetCount twitterData)
                 (above_one sc (averageScore twitterData)));
    unfold push_riskFlag; cbn; rewrite ?app_nil_r; reflexivity.
Qed.

(** Step 3 either hands on a report or rejects with what the constructor of
    the client threw. *)
Lemma checkTwitter_cases (env : Providers) (tokenSymbol tokenName : string)
  (apiKeys : ApiKeys) (r : Report sc) :
  match twitter apiKeys with
  | None =>
      checkTwitter sc env tokenSymbol tokenName apiKeys r
      = Resolved (push_note sc TWITTER_NOTE r)
  | Some keys =>
      match new_TwitterApi env keys with
      | Constructed =>
          checkTwitter sc env tokenSymbol tokenName apiKeys r
          = Resolved
              (recordTwitter sc
                 (searchTweets sc env (twitter_query tokenSymbol tokenName)
                    keys) r)
      | Throws msg =>
          checkTwitter sc env tokenSymbol tokenName apiKeys r = Rejected msg
      end
  end.
Proof.
  unfold checkTwitter. destruct (twitter apiKeys) as [keys |]; [| reflexivity].
  pose proof (getTwitterSentiment_cases env
                (twitter_query tokenSymbol tokenName) keys) as Hg.
  destruct (new_TwitterApi env keys); rewrite Hg; reflexivity.
Qed.

Lemma checkTwitter_resolved (env : Providers) (tokenSymbol tokenName : string)
  (apiKeys : ApiKeys) (r r' : Report sc) :
  checkTwitter sc env tokenSymbol tokenName apiKeys r = Resolved r' ->
  client_accepted env apiKeys
  /\ r' = let found := twitter_data sc env tokenSymbol tokenName apiKeys in
          {| sentiment :=
               {| galaxyScore := galaxyScore (sentiment r);
                  relativeSentiment := relativeSentiment (sentiment r);
                  santimentWeighted := santimentWeighted (sentiment r);
                  santimentTrend := santimentTrend (sentiment r);
                  twitterAverage := match found with
                                    | Some twitterData =>
                                        Some (averageScore twitterData)
                                    | None => twitterAverage (sentiment r)
                                    end |};
             community :=
               {| socialVolume := socialVolume (community r);
                  socialEngagement := socialEngagement (community r);
                  community_tweetCount :=
                    match found with
                    | Some twitterData => Some (tweetCount twitterData)
                    | None => community_tweetCount (community r)
                    end |};
             influencers := influencers r;
             hypeIndicators :=
               {| highVolume := highVolume (hypeIndicators r);
                  twitterHype :=
                    if twitter_hype sc env tokenSymbol tokenName apiKeys
                    then Some TWITTER_HYPE
                    else twitterHype (hypeIndicators r) |};
             riskFlags :=
               riskFlags r ++ twitter_flags sc env tokenSymbol tokenName apiKeys;
             notes := notes r ++ twitter_notes apiKeys |}.
Proof.
  intros Hrun.
  pose proof (checkTwitter_cases env tokenSymbol tokenName apiKeys r) as Hc.
  unfold client_accepted, twitter_flags, twitter_notes, twitter_hype, bots,
    twitter_data.
  destruct (twitter apiKeys) as [keys |].
  - destruct (new_TwitterApi env keys) as [| msg]; rewrite Hc in Hrun;
      [| discriminate Hrun].
    injection Hrun as <-. split; [reflexivity |].
    rewrite recordTwitter_eq. cbn zeta. rewrite app_nil_r. reflexivity.
  - rewrite Hc in Hrun. injection Hrun as <-. split; [exact I |].
    destruct r as [[gs rs sw st ta] [sv se tc] inf [hv th] rf nt].
    unfold push_note. cbn. rewrite app_nil_r. reflexivity.
Qed.

Lemma closingNotes_eq (r : Report sc) :
  closingNotes sc r
  = {| sentiment := sentiment r;
       community := community r;
       influencers := influencers r;
       hypeIndicators := hypeIndicators r;
       riskFlags := riskFlags r;
       notes := notes r ++ [TELEGRAM_NOTE]
                ++ (if Nat.ltb 1 (List.length (riskFlags r))
                    then [CROSS_CHECK_NOTE] else []) |}.
Proof.
  destruct r as [s c inf h rf nt].
  unfold closingNotes, when, push_note.
  cbn [riskFlags notes sentiment community influencers hypeIndicators].
  destruct (Nat.ltb 1 (List.length rf));
    cbn [riskFlags notes sentiment community influencers hypeIndicators];
    rewrite <- ?app_assoc, ?app_nil_r; reflexivity.
Qed.

(** ** The outcome of a run *)

(** The run rejects exactly with what the constructor of the client threw;
    otherwise it returns. *)
Lemma performSocialSentimentAnalysis_cases (env : Providers)
  (tokenSymbol tokenName : string) (apiKeys : ApiKeys) :
  match twitter apiKeys with
  | None =>
      exists r,
        performSocialSentimentAnalysis sc toLowerCase env tokenSymbol tokenName
          apiKeys = Resolved r
  | Some keys =>
      match new_TwitterApi env keys with
      | Constructed =>
          exists r,
            performSocialSentimentAnalysis sc toLowerCase env tokenSymbol
              tokenName apiKeys = Resolved r
      | Throws msg =>
          performSocialSentimentAnalysis sc toLowerCase env tokenSymbol
            tokenName apiKeys = Rejected msg
      end
  end.
Proof.
  unfold performSocialSentimentAnalysis.
  set (r2 := checkSantiment sc toLowerCase env tokenSymbol
               (checkLunarCrush sc env tokenSymbol apiKeys (initial_report sc))).
  pose proof (checkTwitter_cases env tokenSymbol tokenName apiKeys r2) as Hc.
  destruct (twitter apiKeys) as [keys |];
    [destruct (new_TwitterApi env keys) |]; rewrite Hc;
    try reflexivity; eexists; reflexivity.
Qed.

(** The report of a run that returns, field by field, in terms of what the
    helpers answered. *)
Lemma performSocialSentimentAnalysis_report (env : Providers)
  (tokenSymbol tokenName : string) (apiKeys : ApiKeys) (r : Report sc) :
  performSocialSentimentAnalysis sc toLowerCase env tokenSymbol tokenName
    apiKeys = Resolved r ->
  riskFlags r = run_riskFlags sc toLowerCase env tokenSymbol tokenName apiKeys
  /\ notes r
     = lunarCrush_notes apiKeys ++ santiment_notes toLowerCase env tokenSymbol
       ++ twitter_notes apiKeys ++ [TELEGRAM_NOTE]
       ++ (if Nat.ltb 1 (List.length
                           (run_riskFlags sc toLowerCase env tokenSymbol
                              tokenName apiKeys))
           then [CROSS_CHECK_NOTE] else [])
  /\ highVolume (hypeIndicators r)
     = (if high_volume env tokenSymbol apiKeys then Some HIGH_VOLUME else None)
  /\ twitterHype (hypeIndicators r)
     = (if twitter_hype sc env tokenSymbol tokenName apiKeys
        then Some TWITTER_HYPE else None)
  /\ match lunarCrush_record env tokenSymbol apiKeys with
     | Some lcData =>
         galaxyScore (sentiment r) = galaxy_score lcData
         /\ relativeSentiment (sentiment r) = sentiment_relative lcData
         /\ socialVolume (community r) = social_volume lcData
         /\ socialEngagement (community r) = social_engagement_score lcData
         /\ influencers r = match top_influencers lcData with
                            | Some l => l
                            | None => []
                            end
     | None =>
         galaxyScore (sentiment r) = Absent
         /\ relativeSentiment (sentiment r) = Absent
         /\ socialVolume (community r) = Absent
         /\ socialEngagement (community r) = Absent
         /\ influencers r = []
     end
  /\ match series toLowerCase env tokenSymbol with
     | first :: rest =>
         santimentWeighted (sentiment r) = recent_value first rest
         /\ santimentTrend (sentiment r) = Some (first :: rest)
     | [] =>
         santimentWeighted (sentiment r) = Absent
         /\ santimentTrend (sentiment r) = None
     end
  /\ twitterAverage (sentiment r)
     = option_map averageScore
         (twitter_data sc env tokenSymbol tokenName apiKeys)
  /\ community_tweetCount (community r)
     = option_map tweetCount
         (twitter_data sc env tokenSymbol tokenName apiKeys)
  /\ client_accepted env apiKeys.
Proof.
  unfold performSocialSentimentAnalysis. intros Hrun.
  destruct (checkTwitter sc env tokenSymbol tokenName apiKeys _)
    as [r3 | msg] eqn:H3; [| discriminate Hrun].
  injection Hrun as <-.
  apply checkTwitter_resolved in H3. destruct H3 as [Hacc ->].
  rewrite closingNotes_eq, checkSantiment_eq, checkLunarCrush_eq.
  cbn [riskFlags notes sentiment community influencers hypeIndicators
       galaxyScore relativeSentiment santimentWeighted santimentTrend
       twitterAverage socialVolume socialEngagement community_tweetCount
       highVolume twitterHype initial_report app].
  unfold run_riskFlags, recent_sentiment.
  rewrite <- !app_assoc.
  repeat match goal with |- _ /\ _ => split end.
  - reflexivity.
  - reflexivity.
  - destruct (high_volume env tokenSymbol apiKeys); reflexivity.
  - destruct (twitter_hype sc env tokenSymbol tokenName apiKeys); reflexivity.
  - destruct (lunarCrush_record env tokenSymbol apiKeys);
      repeat split; reflexivity.
  - destruct (series toLowerCase env tokenSymbol); split; reflexivity.
  - destruct (twitter_data sc env tokenSymbol tokenName apiKeys); reflexivity.
  - destruct (twitter_data sc env tokenSymbol tokenName apiKeys); reflexivity.
  - exact Hacc.
Qed.

(** X16.  The analysis returns no report exactly when Twitter keys were
    given and the constructor of the client throws: the client is built
    outside the [try], so the error rejects the whole run with its message,
    whatever LunarCrush and Santiment answered.  In every other case the run
    returns a report, also when the search itself fails. *)
Theorem twitter_client_failure_aborts_run (env : Providers)
  (tokenSymbol tokenName : string) (apiKeys : ApiKeys) :
  (forall msg,
      performSocialSentimentAnalysis sc toLowerCase env tokenSymbol tokenName
        apiKeys = Rejected msg
      <-> exists keys,
            twitter apiKeys = Some keys
            /\ new_TwitterApi env keys = Throws msg)
  /\ ((exists r,
          performSocialSentimentAnalysis sc toLowerCase env tokenSymbol
            tokenName apiKeys = Resolved r)
      <-> client_accepted env apiKeys).
Proof.
  pose proof (performSocialSentimentAnalysis_cases env tokenSymbol tokenName
                apiKeys) as Hc.
  unfold client_accepted.
  destruct (twitter apiKeys) as [keys |].
  - destruct (new_TwitterApi env keys) as [| m] eqn:Hn.
    + destruct Hc as (r & Hr). split.
      * intros msg. rewrite Hr. split; [intros H; discriminate H |].
        intros (k & Hk & Ht). inversion Hk; subst k. congruence.
      * split; [reflexivity | intros _; exists r; exact Hr].
    + split.
      * intros msg. rewrite Hc. split.
        -- intros H. inversion H; subst m. exists keys. tauto.
        -- intros (k & Hk & Ht). inversion Hk; subst k. congruence.
      * rewrite Hc. split; [intros (r & Hr); discriminate Hr |].
        intros H. discriminate H.
  - destruct Hc as (r & Hr). split.
    + intros msg. rewrite Hr. split; [intros H; discriminate H |].
      intros (k & Hk & _). discriminate Hk.
    + split; [intros _; exact I | intros _; exists r; exact Hr].
Qed.
(** ** The conditions of the rules *)

Lemma field_lt_iff (x : json_number) (k : Q) :
  field_lt x k = true <-> exists v, to_number x = Some v /\ (v < k)%Q.
Proof.
  unfold field_lt. destruct (to_number x) as [v |]; split.
  - intros H. exists v. split; [reflexivity | apply Qltb_lt; exact H].
  - intros (v' & Hv & Hlt). inversion Hv; subst. apply Qltb_lt. exact Hlt.
  - intros H. discriminate H.
  - intros (v' & Hv & _). discriminate Hv.
Qed.

Lemma field_gt_iff (x : json_number) (k : Q) :
  field_gt x k = true <-> exists v, to_number x = Some v /\ (k < v)%Q.
Proof.
  unfold field_gt. destruct (to_number x) as [v |]; split.
  - intros H. exists v. split; [reflexivity | apply Qltb_lt; exact H].
  - intros (v' & Hv & Hlt). inversion Hv; subst. apply Qltb_lt. exact Hlt.
  - intros H. discriminate H.
  - intros (v' & Hv & _). discriminate Hv.
Qed.

Lemma lunarCrush_record_iff (env : Providers) (tokenSymbol : string)
  (apiKeys : ApiKeys) (lcData : LcData) :
  lunarCrush_record env tokenSymbol apiKeys = Some lcData
  <-> lunarCrush apiKeys <> ""
      /\ getLunarCrushData env tokenSymbol (lunarCrush apiKeys) = Some lcData.
Proof.
  unfold lunarCrush_record.
  destruct (String.eqb (lunarCrush apiKeys) "") eqn:Hk.
  - apply String.eqb_eq in Hk. split; [intros H; discriminate H |].
    intros [Hne _]. contradiction.
  - apply String.eqb_neq in Hk. split; [intros H; split; assumption |].
    intros [_ H]. exact H.
Qed.

Lemma bearish_iff (env : Providers) (tokenSymbol : string) (apiKeys : ApiKeys) :
  bearish env tokenSymbol apiKeys = true
  <-> lunarCrush apiKeys <> ""
      /\ exists lcData v,
           getLunarCrushData env tokenSymbol (lunarCrush apiKeys) = Some lcData
           /\ to_number (sentiment_relative lcData) = Some v
           /\ (v < double_0_4)%Q.
Proof.
  unfold bearish.
  destruct (lunarCrush_record env tokenSymbol apiKeys) as [lcData |] eqn:Hr.
  - apply lunarCrush_record_iff in Hr. destruct Hr as [Hne Hd].
    rewrite field_lt_iff. split.
    + intros (v & Hv & Hlt). split; [exact Hne |]. exists lcData, v. tauto.
    + intros (_ & d & v & Hd' & Hv & Hlt). rewrite Hd in Hd'.
      inversion Hd'; subst. exists v. tauto.
  - split; [intros H; discriminate H |].
    intros (Hne & d & v & Hd & _).
    assert (Hs : lunarCrush_record env tokenSymbol apiKeys = Some d)
      by (apply lunarCrush_record_iff; tauto).
    congruence.
Qed.

Lemma high_volume_iff (env : Providers) (tokenSymbol : string)
  (apiKeys : ApiKeys) :
  high_volume env tokenSymbol apiKeys = true
  <-> lunarCrush apiKeys <> ""
      /\ exists lcData v,
           getLunarCrushData env tokenSymbol (lunarCrush apiKeys) = Some lcData
           /\ to_number (social_volume lcData) = Some v
           /\ (1000 # 1 < v)%Q.
Proof.
  unfold high_volume.
  destruct (lunarCrush_record env tokenSymbol apiKeys) as [lcData |] eqn:Hr.
  - apply lunarCrush_record_iff in Hr. destruct Hr as [Hne Hd].
    rewrite field_gt_iff. split.
    + intros (v & Hv & Hlt). split; [exact Hne |]. exists lcData, v. tauto.
    + intros (_ & d & v & Hd' & Hv & Hlt). rewrite Hd in Hd'.
      inversion Hd'; subst. exists v. tauto.
  - split; [intros H; discriminate H |].
    intros (Hne & d & v & Hd & _).
    assert (Hs : lunarCrush_record env tokenSymbol apiKeys = Some d)
      by (apply lunarCrush_record_iff; tauto).
    congruence.
Qed.

Lemma negative_weighted_iff (env : Providers) (tokenSymbol : string) :
  negative_weighted toLowerCase env tokenSymbol = true
  <-> exists first rest v,
        getSantimentSentiment env (toLowerCase tokenSymbol) = first :: rest
        /\ to_number (value (last rest first)) = Some v
        /\ (v < 0)%Q.
Proof.
  unfold negative_weighted, recent_sentiment, series, recent_value.
  destruct (getSantimentSentiment env (toLowerCase tokenSymbol))
    as [| first rest].
  - split; [intros H; discriminate H |].
    intros (f & r & v & H & _). discriminate H.
  - rewrite field_lt_iff. split.
    + intros (v & Hv & Hlt). exists first, rest, v. tauto.
    + intros (f & r & v & Heq & Hv & Hlt). inversion Heq; subst.
      exists v. tauto.
Qed.

Lemma bot_flag_not_bearish (n : Z) : bot_flag n <> BEARISH.
Proof. intros H. cbv [bot_flag BEARISH append] in H. discriminate H. Qed.

Lemma bot_flag_not_negative (n : Z) : bot_flag n <> NEGATIVE_WEIGHTED.
Proof.
  intros H. cbv [bot_flag NEGATIVE_WEIGHTED append] in H. discriminate H.
Qed.

Lemma in_run_riskFlags (env : Providers) (tokenSymbol tokenName : string)
  (apiKeys : ApiKeys) (flag : string) :
  In flag (run_riskFlags sc toLowerCase env tokenSymbol tokenName apiKeys)
  <-> (flag = BEARISH /\ bearish env tokenSymbol apiKeys = true)
      \/ (flag = NEGATIVE_WEIGHTED /\ negative_weighted toLowerCase env tokenSymbol = true)
      \/ (flag = bot_flag (bots sc env tokenSymbol tokenName apiKeys)
          /\ 0 < bots sc env tokenSymbol tokenName apiKeys).
Proof.
  unfold run_riskFlags, lunarCrush_flags, santiment_flags, twitter_flags.
  rewrite !in_app_iff. cbn zeta.
  destruct (bearish env tokenSymbol apiKeys),
           (negative_weighted toLowerCase env tokenSymbol),
           (0 <? bots sc env tokenSymbol tokenName apiKeys) eqn:Hb;
    try apply Z.ltb_lt in Hb; try apply Z.ltb_ge in Hb; cbn [In];
    intuition (try discriminate; try lia; auto).
Qed.

Lemma run_riskFlags_in_order (env : Providers) (tokenSymbol tokenName : string)
  (apiKeys : ApiKeys) :
  Subseq (run_riskFlags sc toLowerCase env tokenSymbol tokenName apiKeys)
    (flag_order sc env tokenSymbol tokenName apiKeys).
Proof.
  unfold run_riskFlags, lunarCrush_flags, santiment_flags, twitter_flags,
    flag_order.
  cbn zeta.
  destruct (bearish env tokenSymbol apiKeys),
           (negative_weighted toLowerCase env tokenSymbol),
           (0 <? bots sc env tokenSymbol tokenName apiKeys);
    cbn [app]; in_order.
Qed.

Lemma flag_order_NoDup (env : Providers) (tokenSymbol tokenName : string)
  (apiKeys : ApiKeys) :
  NoDup (flag_order sc env tokenSymbol tokenName apiKeys).
Proof.
  unfold flag_order.
  pose proof (bot_flag_not_bearish (bots sc env tokenSymbol tokenName apiKeys)).
  pose proof (bot_flag_not_negative (bots sc env tokenSymbol tokenName apiKeys)).
  repeat (constructor; [cbn [In]; intuition (try discriminate; auto) |]).
  constructor.
Qed.

(** ** Notes *)

Lemma note_order_NoDup : NoDup note_order.
Proof.
  unfold note_order.
  repeat (constructor; [cbn; intuition discriminate |]). constructor.
Qed.

Lemma run_notes_in_order (env : Providers) (tokenSymbol : string)
  (apiKeys : ApiKeys) (cross : bool) :
  Subseq
    (lunarCrush_notes apiKeys ++ santiment_notes toLowerCase env tokenSymbol
     ++ twitter_notes apiKeys ++ [TELEGRAM_NOTE]
     ++ (if cross then [CROSS_CHECK_NOTE] else []))
    note_order.
Proof.
  unfold lunarCrush_notes, santiment_notes, twitter_notes, note_order.
  destruct (String.eqb (lunarCrush apiKeys) ""),
           (series toLowerCase env tokenSymbol), (twitter apiKeys), cross;
    cbn [app]; in_order.
Qed.

Lemma in_run_notes (env : Providers) (tokenSymbol : string)
  (apiKeys : ApiKeys) (cross : bool) (note : string) :
  In note
    (lunarCrush_notes apiKeys ++ santiment_notes toLowerCase env tokenSymbol
     ++ twitter_notes apiKeys ++ [TELEGRAM_NOTE]
     ++ (if cross then [CROSS_CHECK_NOTE] else []))
  <-> (note = LUNARCRUSH_NOTE /\ lunarCrush apiKeys = "")
      \/ (note = SANTIMENT_NOTE /\ series toLowerCase env tokenSymbol = [])
      \/ (note = TWITTER_NOTE /\ twitter apiKeys = None)
      \/ note = TELEGRAM_NOTE
      \/ (note = CROSS_CHECK_NOTE /\ cross = true).
Proof.
  unfold lunarCrush_notes, santiment_notes, twitter_notes.
  rewrite !in_app_iff.
  destruct (String.eqb (lunarCrush apiKeys) "") eqn:Hk;
    [apply String.eqb_eq in Hk | apply String.eqb_neq in Hk];
    destruct (series toLowerCase env tokenSymbol), (twitter apiKeys), cross; cbn [In];
    intuition (try discriminate; try congruence; auto).
Qed.

(** With a search that does not answer with tweets the Twitter data of the
    run is the zero data. *)
Lemma twitter_data_search_fails (env : Providers)
  (tokenSymbol tokenName : string) (apiKeys : ApiKeys) (keys : TwitterKeys) :
  twitter apiKeys = Some keys ->
  search_fails env tokenSymbol tokenName keys ->
  twitter_data sc env tokenSymbol tokenName apiKeys
  = Some (no_twitter_data sc).
Proof.
  intros Hk Hf. unfold twitter_data. rewrite Hk.
  rewrite (searchTweets_failed env _ keys Hf). reflexivity.
Qed.

(** Without an answer with tweets, no duplicates are reported. *)
Lemma bots_without_tweets (env : Providers) (tokenSymbol tokenName : string)
  (apiKeys : ApiKeys) :
  (forall keys,
      twitter apiKeys = Some keys ->
      search_fails env tokenSymbol tokenName keys) ->
  bots sc env tokenSymbol tokenName apiKeys = 0
  /\ twitter_hype sc env tokenSymbol tokenName apiKeys = false.
Proof.
  intros Hf. unfold bots, twitter_hype.
  destruct (twitter apiKeys) as [keys |] eqn:Hk.
  - rewrite (twitter_data_search_fails env tokenSymbol tokenName apiKeys keys
               Hk (Hf keys eq_refl)).
    split; reflexivity.
  - unfold twitter_data. rewrite Hk. split; reflexivity.
Qed.

(** X17.  The risk flags of a returned sentiment report: the bearish flag is
    there exactly when a LunarCrush key was given and the record's relative
    sentiment is below 0.4, the negative flag exactly when the last point of
    the Santiment series is below zero, and no bot-activity flag is there
    unless the Twitter search answered with tweets.  The flags keep the
    order of the steps, none occurs twice and there are at most three. *)
Theorem sentiment_flag_iff_condition (env : Providers)
  (tokenSymbol tokenName : string) (apiKeys : ApiKeys) (r : Report sc) :
  performSocialSentimentAnalysis sc toLowerCase env tokenSymbol tokenName
    apiKeys = Resolved r ->
  (In BEARISH (riskFlags r)
   <-> lunarCrush apiKeys <> ""
       /\ exists lcData v,
            getLunarCrushData env tokenSymbol (lunarCrush apiKeys) = Some lcData
            /\ to_number (sentiment_relative lcData) = Some v
            /\ (v < double_0_4)%Q)
  /\ (In NEGATIVE_WEIGHTED (riskFlags r)
      <-> exists first rest v,
            getSantimentSentiment env (toLowerCase tokenSymbol) = first :: rest
            /\ to_number (value (last rest first)) = Some v
            /\ (v < 0)%Q)
  /\ ((forall keys,
          twitter apiKeys = Some keys ->
          search_fails env tokenSymbol tokenName keys) ->
      forall n, ~ In (bot_flag n) (riskFlags r))
  /\ Subseq (riskFlags r)
       (flag_order sc env tokenSymbol tokenName apiKeys)
  /\ NoDup (riskFlags r)
  /\ (List.length (riskFlags r) <= 3)%nat.
Proof.
  intros Hrun.
  destruct (performSocialSentimentAnalysis_report env tokenSymbol tokenName
              apiKeys r Hrun) as (Hf & _).
  rewrite Hf.
  pose proof (in_run_riskFlags env tokenSymbol tokenName apiKeys) as Hin.
  pose proof (run_riskFlags_in_order env tokenSymbol tokenName apiKeys) as Hsub.
  repeat match goal with |- _ /\ _ => split end.
  - rewrite <- bearish_iff, Hin. split; [| tauto].
    intros [[_ H] | [[H _] | [H _]]]; [exact H | discriminate H |].
    symmetry in H. exfalso. exact (bot_flag_not_bearish _ H).
  - rewrite <- negative_weighted_iff, Hin. split; [| tauto].
    intros [[H _] | [[_ H] | [H _]]]; [discriminate H | exact H |].
    symmetry in H. exfalso. exact (bot_flag_not_negative _ H).
  - intros Hfail n Hn. apply Hin in Hn.
    destruct (bots_without_tweets env tokenSymbol tokenName apiKeys Hfail)
      as [Hz _].
    destruct Hn as [[H _] | [[H _] | [_ Hpos]]];
      [exact (bot_flag_not_bearish _ H)
      | exact (bot_flag_not_negative _ H) | lia].
  - exact Hsub.
  - exact (Subseq_NoDup _ _ Hsub
             (flag_order_NoDup env tokenSymbol tokenName apiKeys)).
  - exact (Subseq_length _ _ Hsub).
Qed.

(** X18.  The notes of a returned sentiment report: one exactly for a
    missing LunarCrush key, one exactly for an empty (or failed) Santiment
    series, one exactly for missing Twitter keys, always the
    Telegram/Discord note, and the cross-check note exactly when the report
    has two or more risk flags; in this order, each at most once. *)
Theorem notes_iff_condition (env : Providers) (tokenSymbol tokenName : string)
  (apiKeys : ApiKeys) (r : Report sc) :
  performSocialSentimentAnalysis sc toLowerCase env tokenSymbol tokenName
    apiKeys = Resolved r ->
  In TELEGRAM_NOTE (notes r)
  /\ (In LUNARCRUSH_NOTE (notes r) <-> lunarCrush apiKeys = "")
  /\ (In SANTIMENT_NOTE (notes r)
      <-> getSantimentSentiment env (toLowerCase tokenSymbol) = [])
  /\ (In TWITTER_NOTE (notes r) <-> twitter apiKeys = None)
  /\ (In CROSS_CHECK_NOTE (notes r) <-> (2 <= List.length (riskFlags r))%nat)
  /\ Subseq (notes r) note_order
  /\ NoDup (notes r)
  /\ (1 <= List.length (notes r) <= 5)%nat.
Proof.
  intros Hrun.
  destruct (performSocialSentimentAnalysis_report env tokenSymbol tokenName
              apiKeys r Hrun) as (Hf & Hn & _).
  rewrite Hf, Hn.
  set (cross := Nat.ltb 1 (List.length
                             (run_riskFlags sc toLowerCase env tokenSymbol
                                tokenName apiKeys))).
  pose proof (in_run_notes env tokenSymbol apiKeys cross) as Hin.
  pose proof (run_notes_in_order env tokenSymbol apiKeys cross) as Hsub.
  assert (Hcross : cross = true
                   <-> (2 <= List.length
                               (run_riskFlags sc toLowerCase env tokenSymbol
                                  tokenName apiKeys))%nat).
  { unfold cross. rewrite Nat.ltb_lt. lia. }
  repeat match goal with |- _ /\ _ => split end.
  - apply Hin. tauto.
  - rewrite Hin. split; [| tauto].
    intros [[_ H] | [[H _] | [[H _] | [H | [H _]]]]];
      [exact H | discriminate H ..].
  - rewrite Hin. fold (series toLowerCase env tokenSymbol). split; [| tauto].
    intros [[H _] | [[_ H] | [[H _] | [H | [H _]]]]];
      [discriminate H | exact H | discriminate H ..].
  - rewrite Hin. split; [| tauto].
    intros [[H _] | [[H _] | [[_ H] | [H | [H _]]]]];
      [discriminate H | discriminate H | exact H | discriminate H ..].
  - rewrite Hin, <- Hcross. split; [| tauto].
    intros [[H _] | [[H _] | [[H _] | [H | [_ H]]]]];
      [discriminate H .. | exact H].
  - exact Hsub.
  - exact (Subseq_NoDup _ _ Hsub note_order_NoDup).
  - assert (Ht : In TELEGRAM_NOTE
                   (lunarCrush_notes apiKeys
                    ++ santiment_notes toLowerCase env tokenSymbol
                    ++ twitter_notes apiKeys ++ [TELEGRAM_NOTE]
                    ++ (if cross then [CROSS_CHECK_NOTE] else [])))
      by (apply Hin; tauto).
    destruct (lunarCrush_notes apiKeys
              ++ santiment_notes toLowerCase env tokenSymbol
              ++ twitter_notes apiKeys ++ [TELEGRAM_NOTE]
              ++ (if cross then [CROSS_CHECK_NOTE] else []));
      [contradiction | cbn; lia].
  - apply (Subseq_length _ _ Hsub).
Qed.

(** ** Failures and missing credentials *)

(** X19.  A failed LunarCrush lookup leaves no trace: with a key given and
    no record answered, a returned report has none of the LunarCrush fields,
    no influencers, no volume indicator and no bearish flag, and it has no
    note about LunarCrush either. *)
Theorem lunarCrush_failure_is_silent (env : Providers)
  (tokenSymbol tokenName : string) (apiKeys : ApiKeys) (r : Report sc) :
  lunarCrush apiKeys <> "" ->
  getLunarCrushData env tokenSymbol (lunarCrush apiKeys) = None ->
  performSocialSentimentAnalysis sc toLowerCase env tokenSymbol tokenName
    apiKeys = Resolved r ->
  galaxyScore (sentiment r) = Absent
  /\ relativeSentiment (sentiment r) = Absent
  /\ socialVolume (community r) = Absent
  /\ socialEngagement (community r) = Absent
  /\ influencers r = []
  /\ highVolume (hypeIndicators r) = None
  /\ ~ In BEARISH (riskFlags r)
  /\ ~ In LUNARCRUSH_NOTE (notes r).
Proof.
  intros Hkey Hnone Hrun.
  destruct (performSocialSentimentAnalysis_report env tokenSymbol tokenName
              apiKeys r Hrun) as (Hf & Hn & Hhv & _ & Hlc & _).
  assert (Hrec : lunarCrush_record env tokenSymbol apiKeys = None).
  { unfold lunarCrush_record. rewrite Hnone.
    destruct (String.eqb (lunarCrush apiKeys) ""); reflexivity. }
  rewrite Hrec in Hlc. destruct Hlc as (H1 & H2 & H3 & H4 & H5).
  unfold high_volume in Hhv. rewrite Hrec in Hhv.
  repeat match goal with |- _ /\ _ => split end; try assumption.
  - rewrite Hf. intros Hin. apply in_run_riskFlags in Hin.
    unfold bearish in Hin. rewrite Hrec in Hin.
    destruct Hin as [[_ H] | [[H _] | [H _]]];
      [discriminate H | discriminate H |].
    symmetry in H. exact (bot_flag_not_bearish _ H).
  - rewrite Hn. intros Hin. apply in_run_notes in Hin.
    destruct Hin as [[_ H] | [[H _] | [[H _] | [H | [H _]]]]];
      [exact (Hkey H) | discriminate H ..].
Qed.

(** X20.  A Twitter search that fails is reported as a search without
    results: with keys the client accepts and a search that is rejected or
    answers without a list of tweets, the run returns a report with a
    Twitter average of [0] and a tweet count of [0], without bot-activity
    flag, without Twitter hype indicator and without a note about Twitter. *)
Theorem twitter_search_failure_reports_zeros (env : Providers)
  (tokenSymbol tokenName : string) (apiKeys : ApiKeys) (keys : TwitterKeys) :
  twitter apiKeys = Some keys ->
  new_TwitterApi env keys = Constructed ->
  search_fails env tokenSymbol tokenName keys ->
  exists r,
    performSocialSentimentAnalysis sc toLowerCase env tokenSymbol tokenName
      apiKeys = Resolved r
    /\ twitterAverage (sentiment r) = Some (zero sc)
    /\ community_tweetCount (community r) = Some 0
    /\ (forall n, ~ In (bot_flag n) (riskFlags r))
    /\ twitterHype (hypeIndicators r) = None
    /\ ~ In TWITTER_NOTE (notes r).
Proof.
  intros Hk Hnew Hfail.
  pose proof (performSocialSentimentAnalysis_cases env tokenSymbol tokenName
                apiKeys) as Hc.
  rewrite Hk, Hnew in Hc. destruct Hc as (r & Hrun). exists r.
  split; [exact Hrun |].
  destruct (performSocialSentimentAnalysis_report env tokenSymbol tokenName
              apiKeys r Hrun) as (Hf & Hn & _ & Hth & _ & _ & Hta & Htc & _).
  assert (Hall : forall k,
             twitter apiKeys = Some k ->
             search_fails env tokenSymbol tokenName k).
  { intros k Hk'. rewrite Hk in Hk'. inversion Hk'; subst k. exact Hfail. }
  destruct (bots_without_tweets env tokenSymbol tokenName apiKeys Hall)
    as [Hz Hh].
  rewrite (twitter_data_search_fails env tokenSymbol tokenName apiKeys keys
             Hk Hfail) in Hta, Htc.
  rewrite Hh in Hth.
  repeat match goal with |- _ /\ _ => split end; try assumption.
  - rewrite Hf. intros n Hin. apply in_run_riskFlags in Hin.
    destruct Hin as [[H _] | [[H _] | [_ Hpos]]];
      [exact (bot_flag_not_bearish _ H)
      | exact (bot_flag_not_negative _ H) | lia].
  - rewrite Hn. intros Hin. apply in_run_notes in Hin.
    destruct Hin as [[H _] | [[H _] | [[_ H] | [H | [H _]]]]];
      [discriminate H | discriminate H | congruence | discriminate H ..].
Qed.

(** X21.  Without a LunarCrush key and without Twitter keys, the run returns
    a report that depends on the Santiment answer alone: two provider sets
    that agree on it give the same report, which has no LunarCrush and no
    Twitter data, at most the negative-sentiment flag, and never the
    cross-check note. *)
Theorem no_credentials_only_santiment (env1 env2 : Providers)
  (tokenSymbol tokenName : string) (apiKeys : ApiKeys) :
  lunarCrush apiKeys = "" ->
  twitter apiKeys = None ->
  same_santiment toLowerCase env1 env2 tokenSymbol ->
  exists r,
    performSocialSentimentAnalysis sc toLowerCase env1 tokenSymbol tokenName
      apiKeys = Resolved r
    /\ performSocialSentimentAnalysis sc toLowerCase env2 tokenSymbol tokenName
         apiKeys = Resolved r
    /\ galaxyScore (sentiment r) = Absent
    /\ relativeSentiment (sentiment r) = Absent
    /\ twitterAverage (sentiment r) = None
    /\ community r
       = {| socialVolume := Absent; socialEngagement := Absent;
            community_tweetCount := None |}
    /\ hypeIndicators r = {| highVolume := None; twitterHype := None |}
    /\ (riskFlags r = [] \/ riskFlags r = [NEGATIVE_WEIGHTED])
    /\ ~ In CROSS_CHECK_NOTE (notes r).
Proof.
  intros Hkey Htw Hsan.
  assert (Hrun : forall env,
             performSocialSentimentAnalysis sc toLowerCase env tokenSymbol
               tokenName apiKeys
             = Resolved
                 (closingNotes sc
                    (push_note sc TWITTER_NOTE
                       (checkSantiment sc toLowerCase env tokenSymbol
                          (push_note sc LUNARCRUSH_NOTE (initial_report sc)))))).
  { intros env. unfold performSocialSentimentAnalysis, checkTwitter,
      checkLunarCrush. rewrite Hkey, Htw. reflexivity. }
  assert (Hs : forall r,
             checkSantiment sc toLowerCase env1 tokenSymbol r
             = checkSantiment sc toLowerCase env2 tokenSymbol r).
  { intros r. unfold checkSantiment, getSantimentSentiment.
    unfold same_santiment in Hsan. rewrite Hsan. reflexivity. }
  eexists. split; [apply Hrun |]. split; [rewrite Hrun, Hs; reflexivity |].
  rewrite closingNotes_eq, checkSantiment_eq.
  cbn [riskFlags notes sentiment community influencers hypeIndicators
       galaxyScore relativeSentiment santimentWeighted santimentTrend
       twitterAverage socialVolume socialEngagement community_tweetCount
       highVolume twitterHype initial_report push_note app].
  unfold santiment_flags, santiment_notes.
  repeat match goal with |- _ /\ _ => split end; try reflexivity.
  - destruct (negative_weighted toLowerCase env1 tokenSymbol);
      [right | left]; reflexivity.
  - destruct (negative_weighted toLowerCase env1 tokenSymbol),
             (series toLowerCase env1 tokenSymbol);
      cbn; intuition discriminate.
Qed.

(** ** Hype indicators *)

(** X22.  The hype indicators of a returned report: high volume is set
    exactly when a LunarCrush key was given and the record's social volume
    is above 1000, and is absent otherwise; Twitter hype is set only in a
    report whose tweet count is above 20, and is absent otherwise. *)
Theorem hype_indicator_iff_condition (env : Providers)
  (tokenSymbol tokenName : string) (apiKeys : ApiKeys) (r : Report sc) :
  performSocialSentimentAnalysis sc toLowerCase env tokenSymbol tokenName
    apiKeys = Resolved r ->
  (highVolume (hypeIndicators r) = Some HIGH_VOLUME
   <-> lunarCrush apiKeys <> ""
       /\ exists lcData v,
            getLunarCrushData env tokenSymbol (lunarCrush apiKeys) = Some lcData
            /\ to_number (social_volume lcData) = Some v
            /\ (1000 # 1 < v)%Q)
  /\ (highVolume (hypeIndicators r) = Some HIGH_VOLUME
      \/ highVolume (hypeIndicators r) = None)
  /\ (twitterHype (hypeIndicators r) = Some TWITTER_HYPE ->
      exists n, community_tweetCount (community r) = Some n /\ 20 < n)
  /\ (twitterHype (hypeIndicators r) = Some TWITTER_HYPE
      \/ twitterHype (hypeIndicators r) = None).
Proof.
  intros Hrun.
  destruct (performSocialSentimentAnalysis_report env tokenSymbol tokenName
              apiKeys r Hrun) as (_ & _ & Hhv & Hth & _ & _ & _ & Htc & _).
  rewrite Hhv, Hth, Htc, <- high_volume_iff.
  unfold twitter_hype.
  destruct (high_volume env tokenSymbol apiKeys),
           (twitter_data sc env tokenSymbol tokenName apiKeys)
             as [twitterData |];
    cbn [option_map];
    try destruct (20 <? tweetCount twitterData) eqn:Hn; cbn [andb];
    try destruct (above_one sc (averageScore twitterData));
    repeat split; auto; try (intros H; discriminate H);
    intros _; exists (tweetCount twitterData);
    (split; [reflexivity | apply Z.ltb_lt; exact Hn]).
Qed.

(** X23.  A [null] compares as zero, a missing field compares as NaN: in a
    returned report a LunarCrush record whose relative sentiment is [null]
    raises the bearish flag, one without the field does not, and neither a
    [null] nor a missing social volume sets the volume indicator.  A [null]
    or missing value of the last Santiment point raises no flag. *)
Theorem null_fields_compare_as_zero (env : Providers)
  (tokenSymbol tokenName : string) (apiKeys : ApiKeys) (lcData : LcData)
  (r : Report sc) :
  lunarCrush apiKeys <> "" ->
  getLunarCrushData env tokenSymbol (lunarCrush apiKeys) = Some lcData ->
  performSocialSentimentAnalysis sc toLowerCase env tokenSymbol tokenName
    apiKeys = Resolved r ->
  (sentiment_relative lcData = JNull -> In BEARISH (riskFlags r))
  /\ (sentiment_relative lcData = Absent -> ~ In BEARISH (riskFlags r))
  /\ (social_volume lcData = JNull \/ social_volume lcData = Absent ->
      highVolume (hypeIndicators r) = None)
  /\ (forall first rest,
         getSantimentSentiment env (toLowerCase tokenSymbol) = first :: rest ->
         value (last rest first) = JNull \/ value (last rest first) = Absent ->
         ~ In NEGATIVE_WEIGHTED (riskFlags r)).
Proof.
  intros Hkey Hd Hrun.
  destruct (performSocialSentimentAnalysis_report env tokenSymbol tokenName
              apiKeys r Hrun) as (Hf & _ & Hhv & _).
  assert (Hrec : lunarCrush_record env tokenSymbol apiKeys = Some lcData)
    by (apply lunarCrush_record_iff; tauto).
  rewrite Hf, Hhv.
  repeat match goal with |- _ /\ _ => split end.
  - intros Hnull. apply in_run_riskFlags. left. split; [reflexivity |].
    unfold bearish. rewrite Hrec, Hnull. reflexivity.
  - intros Habs Hin. apply in_run_riskFlags in Hin.
    unfold bearish in Hin. rewrite Hrec, Habs in Hin.
    destruct Hin as [[_ H] | [[H _] | [H _]]];
      [discriminate H | discriminate H |].
    symmetry in H. exact (bot_flag_not_bearish _ H).
  - intros Hv. unfold high_volume. rewrite Hrec.
    destruct Hv as [-> | ->]; reflexivity.
  - intros first rest Hs Hv Hin. apply in_run_riskFlags in Hin.
    unfold negative_weighted, recent_sentiment, series, recent_value in Hin.
    rewrite Hs in Hin.
    destruct Hin as [[H _] | [[_ H] | [H _]]];
      [discriminate H | | symmetry in H; exact (bot_flag_not_negative _ H)].
    destruct Hv as [Hv | Hv]; rewrite Hv in H; discriminate H.
Qed.

End WithScoring.

(** ** Sample runs *)

Lemma twitter_client_failure_aborts_run_witness :
  performSocialSentimentAnalysis SentimentSamples.exact_scoring JS.toLowerCase
    SentimentSamples.all_down "BONK" "Bonk Solana"
    SentimentSamples.example_keys
  = Rejected "Invalid consumer tokens".
Proof.
  destruct (twitter_client_failure_aborts_run SentimentSamples.exact_scoring
              JS.toLowerCase SentimentSamples.all_down "BONK" "Bonk Solana"
              SentimentSamples.example_keys) as [Hrej _].
  apply Hrej. exists SentimentSamples.empty_keys. split; reflexivity.
Defined.

Lemma sentiment_flag_iff_condition_witness :
  exists r,
    performSocialSentimentAnalysis SentimentSamples.exact_scoring
      JS.toLowerCase SentimentSamples.bearish_market "BONK" "Bonk Solana"
      SentimentSamples.all_keys = Resolved r
    /\ In BEARISH (riskFlags r)
    /\ In NEGATIVE_WEIGHTED (riskFlags r)
    /\ (forall n, ~ In (bot_flag n) (riskFlags r)).
Proof.
  eexists. split; [vm_compute; reflexivity |].
  destruct (sentiment_flag_iff_condition SentimentSamples.exact_scoring
              JS.toLowerCase SentimentSamples.bearish_market "BONK"
              "Bonk Solana" SentimentSamples.all_keys _ eq_refl)
    as (Hb & Hn & Hbot & _).
  split; [| split].
  - apply Hb. split; [intros H; discriminate H |].
    exists SentimentSamples.bearish_asset, (1 # 4)%Q.
    repeat split; reflexivity.
  - apply Hn.
    exists {| datetime := "2024-05-01"; value := JNum (1 # 2) |},
           [{| datetime := "2024-05-02"; value := JNum (-1 # 3) |}],
           (-1 # 3)%Q.
    repeat split; reflexivity.
  - apply Hbot. intros keys _ tweets H. discriminate H.
Defined.

Lemma notes_iff_condition_witness :
  exists r,
    performSocialSentimentAnalysis SentimentSamples.exact_scoring
      JS.toLowerCase SentimentSamples.bearish_market "BONK" "Bonk Solana"
      SentimentSamples.all_keys = Resolved r
    /\ List.length (riskFlags r) = 2%nat
    /\ In CROSS_CHECK_NOTE (notes r)
    /\ ~ In LUNARCRUSH_NOTE (notes r).
Proof.
  eexists. split; [vm_compute; reflexivity |].
  destruct (notes_iff_condition SentimentSamples.exact_scoring
              JS.toLowerCase SentimentSamples.bearish_market "BONK"
              "Bonk Solana" SentimentSamples.all_keys _ eq_refl)
    as (_ & Hl & _ & _ & Hc & _).
  split; [reflexivity |]. split.
  - apply Hc. cbn. lia.
  - intros H. apply Hl in H. discriminate H.
Defined.

Lemma lunarCrush_failure_is_silent_witness :
  exists r,
    performSocialSentimentAnalysis SentimentSamples.exact_scoring
      JS.toLowerCase SentimentSamples.all_down "BONK" "Bonk Solana"
      SentimentSamples.all_keys = Resolved r
    /\ lunarCrush SentimentSamples.all_keys <> ""
    /\ getLunarCrushData SentimentSamples.all_down "BONK"
         (lunarCrush SentimentSamples.all_keys) = None
    /\ galaxyScore (sentiment r) = Absent
    /\ ~ In BEARISH (riskFlags r)
    /\ ~ In LUNARCRUSH_NOTE (notes r).
Proof.
  eexists. split; [vm_compute; reflexivity |].
  assert (Hkey : lunarCrush SentimentSamples.all_keys <> "")
    by (intros H; discriminate H).
  split; [exact Hkey |]. split; [reflexivity |].
  destruct (lunarCrush_failure_is_silent SentimentSamples.exact_scoring
              JS.toLowerCase SentimentSamples.all_down "BONK" "Bonk Solana"
              SentimentSamples.all_keys _ Hkey eq_refl eq_refl)
    as (H1 & _ & _ & _ & _ & _ & H7 & H8).
  repeat split; assumption.
Defined.

Lemma twitter_search_failure_reports_zeros_witness :
  exists r,
    performSocialSentimentAnalysis SentimentSamples.exact_scoring
      JS.toLowerCase SentimentSamples.all_down "BONK" "Bonk Solana"
      SentimentSamples.all_keys = Resolved r
    /\ twitterAverage (sentiment r) = Some (Some 0%Q)
    /\ community_tweetCount (community r) = Some 0
    /\ ~ In TWITTER_NOTE (notes r).
Proof.
  destruct (twitter_search_failure_reports_zeros SentimentSamples.exact_scoring
              JS.toLowerCase SentimentSamples.all_down "BONK" "Bonk Solana"
              SentimentSamples.all_keys SentimentSamples.sample_keys)
    as (r & Hrun & Ha & Hc & _ & _ & Hn);
    [reflexivity | reflexivity | intros tweets H; discriminate H |].
  exists r. repeat split; assumption.
Defined.

Lemma no_credentials_only_santiment_witness :
  same_santiment JS.toLowerCase SentimentSamples.all_down
    SentimentSamples.santiment_down "BONK"
  /\ exists r,
       performSocialSentimentAnalysis SentimentSamples.exact_scoring
         JS.toLowerCase SentimentSamples.all_down "BONK" "Bonk Solana"
         SentimentSamples.no_keys = Resolved r
       /\ performSocialSentimentAnalysis SentimentSamples.exact_scoring
            JS.toLowerCase SentimentSamples.santiment_down "BONK" "Bonk Solana"
            SentimentSamples.no_keys = Resolved r.
Proof.
  split; [reflexivity |].
  destruct (no_credentials_only_santiment SentimentSamples.exact_scoring
              JS.toLowerCase SentimentSamples.all_down
              SentimentSamples.santiment_down "BONK" "Bonk Solana"
              SentimentSamples.no_keys)
    as (r & H1 & H2 & _); [reflexivity | reflexivity | reflexivity |].
  exists r. split; assumption.
Defined.

Lemma hype_indicator_iff_condition_witness :
  exists r,
    performSocialSentimentAnalysis SentimentSamples.exact_scoring
      JS.toLowerCase SentimentSamples.bearish_market "BONK" "Bonk Solana"
      SentimentSamples.all_keys = Resolved r
    /\ highVolume (hypeIndicators r) = Some HIGH_VOLUME
    /\ twitterHype (hypeIndicators r) = None.
Proof.
  eexists. split; [vm_compute; reflexivity |].
  destruct (hype_indicator_iff_condition SentimentSamples.exact_scoring
              JS.toLowerCase SentimentSamples.bearish_market "BONK"
              "Bonk Solana" SentimentSamples.all_keys _ eq_refl)
    as (Hv & _ & _ & [Hth | Hth]).
  - split; [| discriminate Hth].
    apply Hv. split; [intros H; discriminate H |].
    exists SentimentSamples.bearish_asset, (2500 # 1)%Q.
    repeat split; reflexivity.
  - split; [| exact Hth].
    apply Hv. split; [intros H; discriminate H |].
    exists SentimentSamples.bearish_asset, (2500 # 1)%Q.
    repeat split; reflexivity.
Defined.

Lemma null_fields_compare_as_zero_witness :
  exists r,
    performSocialSentimentAnalysis SentimentSamples.exact_scoring
      JS.toLowerCase SentimentSamples.quiet "BONK" "Bonk Solana"
      SentimentSamples.all_keys = Resolved r
    /\ sentiment_relative SentimentSamples.null_asset = JNull
    /\ In BEARISH (riskFlags r)
    /\ highVolume (hypeIndicators r) = None
    /\ ~ In NEGATIVE_WEIGHTED (riskFlags r).
Proof.
  eexists. split; [vm_compute; reflexivity |].
  assert (Hkey : lunarCrush SentimentSamples.all_keys <> "")
    by (intros H; discriminate H).
  destruct (null_fields_compare_as_zero SentimentSamples.exact_scoring
              JS.toLowerCase SentimentSamples.quiet "BONK" "Bonk Solana"
              SentimentSamples.all_keys SentimentSamples.null_asset _
              Hkey eq_refl eq_refl)
    as (Hb & _ & Hv & Hn).
  split; [reflexivity |]. split; [exact (Hb eq_refl) |].
  split; [apply Hv; left; reflexivity |].
  apply (Hn {| datetime := "2024-05-02"; value := JNull |} []);
    [reflexivity | left; reflexivity].
Defined.

End SentimentFacts.
